(** * Synapse: headline clustering, model persistence and fallback summaries

    A shallow embedding of [clustering.py] ([HeadlineClusterer]), of
    [summarizer.py] ([GeminiSummarizer]), of [scraper.py]
    ([GoogleNewsScraper]), of the daily run of [scheduler.py] and of the
    executive-summary tab of [app.py], with the properties of their
    specification stated and proved over it.

    Conventions of the embedding:
    - a Python method that mutates [self] is a function that takes the
      instance and returns the new instance next to its outcome;
    - an outcome is [Ok v] (the method returned [v]) or [Raise e] (the
      exception [e] left the method); the instance returned next to
      [Raise e] carries the assignments made before the exception;
    - NumPy, scikit-learn, sentence-transformers, pandas, pickle, json, the
      Unicode tables behind [str.lower] and [str.split], the file system and
      the Gemini REST endpoint are not code of this repository: they are
      operations of an interface class, together with the part of their
      documented contract the proofs rely on;
    - [print] calls are dropped: they have no effect on the values studied. *)

From Stdlib Require Import List String Ascii Bool Arith Lia QArith Sorted Permutation.
From Stdlib Require Import DecimalString.
From stdpp Require Import gmap strings.
Import ListNotations.

Local Open Scope nat_scope.
Local Open Scope string_scope.

(** ** Outcomes of Python calls *)

Inductive exn : Type :=
| ValueError
| TypeError
| IndexError
| KeyError (key : string)
| AttributeError
| UnpicklingError
| PermissionError
| FileNotFoundError
| EmptyDataError
| Exception.

Inductive result (A : Type) : Type :=
| Ok (a : A)
| Raise (e : exn).
Arguments Ok {A} a.
Arguments Raise {A} e.

#[global] Instance result_ret : MRet result := fun _ a => Ok a.
#[global] Instance result_bind : MBind result := fun _ _ f m =>
  match m with
  | Ok a => f a
  | Raise e => Raise e
  end.

Definition from_option {A} (e : exn) (o : option A) : result A :=
  match o with
  | Some a => Ok a
  | None => Raise e
  end.

(** What the path of a text file of [DATA_DIR] leads to: a file the process
    can open, with its content, or a file it has no permission to open.  A
    path that leads to nothing is [None]. *)
Inductive data_file (A : Type) : Type :=
| Written (content : A)
| NoAccess.
Arguments Written {A} content.
Arguments NoAccess {A}.

(** [open(path, 'w')] succeeds: the path is free or leads to a file the
    process can open. *)
Definition writable {A : Type} (f : option (data_file A)) : bool :=
  match f with
  | Some NoAccess => false
  | Some (Written _) | None => true
  end.

(** ** config.py *)

Definition K_CLUSTERS : nat := 10.
Definition EMBEDDING_MODEL : string := "sentence-transformers/all-MiniLM-L6-v2".
Definition DATA_DIR : string := "data".

(** [os.path.join(DATA_DIR, name)] on a POSIX path. *)
Definition path_join (dir name : string) : string := dir ++ "/" ++ name.

(** ** Embedding vectors and the numeric libraries *)

(** An embedding is a row of finite floating-point numbers; every finite
    float is a rational. *)
Definition Vec : Type := list Q.

(** [sklearn.cluster.KMeans]: the constructor arguments the source passes
    and the fitted attribute it reads back. *)
Record KMeans : Type := mkKMeans {
  km_n_clusters : nat;
  random_state : option nat;
  n_init : nat;
  cluster_centers_ : option (list Vec)
}.

Definition set_cluster_centers_ (km : KMeans) (c : list Vec) : KMeans :=
  {| km_n_clusters := km_n_clusters km;
     random_state := random_state km;
     n_init := n_init km;
     cluster_centers_ := Some c |}.

(** The library operations used by [clustering.py].  The rows of one
    instance and its centres have one dimension, that of the encoder.

    - [encode m hs] is [SentenceTransformer(m).encode(hs)]: one row per
      text, the same rows for the same model and texts.
    - [norm_diff e c] is [np.linalg.norm(e - c)] for one row [e].
    - [lloyd seed n_init k X] is one fit of scikit-learn's k-means started
      from the generator state [seed]; [None] is the [ValueError] of its
      input validation.  On success it gives one label per sample, each below
      [k], and [k] centres.  It refuses an empty array, it refuses fewer
      samples than clusters ("n_samples=.. should be >= n_clusters=..") and
      it accepts [k] samples or more when [k] is positive. *)
Class NumericBackend : Type := {
  encode : string -> list string -> list Vec;
  norm_diff : Vec -> Vec -> Q;
  lloyd : nat -> nat -> nat -> list Vec -> option (list nat * list Vec);
  encode_length : forall m hs, length (encode m hs) = length hs;
  lloyd_empty : forall seed ni k, lloyd seed ni k [] = None;
  lloyd_insufficient : forall seed ni k X,
    length X < k -> lloyd seed ni k X = None;
  lloyd_total : forall seed ni k X,
    0 < k <= length X -> exists r, lloyd seed ni k X = Some r;
  lloyd_shape : forall seed ni k X labels centers,
    lloyd seed ni k X = Some (labels, centers) ->
    length labels = length X /\
    Forall (fun l => l < k) labels /\
    length centers = k
}.

(** [np.argmin]: the first position of the minimum; [ValueError] (here
    [None]) on an empty sequence. *)
Fixpoint argmin_from (best_i : nat) (best : Q) (i : nat) (ds : list Q) : nat :=
  match ds with
  | [] => best_i
  | d :: ds' =>
      if Qle_bool best d
      then argmin_from best_i best (S i) ds'
      else argmin_from i d (S i) ds'
  end.

Definition argmin (ds : list Q) : option nat :=
  match ds with
  | [] => None
  | d :: ds' => Some (argmin_from 0 d 1 ds')
  end.

(** ** clustering.py *)

Module Clustering.

(** One entry of [cluster_results]. *)
Record item : Type := mkItem {
  headline : string;
  cluster_id : nat;
  embedding_index : nat
}.

(** One value of the [cluster_summaries] dictionary. *)
Record cluster_summary : Type := mkSummary {
  representative_headline : string;
  headlines : list string;
  size : nat
}.

(** The instance attributes of [HeadlineClusterer]. *)
Record HeadlineClusterer : Type := mkClusterer {
  model_name : string;
  n_clusters : nat;
  embedding_model : string;
  kmeans : KMeans;
  embeddings : option (list Vec);
  cluster_labels : option (list nat)
}.

Definition set_embeddings (st : HeadlineClusterer) (E : list Vec) : HeadlineClusterer :=
  {| model_name := model_name st;
     n_clusters := n_clusters st;
     embedding_model := embedding_model st;
     kmeans := kmeans st;
     embeddings := Some E;
     cluster_labels := cluster_labels st |}.

Definition set_fit (st : HeadlineClusterer) (km : KMeans) (labels : list nat)
  : HeadlineClusterer :=
  {| model_name := model_name st;
     n_clusters := n_clusters st;
     embedding_model := embedding_model st;
     kmeans := km;
     embeddings := embeddings st;
     cluster_labels := Some labels |}.

(** [__init__]: the k-means object is built with [random_state=42] and
    [n_init=10]. *)
Definition init (name : string) (k : nat) : HeadlineClusterer :=
  {| model_name := name;
     n_clusters := k;
     embedding_model := name;
     kmeans := {| km_n_clusters := k;
                  random_state := Some 42;
                  n_init := 10;
                  cluster_centers_ := None |};
     embeddings := None;
     cluster_labels := None |}.

(** A Python dictionary with integer keys, in insertion order:
    [d[k] = v] replaces the value of a key already present and appends a
    new key. *)
Fixpoint dict_set {V : Type} (k : nat) (v : V) (d : list (nat * V)) : list (nat * V) :=
  match d with
  | [] => [(k, v)]
  | (k', v') :: d' =>
      if Nat.eqb k' k then (k, v) :: d' else (k', v') :: dict_set k v d'
  end.

(** [enumerate(zip(headlines, labels))], started at index [i]: the shorter
    of the two sequences decides the length. *)
Fixpoint zip_enumerate (i : nat) (hs : list string) (labels : list nat) : list item :=
  match hs, labels with
  | h :: hs', l :: labels' =>
      {| headline := h; cluster_id := l; embedding_index := i |}
        :: zip_enumerate (S i) hs' labels'
  | _, _ => []
  end.

(** [self.embeddings[cluster_indices]]: fancy indexing, [IndexError] when an
    index is out of bounds. *)
Fixpoint take_rows (E : list Vec) (idx : list nat) : result (list Vec) :=
  match idx with
  | [] => Ok []
  | i :: idx' =>
      match E !! i with
      | None => Raise IndexError
      | Some e =>
          match take_rows E idx' with
          | Ok es => Ok (e :: es)
          | Raise x => Raise x
          end
      end
  end.

Section Methods.
Context `{NumericBackend}.

(** [KMeans.fit_predict].  An integer [random_state] seeds a new generator
    at every fit; with [random_state=None] the fit draws from the global
    generator, whose state [entropy] differs from run to run. *)
Definition fit_predict (entropy : nat) (km : KMeans) (X : list Vec)
  : KMeans * result (list nat) :=
  let seed := match random_state km with
              | Some s => s
              | None => entropy
              end in
  match lloyd seed (n_init km) (km_n_clusters km) X with
  | Some (labels, centers) => (set_cluster_centers_ km centers, Ok labels)
  | None => (km, Raise ValueError)
  end.

(** [create_embeddings] *)
Definition create_embeddings (st : HeadlineClusterer) (hs : list string)
  : HeadlineClusterer * list Vec :=
  let E := encode (embedding_model st) hs in
  (set_embeddings st E, E).

(** [cluster_headlines]: the batch is encoded only when the instance holds
    no embeddings; the fit is run on the embeddings the instance holds.  An
    exception of the fit leaves the method before [cluster_labels] is
    assigned. *)
Definition cluster_headlines (entropy : nat) (st : HeadlineClusterer)
    (hs : list string) : HeadlineClusterer * result (list item) :=
  let st1 := match embeddings st with
             | None => fst (create_embeddings st hs)
             | Some _ => st
             end in
  match embeddings st1 with
  | None => (st1, Raise ValueError)
  | Some X =>
      match fit_predict entropy (kmeans st1) X with
      | (km, Ok labels) =>
          (set_fit st1 km labels, Ok (zip_enumerate 0 hs labels))
      | (km, Raise e) => (st1, Raise e)
      end
  end.

(** The entries [item for item in cluster_results if item['cluster_id'] ==
    cluster_id]. *)
Definition members (cluster_results : list item) (cid : nat) : list item :=
  List.filter (fun it => Nat.eqb (cluster_id it) cid) cluster_results.

(** The body of the loop of [get_cluster_summaries] for one [cluster_id]:
    [Ok None] when the group has no headline. *)
Definition summarize_cluster (st : HeadlineClusterer) (cluster_results : list item)
    (cid : nat) : result (option cluster_summary) :=
  let cluster_headlines := map headline (members cluster_results cid) in
  match cluster_headlines with
  | [] => Ok None
  | _ :: _ =>
      let cluster_indices := map embedding_index (members cluster_results cid) in
      E ← from_option TypeError (embeddings st);
      cluster_embeddings ← take_rows E cluster_indices;
      C ← from_option AttributeError (cluster_centers_ (kmeans st));
      centroid ← from_option IndexError (C !! cid);
      let distances := map (fun e => norm_diff e centroid) cluster_embeddings in
      pos ← from_option ValueError (argmin distances);
      representative_idx ← from_option IndexError (cluster_indices !! pos);
      rep ← from_option IndexError (cluster_results !! representative_idx);
      Ok (Some {| representative_headline := headline rep;
                  headlines := cluster_headlines;
                  size := length cluster_headlines |})
  end.

(** The loop over [range(self.n_clusters)], with the dictionary built so
    far. *)
Fixpoint summaries_loop (st : HeadlineClusterer) (cluster_results : list item)
    (cids : list nat) (acc : list (nat * cluster_summary))
  : result (list (nat * cluster_summary)) :=
  match cids with
  | [] => Ok acc
  | cid :: rest =>
      match summarize_cluster st cluster_results cid with
      | Raise e => Raise e
      | Ok None => summaries_loop st cluster_results rest acc
      | Ok (Some s) =>
          summaries_loop st cluster_results rest (dict_set cid s acc)
      end
  end.

(** [get_cluster_summaries] *)
Definition get_cluster_summaries (st : HeadlineClusterer) (cluster_results : list item)
  : result (list (nat * cluster_summary)) :=
  summaries_loop st cluster_results (seq 0 (n_clusters st)) [].

(** The two calls every caller makes in a row ([__main__], the scheduler and
    the dashboard): [cluster_headlines], then [get_cluster_summaries] on its
    result. *)
Definition run_pipeline (entropy : nat) (st : HeadlineClusterer) (hs : list string)
  : HeadlineClusterer * result (list (nat * cluster_summary)) :=
  match cluster_headlines entropy st hs with
  | (st', Ok cluster_results) => (st', get_cluster_summaries st' cluster_results)
  | (st', Raise e) => (st', Raise e)
  end.

(** The instance after a sequence of [cluster_headlines] calls, each with
    the generator state of its moment and its own batch. *)
Fixpoint cluster_calls (st : HeadlineClusterer) (batches : list (nat * list string))
  : HeadlineClusterer :=
  match batches with
  | [] => st
  | (entropy, hs) :: rest =>
      cluster_calls (fst (cluster_headlines entropy st hs)) rest
  end.

End Methods.

(** [cluster_results] as [cluster_headlines] builds it: the entry at
    position [j] carries [embedding_index = j]. *)
Definition aligned (cluster_results : list item) : Prop :=
  forall j it, cluster_results !! j = Some it -> embedding_index it = j.

(** The instance holds a row for every entry and a centre for every
    label. *)
Definition fitted_for (st : HeadlineClusterer) (cluster_results : list item) : Prop :=
  exists E C,
    embeddings st = Some E /\
    cluster_centers_ (kmeans st) = Some C /\
    length cluster_results <= length E /\
    Forall (fun it => cluster_id it < length C) cluster_results.

(** [km'] has the constructor arguments of [km]. *)
Definition same_params (km km' : KMeans) : Prop :=
  km_n_clusters km' = km_n_clusters km /\
  random_state km' = random_state km /\
  n_init km' = n_init km.

(** The group [cid] has at least one entry. *)
Definition populated (cluster_results : list item) (cid : nat) : bool :=
  existsb (fun it => Nat.eqb (cluster_id it) cid) cluster_results.

(** [text] is the headline of the entry of group [cid] whose stored row is
    nearest to the centre of the group, the first such entry when several
    are equally near. *)
Definition nearest_member `{NumericBackend} (st : HeadlineClusterer)
    (cluster_results : list item) (cid : nat) (text : string) : Prop :=
  exists E C c i rep e,
    embeddings st = Some E /\
    cluster_centers_ (kmeans st) = Some C /\
    C !! cid = Some c /\
    cluster_results !! i = Some rep /\
    cluster_id rep = cid /\
    headline rep = text /\
    E !! i = Some e /\
    forall j other ej,
      cluster_results !! j = Some other ->
      cluster_id other = cid ->
      E !! j = Some ej ->
      (norm_diff e c <= norm_diff ej c)%Q /\
      (j < i -> (norm_diff e c < norm_diff ej c)%Q).

End Clustering.

(** ** Model persistence ([save_model], [load_model]) *)

Module Persistence.
Import Clustering.

(** The Python values that can sit in an attribute of the instance or in a
    pickle file.  Attributes are dynamically typed: [load_model] stores
    whatever the file holds, and a pickle file can hold an object of any
    class.  [PyObject getitem] is an object of a class other than those
    listed ([collections.defaultdict], a pandas object, an instance of a class
    of the caller): [getitem key] is what [obj[key]] gives when [load_model]
    asks for [key], a value or the exception of its [__getitem__]; an object
    that has no [__getitem__] raises [TypeError] for every key. *)
#[warnings="-register-all"]
Inductive pyobj : Type :=
| PyNone
| PyInt (n : nat)
| PyStr (s : string)
| PyKMeans (km : KMeans)
| PyArray (rows : list Vec)
| PyLabels (labels : list nat)
| PyEncoder (name : string)
| PyDict (d : list (string * pyobj))
| PyObject (getitem : string -> result pyobj).

(** [pickle.dump] and [pickle.load] over the content of a file, and the
    file system under them.  [None] is a content that [pickle.load] rejects.
    What was dumped loads back.  [realpath p] names the file that
    [open(p, ..)] reaches from the working directory of the process: two
    spellings of one file have one [realpath]. *)
Class Pickle : Type := {
  blob : Type;
  pickle_dump : pyobj -> blob;
  pickle_load : blob -> option pyobj;
  pickle_round_trip : forall o, pickle_load (pickle_dump o) = Some o;
  realpath : string -> string
}.

(** Lookup in a dictionary literal or an unpickled dictionary. *)
Fixpoint dict_get (d : list (string * pyobj)) (key : string) : option pyobj :=
  match d with
  | [] => None
  | (k, v) :: d' => if String.eqb k key then Some v else dict_get d' key
  end.

(** [obj[key]] with a string key. *)
Definition subscript (obj : pyobj) (key : string) : result pyobj :=
  match obj with
  | PyDict d => from_option (KeyError key) (dict_get d key)
  | PyArray _ | PyLabels _ => Raise IndexError
  | PyNone | PyInt _ | PyStr _ | PyKMeans _ | PyEncoder _ => Raise TypeError
  | PyObject getitem => getitem key
  end.

Definition py_option {A : Type} (f : A -> pyobj) (o : option A) : pyobj :=
  match o with
  | Some a => f a
  | None => PyNone
  end.

(** The attribute dictionary of an instance whose attributes have the types
    [__init__] and [cluster_headlines] give them. *)
Definition attrs (st : HeadlineClusterer) : gmap string pyobj :=
  <["model_name" := PyStr (model_name st)]>
  (<["n_clusters" := PyInt (n_clusters st)]>
  (<["embedding_model" := PyEncoder (embedding_model st)]>
  (<["kmeans" := PyKMeans (kmeans st)]>
  (<["embeddings" := py_option PyArray (embeddings st)]>
  (<["cluster_labels" := py_option PyLabels (cluster_labels st)]> ∅))))).

(** The [model_data] dictionary literal of [save_model]. *)
Definition model_data_of (st : HeadlineClusterer) : pyobj :=
  PyDict [ ("kmeans", PyKMeans (kmeans st));
           ("embeddings", py_option PyArray (embeddings st));
           ("cluster_labels", py_option PyLabels (cluster_labels st));
           ("model_name", PyStr (model_name st));
           ("n_clusters", PyInt (n_clusters st)) ].

Definition default_filepath : string := path_join DATA_DIR "clustering_model.pkl".

Section Methods.
Context `{Pickle}.

(** The file that the [filepath] argument leads to, the default path when
    it is [None].  The files of the process are keyed by it. *)
Definition resolve (filepath : option string) : string :=
  realpath match filepath with
           | None => default_filepath
           | Some p => p
           end.

(** What a path of the file system leads to: a file the process can open,
    with its content, or a file it has no permission to open.  A path
    outside the map leads to nothing. *)
Inductive file : Type :=
| Regular (content : blob)
| Denied.

(** [save_model]: [open(filepath, 'wb')] creates the file or empties it,
    and [pickle.dump] writes the dictionary; nothing is caught.  The
    directory of the path is taken to exist (config.py creates [DATA_DIR] on
    import). *)
Definition save_model (fs : gmap string file) (st : HeadlineClusterer)
    (filepath : option string) : gmap string file * result unit :=
  match fs !! resolve filepath with
  | Some Denied => (fs, Raise PermissionError)
  | Some (Regular _) | None =>
      (<[resolve filepath := Regular (pickle_dump (model_data_of st))]> fs, Ok tt)
  end.

(** [self.attr = model_data[key]], then the rest of the [try] body. *)
Definition assign (model_data : pyobj) (attr key : string)
    (rest : gmap string pyobj -> gmap string pyobj * result bool)
    (self : gmap string pyobj) : gmap string pyobj * result bool :=
  match subscript model_data key with
  | Raise e => (self, Raise e)
  | Ok v => rest (<[attr := v]> self)
  end.

(** The [except FileNotFoundError] clause around the whole [try] body: it
    returns [False] wherever in the body the exception came from, and the
    assignments made before it stay. *)
Definition except_not_found (outcome : gmap string pyobj * result bool)
  : gmap string pyobj * result bool :=
  match outcome with
  | (self', Raise FileNotFoundError) => (self', Ok false)
  | _ => outcome
  end.

(** [load_model]: only [FileNotFoundError] is caught. *)
Definition load_model (fs : gmap string file) (self : gmap string pyobj)
    (filepath : option string) : gmap string pyobj * result bool :=
  match fs !! resolve filepath with
  | None => (self, Ok false)
  | Some Denied => (self, Raise PermissionError)
  | Some (Regular content) =>
      match pickle_load content with
      | None => (self, Raise UnpicklingError)
      | Some model_data =>
          except_not_found
            (assign model_data "kmeans" "kmeans"
              (assign model_data "embeddings" "embeddings"
                (assign model_data "cluster_labels" "cluster_labels"
                  (assign model_data "model_name" "model_name"
                    (assign model_data "n_clusters" "n_clusters"
                      (fun self' => (self', Ok true))))))
              self)
      end
  end.

End Methods.

(** The schema of the persisted record: a dictionary whose five keys hold
    values of the kinds [save_model] writes. *)
Definition kind_ok (key : string) (v : pyobj) : bool :=
  if String.eqb key "kmeans" then
    match v with PyKMeans _ => true | _ => false end
  else if String.eqb key "embeddings" then
    match v with PyArray _ | PyNone => true | _ => false end
  else if String.eqb key "cluster_labels" then
    match v with PyLabels _ | PyNone => true | _ => false end
  else if String.eqb key "model_name" then
    match v with PyStr _ => true | _ => false end
  else if String.eqb key "n_clusters" then
    match v with PyInt _ => true | _ => false end
  else true.

Definition persisted_keys : list string :=
  ["kmeans"; "embeddings"; "cluster_labels"; "model_name"; "n_clusters"].

(** The unpickled object is a dictionary that has the five keys. *)
Definition has_keys (obj : pyobj) : bool :=
  match obj with
  | PyDict d =>
      forallb (fun key => match dict_get d key with
                          | Some _ => true
                          | None => false
                          end) persisted_keys
  | _ => false
  end.

(** The instance [st0] once it has loaded what [st] saved: the five
    persisted attributes of [st], the encoder of [st0]. *)
Definition restored (st st0 : HeadlineClusterer) : HeadlineClusterer :=
  {| model_name := model_name st;
     n_clusters := n_clusters st;
     embedding_model := embedding_model st0;
     kmeans := kmeans st;
     embeddings := embeddings st;
     cluster_labels := cluster_labels st |}.

Definition schema_ok (obj : pyobj) : bool :=
  match obj with
  | PyDict d =>
      forallb (fun key => match dict_get d key with
                          | Some v => kind_ok key v
                          | None => false
                          end) persisted_keys
  | _ => false
  end.

End Persistence.

(** ** Python string methods

    A Python [str] is a sequence of code points; it is held here as the
    bytes of its UTF-8 encoding, in which one text occurs inside another
    exactly when its bytes do. *)

Definition is_upper (c : ascii) : bool :=
  let n := nat_of_ascii c in Nat.leb 65 n && Nat.leb n 90.

Definition is_lower (c : ascii) : bool :=
  let n := nat_of_ascii c in Nat.leb 97 n && Nat.leb n 122.

Definition to_lower (c : ascii) : ascii :=
  if is_upper c then ascii_of_nat (nat_of_ascii c + 32) else c.

Definition to_upper (c : ascii) : ascii :=
  if is_lower c then ascii_of_nat (nat_of_ascii c - 32) else c.

(** Lowering of the letters [A] to [Z], all other bytes kept. *)
Fixpoint ascii_lower (s : string) : string :=
  match s with
  | EmptyString => EmptyString
  | String c s' => String (to_lower c) (ascii_lower s')
  end.

Fixpoint is_ascii (s : string) : bool :=
  match s with
  | EmptyString => true
  | String c s' => Nat.ltb (nat_of_ascii c) 128 && is_ascii s'
  end.

(** The string methods that follow the Unicode character database, which
    is not code of this repository: [lower s] is [s.lower()] and [split s]
    is [s.split()], for every text.  On a text of ASCII characters
    [s.lower()] lowers the letters [A] to [Z] and keeps the rest. *)
Class Unicode : Type := {
  lower : string -> string;
  split : string -> list string;
  lower_ascii : forall s, is_ascii s = true -> lower s = ascii_lower s
}.

(** [len(s)]: the number of code points, that is, of the bytes that do not
    continue a character ([10xxxxxx]). *)
Definition is_continuation (c : ascii) : bool :=
  let n := nat_of_ascii c in Nat.leb 128 n && Nat.ltb n 192.

Fixpoint len (s : string) : nat :=
  match s with
  | EmptyString => 0
  | String c s' => if is_continuation c then len s' else S (len s')
  end.

(** [s.title()] on a text of ASCII characters, which is all the source
    applies it to (the fifteen company names): a letter that follows a
    letter is lowered, any other letter is raised. *)
Fixpoint title_from (prev_cased : bool) (s : string) : string :=
  match s with
  | EmptyString => EmptyString
  | String c s' =>
      if is_upper c || is_lower c
      then String (if prev_cased then to_lower c else to_upper c) (title_from true s')
      else String c (title_from false s')
  end.

Definition title (s : string) : string := title_from false s.

(** [needle in hay] *)
Fixpoint contains (needle hay : string) : bool :=
  if String.prefix needle hay then true
  else match hay with
       | EmptyString => false
       | String _ hay' => contains needle hay'
       end.

(** [any(word in text for word in words)] *)
Definition any_in (words : list string) (text : string) : bool :=
  existsb (fun word => contains word text) words.

(** [str(n)] inside an f-string. *)
Definition str_of_nat (n : nat) : string :=
  NilZero.string_of_uint (Nat.to_uint n).

Definition newline : string := String (ascii_of_nat 10) EmptyString.

(** ** summarizer.py *)

Module Summarizer.

(** What one [requests.post] gives: a response with its status code and the
    text that the chain of [get] calls of [_generate_text_via_rest] extracts
    from its JSON body ([None] when that extraction raises), or an exception
    of the transport. *)
Inductive api_outcome : Type :=
| Http (status_code : nat) (text : option string)
| NetworkError.

(** The instance attributes of [GeminiSummarizer]. *)
Record GeminiSummarizer : Type := mkSummarizer {
  api_key : string;
  model_name : string;
  use_mock : bool;
  base_url : string
}.

Definition set_use_mock (st : GeminiSummarizer) (b : bool) : GeminiSummarizer :=
  {| api_key := api_key st;
     model_name := model_name st;
     use_mock := b;
     base_url := base_url st |}.

(** The dictionary returned by [generate_summary]. *)
Record summary_record : Type := mkRecord {
  cluster_id : nat;
  summary : string;
  headlines_count : nat;
  headlines : list string;
  timestamp : string
}.

(** The dictionary returned by the fallback of [analyze_sentiment];
    [neutral] is a difference and can be negative. *)
Record sentiment : Type := mkSentiment {
  positive : nat;
  negative : nat;
  neutral : Z;
  overall_sentiment : string
}.

(** The world outside the summarizer.

    - [http_post n url key prompt] answers the [n]-th request of the process.
    - [json_loads t] is [json.loads(t.strip())], [None] when it raises.
    - [set_list seed xs] is [list(set(xs))] in a process whose string hashes
      are salted with [seed]: the distinct elements of [xs], in the iteration
      order of the hash table.
    - [now n] is [datetime.now().isoformat()] at the [n]-th reading.
    - [to_csv] is the text [DataFrame(..).to_csv] writes, and [read_records]
      is [read_csv(..).to_dict('records')] on the text of a file: the rows,
      or the exception of the parser.  The frame of an empty list has no
      column, and [read_csv] raises [EmptyDataError] on what [to_csv]
      writes for it. *)
Class SummarizerEnv : Type := {
  http_post : nat -> string -> string -> string -> api_outcome;
  json : Type;
  json_loads : string -> option json;
  set_list : nat -> list string -> list string;
  set_list_perm : forall seed xs,
    Permutation (set_list seed xs) (nodup string_dec xs);
  now : nat -> string;
  csv : Type;
  csv_row : Type;
  to_csv : list summary_record -> csv;
  read_records : csv -> result (list csv_row);
  read_empty_frame : read_records (to_csv []) = Raise EmptyDataError
}.

Definition GEMINI_MODEL : string := "models/gemini-pro".

Definition COMPANIES : list string :=
  ["apple"; "tesla"; "microsoft"; "google"; "amazon"; "facebook"; "netflix";
   "disney"; "intel"; "amd"; "jpmorgan"; "wells fargo"; "citigroup";
   "goldman sachs"; "bank of america"].

Definition summary_prompt_head : string := "
                Analyze these financial news headlines and provide a concise summary:
                
                Headlines:
                ".
Definition summary_prompt_tail : string := "
                
                Please provide a professional summary that includes:
                1. Key companies mentioned
                2. Main sectors involved
                3. Primary themes or trends
                4. Market implications
                
                Keep the summary under 200 words and focus on actionable insights.
                ".
Definition executive_head : string := "
            Executive Summary - Financial News Analysis
            
            Overview:
            Analyzed ".
Definition executive_middle : string := " financial headlines across ".
Definition executive_tail : string := " thematic clusters.
            
            Key Insights:
            • Technology sector shows strong earnings momentum with major tech companies reporting positive results
            • Financial services face regulatory challenges while expanding digital offerings
            • Market sentiment remains positive with S&P 500 reaching new highs
            • AI and cloud services continue to drive innovation across sectors
            • Commodity prices show volatility due to geopolitical factors
            
            Market Implications:
            • Continued focus on tech earnings and AI developments
            • Regulatory scrutiny may impact financial sector growth
            • Diversification across sectors recommended for risk management
            ".
Definition executive_prompt_head : string := "
                Based on these financial news cluster summaries, create a comprehensive executive summary:
                
                ".
Definition executive_prompt_tail : string := "
                
                Please provide an executive summary that includes:
                1. Overall market overview
                2. Key trends and themes
                3. Sector-specific insights
                4. Investment implications
                5. Risk factors to watch
                
                Format as a professional executive summary suitable for financial professionals.
                ".
Definition sentiment_prompt_head : string := "
                Analyze the sentiment of these financial headlines:
                
                ".
Definition sentiment_prompt_tail : string := "
                
                Provide a JSON response with:
                - positive: count of positive headlines
                - negative: count of negative headlines  
                - neutral: count of neutral headlines
                - overall_sentiment: overall sentiment (positive/negative/neutral)
                ".

Definition generate_content_url (base model : string) : string :=
  base ++ "/v1beta/models/" ++ model ++ ":generateContent".

(** What the process sees of the world: the salt of its string hashes
    (fixed when the interpreter starts), the number of requests sent, the
    number of clock readings, and the summaries file. *)
Section Methods.
Context `{SummarizerEnv} `{Unicode}.

Record World : Type := mkWorld {
  hashseed : nat;
  calls : nat;
  ticks : nat;
  summaries_file : option (data_file csv)
}.

Definition sent (w : World) : World :=
  {| hashseed := hashseed w; calls := S (calls w); ticks := ticks w;
     summaries_file := summaries_file w |}.

Definition read_clock (w : World) : World * string :=
  ({| hashseed := hashseed w; calls := calls w; ticks := S (ticks w);
      summaries_file := summaries_file w |}, now (ticks w)).

Definition write_summaries (w : World) (c : csv) : World :=
  {| hashseed := hashseed w; calls := calls w; ticks := ticks w;
     summaries_file := Some (Written c) |}.

(** [_test_api_access]: called by [__init__] only. *)
Definition test_api_access (st : GeminiSummarizer) (w : World)
  : GeminiSummarizer * World :=
  match http_post (calls w) (generate_content_url (base_url st) "gemini-2.0-flash")
          (api_key st) "Test message" with
  | Http status_code _ =>
      if Nat.eqb status_code 200
      then (set_use_mock st false, sent w)
      else (set_use_mock st true, sent w)
  | NetworkError => (set_use_mock st true, sent w)
  end.

(** [__init__] *)
Definition init (key : string) (w : World) : GeminiSummarizer * World :=
  test_api_access
    {| api_key := key;
       model_name := GEMINI_MODEL;
       use_mock := false;
       base_url := "https://generativelanguage.googleapis.com" |} w.

(** [_generate_text_via_rest], with its default [model]. *)
Definition generate_text_via_rest (st : GeminiSummarizer) (w : World)
    (prompt : string) : World * result string :=
  match http_post (calls w) (generate_content_url (base_url st) "gemini-2.0-flash")
          (api_key st) prompt with
  | Http status_code text =>
      if Nat.eqb status_code 200
      then (sent w, from_option Exception text)
      else (sent w, Raise Exception)
  | NetworkError => (sent w, Raise Exception)
  end.

Definition tag_if (b : bool) (tag : string) : list string :=
  if b then [tag] else [].

(** One pass of the loop over [cluster_headlines] in the fallback branch of
    [generate_summary]: what is appended to [companies], [sectors] and
    [themes]. *)
Definition scan_headline
    (acc : list string * list string * list string) (headline : string)
  : list string * list string * list string :=
  let '(companies, sectors, themes) := acc in
  let headline_lower := lower headline in
  let companies :=
    (companies ++ map title
      (List.filter (fun company => contains company headline_lower) COMPANIES))%list in
  let sectors :=
    (sectors
    ++ tag_if (any_in ["tech"; "technology"; "software"; "ai"; "cloud"] headline_lower)
         "Technology"
    ++ tag_if (any_in ["bank"; "financial"; "finance"; "earnings"; "profit"] headline_lower)
         "Financial Services"
    ++ tag_if (any_in ["streaming"; "entertainment"; "media"] headline_lower)
         "Entertainment"
    ++ tag_if (any_in ["chip"; "semiconductor"; "processor"] headline_lower)
         "Semiconductors"
    ++ tag_if (any_in ["fed"; "federal reserve"; "interest rate"] headline_lower)
         "Monetary Policy"
    ++ tag_if (any_in ["oil"; "gold"; "commodity"] headline_lower)
         "Commodities")%list in
  let themes :=
    (themes
    ++ tag_if (any_in ["earnings"; "profit"; "revenue"; "quarterly"] headline_lower)
         "Earnings Reports"
    ++ tag_if (any_in ["stock"; "shares"; "market"] headline_lower)
         "Market Movements"
    ++ tag_if (any_in ["regulation"; "regulatory"; "scrutiny"] headline_lower)
         "Regulatory Issues"
    ++ tag_if (any_in ["ai"; "artificial intelligence"; "innovation"] headline_lower)
         "AI & Innovation")%list in
  (companies, sectors, themes).

Definition join_or (sep : string) (xs : list string) (otherwise : string) : string :=
  match xs with
  | [] => otherwise
  | _ :: _ => String.concat sep xs
  end.

(** The [summary] string of the fallback branch, in a process whose string
    hashes are salted with [seed]. *)
Definition mock_summary (seed : nat) (cluster_headlines : list string) : string :=
  let '(companies, sectors, themes) :=
    fold_left scan_headline cluster_headlines ([], [], []) in
  let companies := firstn 3 (set_list seed companies) in
  let sectors := firstn 2 (set_list seed sectors) in
  let themes := firstn 2 (set_list seed themes) in
  let company_text := join_or ", " companies "major companies" in
  let sector_text := join_or " and " sectors "technology and financial sectors" in
  let theme_text := join_or " and " themes "market developments" in
  "This cluster focuses on " ++ company_text ++ ", covering "
  ++ str_of_nat (length cluster_headlines) ++ " headlines in the " ++ sector_text
  ++ ". Key themes include " ++ theme_text
  ++ ", with significant implications for market sentiment and investor confidence.".

Definition summary_prompt (cluster_headlines : list string) : string :=
  summary_prompt_head
  ++ String.concat newline (map (fun headline => "- " ++ headline) cluster_headlines)
  ++ summary_prompt_tail.

(** The [return] statement of [generate_summary]. *)
Definition finish_summary (st : GeminiSummarizer) (w : World) (text : string)
    (cluster_headlines : list string) (cid : nat)
  : GeminiSummarizer * World * summary_record :=
  let '(w', stamp) := read_clock w in
  (st, w', {| cluster_id := cid;
              summary := text;
              headlines_count := length cluster_headlines;
              headlines := cluster_headlines;
              timestamp := stamp |}).

(** [generate_summary].  After a failed request the method sets [use_mock]
    and calls itself; that call takes the fallback branch. *)
Definition generate_summary (st : GeminiSummarizer) (w : World)
    (cluster_headlines : list string) (cid : nat)
  : GeminiSummarizer * World * summary_record :=
  if use_mock st then
    finish_summary st w (mock_summary (hashseed w) cluster_headlines)
      cluster_headlines cid
  else
    match generate_text_via_rest st w (summary_prompt cluster_headlines) with
    | (w', Ok text) => finish_summary st w' text cluster_headlines cid
    | (w', Raise _) =>
        finish_summary (set_use_mock st true) w'
          (mock_summary (hashseed w') cluster_headlines) cluster_headlines cid
    end.

(** [generate_all_summaries], over the items of the dictionary in insertion
    order. *)
Fixpoint generate_all_summaries (st : GeminiSummarizer) (w : World)
    (cluster_summaries : list (nat * Clustering.cluster_summary))
  : GeminiSummarizer * World * list summary_record :=
  match cluster_summaries with
  | [] => (st, w, [])
  | (cid, cluster_data) :: rest =>
      let '(st1, w1, s) :=
        generate_summary st w (Clustering.headlines cluster_data) cid in
      let '(st2, w2, ss) := generate_all_summaries st1 w1 rest in
      (st2, w2, s :: ss)
  end.

Definition mock_executive_summary (all_summaries : list summary_record) : string :=
  let total_headlines := list_sum (map headlines_count all_summaries) in
  let total_clusters := length all_summaries in
  executive_head ++ str_of_nat total_headlines ++ executive_middle
  ++ str_of_nat total_clusters ++ executive_tail.

Definition executive_prompt (all_summaries : list summary_record) : string :=
  let summaries_text :=
    String.concat (newline ++ newline)
      (map (fun s => "Cluster " ++ str_of_nat (cluster_id s) ++ ": " ++ summary s)
           all_summaries) in
  executive_prompt_head ++ summaries_text ++ executive_prompt_tail.

(** [generate_executive_summary] *)
Definition generate_executive_summary (st : GeminiSummarizer) (w : World)
    (all_summaries : list summary_record) : GeminiSummarizer * World * string :=
  if use_mock st then (st, w, mock_executive_summary all_summaries)
  else
    match generate_text_via_rest st w (executive_prompt all_summaries) with
    | (w', Ok text) => (st, w', text)
    | (w', Raise _) =>
        (set_use_mock st true, w', mock_executive_summary all_summaries)
    end.

Definition count_matching (words : list string) (hs : list string) : nat :=
  length (List.filter (fun h => any_in words (lower h)) hs).

Definition mock_sentiment (hs : list string) : sentiment :=
  let positive_count :=
    count_matching ["rise"; "gain"; "beat"; "strong"; "positive"; "growth"] hs in
  let negative_count :=
    count_matching ["fall"; "drop"; "loss"; "weak"; "negative"; "decline"] hs in
  let neutral_count :=
    (Z.of_nat (length hs) - Z.of_nat positive_count - Z.of_nat negative_count)%Z in
  {| positive := positive_count;
     negative := negative_count;
     neutral := neutral_count;
     overall_sentiment :=
       if Nat.ltb negative_count positive_count then "positive"
       else if Nat.ltb positive_count negative_count then "negative"
       else "neutral" |}.

Definition sentiment_prompt (hs : list string) : string :=
  sentiment_prompt_head ++ String.concat newline hs ++ sentiment_prompt_tail.

(** What [analyze_sentiment] returns: the parsed answer of the API, or the
    counts of the fallback. *)
Inductive sentiment_result : Type :=
| Parsed (j : json)
| Counted (s : sentiment).

(** [analyze_sentiment] *)
Definition analyze_sentiment (st : GeminiSummarizer) (w : World)
    (hs : list string) : GeminiSummarizer * World * sentiment_result :=
  if use_mock st then (st, w, Counted (mock_sentiment hs))
  else
    match generate_text_via_rest st w (sentiment_prompt hs) with
    | (w', Ok response_text) =>
        match json_loads response_text with
        | Some j => (st, w', Parsed j)
        | None => (set_use_mock st true, w', Counted (mock_sentiment hs))
        end
    | (w', Raise _) => (set_use_mock st true, w', Counted (mock_sentiment hs))
    end.

(** [save_summaries]: nothing is caught, and [to_csv] raises when the file
    may not be opened. *)
Definition save_summaries (st : GeminiSummarizer) (w : World)
    (summaries : list summary_record) : GeminiSummarizer * World * result unit :=
  if writable (summaries_file w)
  then (st, write_summaries w (to_csv summaries), Ok tt)
  else (st, w, Raise PermissionError).

(** [load_summaries]: the empty list when [os.path.exists] is false;
    nothing is caught when the file is there. *)
Definition load_summaries (st : GeminiSummarizer) (w : World)
  : GeminiSummarizer * World * result (list csv_row) :=
  match summaries_file w with
  | Some (Written c) => (st, w, read_records c)
  | Some NoAccess => (st, w, Raise PermissionError)
  | None => (st, w, Ok [])
  end.

(** The public methods as operations on an instance, and what each
    returns. *)
Inductive op : Type :=
| GenerateSummary (cluster_headlines : list string) (cid : nat)
| GenerateAllSummaries (cluster_summaries : list (nat * Clustering.cluster_summary))
| GenerateExecutiveSummary (all_summaries : list summary_record)
| AnalyzeSentiment (hs : list string)
| SaveSummaries (summaries : list summary_record)
| LoadSummaries.

Inductive output : Type :=
| OutSummary (s : summary_record)
| OutSummaries (ss : list summary_record)
| OutText (t : string)
| OutSentiment (r : sentiment_result)
| OutNone
| OutRows (rows : list csv_row)
| OutRaise (e : exn).

Definition step (st : GeminiSummarizer) (w : World) (o : op)
  : GeminiSummarizer * World * output :=
  match o with
  | GenerateSummary hs cid =>
      let '(st', w', s) := generate_summary st w hs cid in (st', w', OutSummary s)
  | GenerateAllSummaries cs =>
      let '(st', w', ss) := generate_all_summaries st w cs in (st', w', OutSummaries ss)
  | GenerateExecutiveSummary all =>
      let '(st', w', t) := generate_executive_summary st w all in (st', w', OutText t)
  | AnalyzeSentiment hs =>
      let '(st', w', r) := analyze_sentiment st w hs in (st', w', OutSentiment r)
  | SaveSummaries ss =>
      let '(st', w', r) := save_summaries st w ss in
      (st', w', match r with
                | Ok _ => OutNone
                | Raise e => OutRaise e
                end)
  | LoadSummaries =>
      let '(st', w', r) := load_summaries st w in
      (st', w', match r with
                | Ok rows => OutRows rows
                | Raise e => OutRaise e
                end)
  end.

(** A sequence of calls on one instance, by a caller that goes on after an
    exception of [save_summaries] or [load_summaries]. *)
Fixpoint run (st : GeminiSummarizer) (w : World) (ops : list op)
  : GeminiSummarizer * World * list output :=
  match ops with
  | [] => (st, w, [])
  | o :: ops' =>
      let '(st1, w1, out) := step st w o in
      let '(st2, w2, outs) := run st1 w1 ops' in
      (st2, w2, out :: outs)
  end.

(** The company names that the loop of the fallback branch appends, in
    order: for each headline, the names it contains once lowered, title
    cased. *)
Definition found_companies (cluster_headlines : list string) : list string :=
  flat_map (fun headline =>
              map title (List.filter (fun company => contains company (lower headline))
                                     COMPANIES))
           cluster_headlines.

(** The f-string of the fallback branch over the three lists it is given. *)
Definition render_summary (companies sectors themes : list string) (count : nat)
  : string :=
  "This cluster focuses on " ++ join_or ", " companies "major companies"
  ++ ", covering " ++ str_of_nat count ++ " headlines in the "
  ++ join_or " and " sectors "technology and financial sectors"
  ++ ". Key themes include " ++ join_or " and " themes "market developments"
  ++ ", with significant implications for market sentiment and investor confidence.".

(** [out] is what the fallback branch of the method called by [o] returns
    in a process whose string hashes are salted with [seed]. *)
Definition fallback_output (seed : nat) (o : op) (out : output) : Prop :=
  match o, out with
  | GenerateSummary hs cid, OutSummary s =>
      summary s = mock_summary seed hs /\
      cluster_id s = cid /\
      headlines s = hs /\
      headlines_count s = length hs
  | GenerateAllSummaries cs, OutSummaries ss =>
      Forall2 (fun c s =>
                 summary s = mock_summary seed (Clustering.headlines (snd c)) /\
                 cluster_id s = fst c /\
                 headlines s = Clustering.headlines (snd c))
              cs ss
  | GenerateExecutiveSummary all, OutText t => t = mock_executive_summary all
  | AnalyzeSentiment hs, OutSentiment r => r = Counted (mock_sentiment hs)
  | SaveSummaries _, (OutNone | OutRaise _) => True
  | LoadSummaries, (OutRows _ | OutRaise _) => True
  | _, _ => False
  end.

End Methods.

End Summarizer.

(** ** scraper.py *)

Module Scraper.

(** What the three extraction methods of [scrape_headlines] find in one
    element of a page: the stripped text of its [h3] tag, of its title
    [div] and of its first link, [None] where the element has no such
    tag. *)
Record article : Type := mkArticle {
  h3_text : option string;
  title_div_text : option string;
  link_text : option string
}.

(** One dictionary of the list [scrape_headlines] returns. *)
Record headline_record : Type := mkHeadline {
  headline : string;
  timestamp : string;
  source : string
}.

(** The world outside the scraper.

    - [session_get n url] is the [n]-th request of the session: the elements
      that the three [find_all] selectors give for the page, up to the
      element at which an exception leaves the loop, or [None] when the
      request or its [raise_for_status] raises.
    - [clock n] is [datetime.now().isoformat()] at the [n]-th reading.
    - [to_csv] is the text [DataFrame(..).to_csv] writes, and [read_records]
      is [read_csv(..).to_dict('records')] on the text of a file: the rows,
      or the exception of the parser. *)
Class ScraperEnv : Type := {
  session_get : nat -> string -> option (list article);
  clock : nat -> string;
  csv : Type;
  csv_row : Type;
  to_csv : list headline_record -> csv;
  read_records : csv -> result (list csv_row)
}.

Definition MAX_HEADLINES_PER_DAY : Z := 200.

Definition news_urls : list string :=
  ["https://news.google.com/search?q=finance+business&hl=en-US&gl=US&ceid=US:en";
   "https://news.google.com/search?q=stock+market&hl=en-US&gl=US&ceid=US:en";
   "https://news.google.com/search?q=earnings+reports&hl=en-US&gl=US&ceid=US:en";
   "https://news.google.com/search?q=wall+street&hl=en-US&gl=US&ceid=US:en";
   "https://news.google.com/search?q=investment+banking&hl=en-US&gl=US&ceid=US:en"].

Definition EXCLUDED_WORDS : list string :=
  ["skip to"; "navigation"; "menu"; "search"; "sign in"; "sign up"; "login";
   "register"; "subscribe"; "newsletter"; "download"; "app"; "mobile";
   "desktop"; "privacy"; "terms"; "cookies"; "advertising"; "about";
   "contact"; "help"; "support"; "google news"; "trending"; "top stories";
   "breaking news"].

Definition FINANCE_WORDS : list string :=
  ["stock"; "earnings"; "market"; "finance"; "trading"; "invest"; "shares";
   "revenue"; "profit"; "loss"; "quarterly"; "annual"; "company"; "business";
   "economy"; "fed"; "federal"; "bank"; "banking"; "currency"; "dollar";
   "inflation"; "interest"; "rate"; "bond"; "treasury"; "sec"; "regulation";
   "wall street"; "nasdaq"; "s&p"; "dow"; "nyse"; "ipo"; "merger";
   "acquisition"].

Definition sample_headlines : list string :=
  ["Apple stock rises 3% on strong iPhone sales and services growth";
   "Tesla reports record quarterly earnings, beats analyst expectations";
   "Google parent Alphabet beats revenue expectations in Q4 earnings";
   "Microsoft announces new AI features for Azure cloud platform";
   "Amazon expands cloud services with new AI capabilities";
   "S&P 500 reaches new all-time high on strong earnings";
   "Bank of America reports strong quarterly profits";
   "Goldman Sachs reports mixed quarterly results";
   "JPMorgan Chase expands digital banking services";
   "Wells Fargo faces new regulatory challenges";
   "Facebook parent Meta faces regulatory scrutiny over data practices";
   "Intel chip shortage affects production across tech industry";
   "AMD gains market share in processors as demand increases";
   "Federal Reserve signals potential interest rate cuts";
   "Bitcoin volatility continues as regulatory uncertainty persists";
   "Oil prices surge on geopolitical tensions in Middle East";
   "Gold prices hit record high as investors seek safe haven";
   "Citigroup announces restructuring plan to cut costs";
   "Netflix subscriber growth slows as competition intensifies";
   "Disney streaming service gains momentum with new content"].

(** [xs[:stop]] *)
Definition slice_to {A : Type} (xs : list A) (stop : Z) : list A :=
  if (0 <=? stop)%Z then firstn (Z.to_nat stop) xs
  else firstn (Z.to_nat (Z.max 0 (Z.of_nat (length xs) + stop))) xs.

(** The truth value of [headline_text]: neither [None] nor empty. *)
Definition truthy (t : option string) : bool :=
  match t with
  | Some (String _ _) => true
  | _ => false
  end.

(** The three methods in turn: a later one runs while the text is [None]
    or empty, and replaces it when its tag is there. *)
Definition headline_text (a : article) : option string :=
  let t := h3_text a in
  let t := if truthy t then t
           else match title_div_text a with
                | Some d => Some d
                | None => t
                end in
  if truthy t then t
  else match link_text a with
       | Some l => Some l
       | None => t
       end.

(** The filter of [scrape_headlines] on a non-empty text. *)
Definition valid_headline `{Unicode} (t : string) : bool :=
  Nat.ltb 15 (len t)
  && Nat.ltb (len t) 200
  && negb (any_in EXCLUDED_WORDS (lower t))
  && any_in FINANCE_WORDS (lower t).

Section Methods.
Context `{ScraperEnv} `{Unicode}.

(** What the process sees of the world: the requests sent, the clock
    readings made, and the headlines file. *)
Record World : Type := mkWorld {
  requests : nat;
  ticks : nat;
  headlines_file : option (data_file csv)
}.

Definition requested (w : World) : World :=
  {| requests := S (requests w); ticks := ticks w;
     headlines_file := headlines_file w |}.

Definition at_tick (w : World) (t : nat) : World :=
  {| requests := requests w; ticks := t; headlines_file := headlines_file w |}.

(** The loop over the elements of one page. *)
Fixpoint scan_articles (max_headlines : Z) (articles : list article)
    (headlines : list headline_record) (t : nat) : list headline_record * nat :=
  match articles with
  | [] => (headlines, t)
  | a :: rest =>
      if (max_headlines <=? Z.of_nat (length headlines))%Z then (headlines, t)
      else
        match headline_text a with
        | Some text =>
            if truthy (Some text) && valid_headline text
            then scan_articles max_headlines rest
                   (headlines ++ [ {| headline := text;
                                      timestamp := clock t;
                                      source := "Google News" |} ])%list
                   (S t)
            else scan_articles max_headlines rest headlines t
        | None => scan_articles max_headlines rest headlines t
        end
  end.

(** The loop over [news_urls]; a page whose request fails is skipped. *)
Fixpoint scan_urls (max_headlines : Z) (urls : list string)
    (headlines : list headline_record) (w : World) : list headline_record * World :=
  match urls with
  | [] => (headlines, w)
  | url :: rest =>
      if (max_headlines <=? Z.of_nat (length headlines))%Z then (headlines, w)
      else
        match session_get (requests w) url with
        | None => scan_urls max_headlines rest headlines (requested w)
        | Some articles =>
            let '(headlines', t) :=
              scan_articles max_headlines articles headlines (ticks w) in
            scan_urls max_headlines rest headlines' (at_tick (requested w) t)
        end
  end.

(** The list comprehension of [_get_sample_financial_headlines]. *)
Fixpoint stamp_samples (selected : list string) (t : nat)
  : list headline_record * nat :=
  match selected with
  | [] => ([], t)
  | h :: rest =>
      let '(records, t') := stamp_samples rest (S t) in
      ({| headline := h; timestamp := clock t;
          source := "Sample Financial News" |} :: records, t')
  end.

(** [_get_sample_financial_headlines] *)
Definition get_sample_financial_headlines (count : Z) (w : World)
  : list headline_record * World :=
  let selected_headlines :=
    slice_to sample_headlines
      (Z.min count (Z.of_nat (length sample_headlines))) in
  let '(records, t) := stamp_samples selected_headlines (ticks w) in
  (records, at_tick w t).

(** [scrape_headlines].  Nothing in the outer [try] raises outside the
    inner one, so its [except] branch is never taken. *)
Definition scrape_headlines (max_headlines : Z) (w : World)
  : list headline_record * World :=
  let '(headlines, w1) := scan_urls max_headlines news_urls [] w in
  if (Z.of_nat (length headlines) <? max_headlines / 2)%Z
  then
    let '(samples, w2) :=
      get_sample_financial_headlines
        (max_headlines - Z.of_nat (length headlines)) w1 in
    ((headlines ++ samples)%list, w2)
  else (headlines, w1).

(** [save_headlines]: an empty list writes nothing; nothing is caught, and
    [to_csv] raises when the file may not be opened. *)
Definition save_headlines (w : World) (headlines : list headline_record)
  : World * result unit :=
  match headlines with
  | [] => (w, Ok tt)
  | _ :: _ =>
      if writable (headlines_file w)
      then ({| requests := requests w; ticks := ticks w;
               headlines_file := Some (Written (to_csv headlines)) |}, Ok tt)
      else (w, Raise PermissionError)
  end.

(** [load_headlines]: [FileNotFoundError] is caught, whether [read_csv]
    raises it for a missing file or from inside; nothing else is. *)
Definition load_headlines (w : World) : result (list csv_row) :=
  match headlines_file w with
  | Some (Written c) =>
      match read_records c with
      | Raise FileNotFoundError => Ok []
      | outcome => outcome
      end
  | Some NoAccess => Raise PermissionError
  | None => Ok []
  end.

End Methods.

(** A record that the page loop appended. *)
Definition scraped `{Unicode} (r : headline_record) : Prop :=
  source r = "Google News" /\ valid_headline (headline r) = true.

(** A record that [_get_sample_financial_headlines] built. *)
Definition sampled (r : headline_record) : Prop :=
  source r = "Sample Financial News" /\ In (headline r) sample_headlines.

End Scraper.

(** ** clustering.py: [analyze_clusters] *)

Module Analysis.
Import Clustering.

(** The NumPy and pandas calls of [analyze_clusters]: [np_mean ns] is
    [np.mean(ns)], and [value_counts_head n words] is
    [pd.Series(words).value_counts().head(n).to_dict()], in the order of the
    dictionary. *)
Class PandasBackend : Type := {
  np_mean : list nat -> Q;
  value_counts_head : nat -> list string -> list (string * nat)
}.

(** One value of the [cluster_analysis] dictionary. *)
Record cluster_analysis : Type := mkAnalysis {
  an_size : nat;
  avg_length : Q;
  common_words : list (string * nat)
}.

Section Methods.
Context `{PandasBackend} `{Unicode}.

(** The body of the loop of [analyze_clusters] for one [cluster_id]. *)
Definition analyze_cluster (cluster_results : list item) (cid : nat)
  : option cluster_analysis :=
  let cluster_headlines :=
    map headline (List.filter (fun it => Nat.eqb (cluster_id it) cid) cluster_results) in
  match cluster_headlines with
  | [] => None
  | _ :: _ =>
      let avg := np_mean (map len cluster_headlines) in
      let all_words := split (lower (String.concat " " cluster_headlines)) in
      let word_freq := value_counts_head 5 all_words in
      Some {| an_size := length cluster_headlines;
              avg_length := avg;
              common_words := word_freq |}
  end.

Fixpoint analysis_loop (cluster_results : list item) (cids : list nat)
    (acc : list (nat * cluster_analysis)) : list (nat * cluster_analysis) :=
  match cids with
  | [] => acc
  | cid :: rest =>
      match analyze_cluster cluster_results cid with
      | None => analysis_loop cluster_results rest acc
      | Some a => analysis_loop cluster_results rest (dict_set cid a acc)
      end
  end.

(** [analyze_clusters]: it reads [n_clusters] only, neither the embeddings
    nor the k-means object. *)
Definition analyze_clusters (st : HeadlineClusterer) (cluster_results : list item)
  : list (nat * cluster_analysis) :=
  analysis_loop cluster_results (seq 0 (n_clusters st)) [].

End Methods.

End Analysis.

(** ** JSON values *)

Module Json.

(** What [json.load] returns. *)
#[warnings="-register-all"]
Inductive jvalue : Type :=
| JNull
| JBool (b : bool)
| JNumber (q : Q)
| JString (s : string)
| JArray (l : list jvalue)
| JObject (d : list (string * jvalue)).

(** [json.dump] and [json.load] over the text of a file; [None] is a text
    that [json.load] rejects.  A dumped string loads back. *)
Class JsonCodec : Type := {
  json_text : Type;
  json_dump : jvalue -> json_text;
  json_load : json_text -> option jvalue;
  json_round_trip : forall s, json_load (json_dump (JString s)) = Some (JString s)
}.

Fixpoint object_get (d : list (string * jvalue)) (key : string) : option jvalue :=
  match d with
  | [] => None
  | (k, v) :: d' => if String.eqb k key then Some v else object_get d' key
  end.

(** [v[key]] with a string key: only a dictionary takes one. *)
Definition subscript (v : jvalue) (key : string) : result jvalue :=
  match v with
  | JObject d => from_option (KeyError key) (object_get d key)
  | _ => Raise TypeError
  end.

End Json.

(** ** scheduler.py *)

Module Scheduler.
Import Json.

(** [strftime_ymd n] is [datetime.now().strftime('%Y%m%d')] in the [n]-th
    run, and [generator_state n] is the state of NumPy's global generator
    when that run fits. *)
Class SchedulerEnv : Type := {
  strftime_ymd : nat -> string;
  generator_state : nat -> nat
}.

(** The instance attributes of [NewsScheduler]; the scraper holds nothing
    but its session. *)
Record NewsScheduler : Type := mkScheduler {
  clusterer : Clustering.HeadlineClusterer;
  summarizer : Summarizer.GeminiSummarizer
}.

(** How [run_daily_pipeline] ends; it returns nothing and logs one of
    these. *)
Inductive outcome : Type :=
| NoHeadlines
| Completed
| NoSummaries
| Failed (e : exn).

Definition executive_file_name (ymd : string) : string :=
  "executive_summary_" ++ ymd ++ ".json".

Section Methods.
Context `{NumericBackend} `{Persistence.Pickle} `{Summarizer.SummarizerEnv}
        `{Scraper.ScraperEnv} `{JsonCodec} `{SchedulerEnv} `{Unicode}.

(** The world of one scheduler process: the web, the Gemini endpoint with
    the summaries file, the files that hold pickles, the entries of
    [DATA_DIR] that hold text, and the number of runs so far. *)
Record World : Type := mkWorld {
  web : Scraper.World;
  llm : Summarizer.World;
  pickles : gmap string Persistence.file;
  data_dir : gmap string (data_file json_text);
  runs : nat
}.

Definition set_web (w : World) (x : Scraper.World) : World :=
  {| web := x; llm := llm w; pickles := pickles w; data_dir := data_dir w;
     runs := runs w |}.

Definition set_llm (w : World) (x : Summarizer.World) : World :=
  {| web := web w; llm := x; pickles := pickles w; data_dir := data_dir w;
     runs := runs w |}.

Definition set_pickles (w : World) (x : gmap string Persistence.file) : World :=
  {| web := web w; llm := llm w; pickles := x; data_dir := data_dir w;
     runs := runs w |}.

Definition set_data_dir (w : World) (x : gmap string (data_file json_text)) : World :=
  {| web := web w; llm := llm w; pickles := pickles w; data_dir := x;
     runs := runs w |}.

Definition next_run (w : World) : World :=
  {| web := web w; llm := llm w; pickles := pickles w; data_dir := data_dir w;
     runs := S (runs w) |}.

(** [NewsScheduler.__init__] *)
Definition new (key : string) (w : World) : NewsScheduler * World :=
  let '(s, l) := Summarizer.init key (llm w) in
  ({| clusterer := Clustering.init EMBEDDING_MODEL K_CLUSTERS; summarizer := s |},
   set_llm w l).

(** Step 5 of [run_daily_pipeline] and the writing of the executive
    summary: four writes in a row, none of them guarded, so the exception
    of one leaves the [try] body before the later ones. *)
Definition save_results (sch : NewsScheduler) (w : World)
    (headlines : list Scraper.headline_record)
    (summaries : list Summarizer.summary_record) (executive_summary : string)
  : World * outcome :=
  match Scraper.save_headlines (web w) headlines with
  | (_, Raise e) => (w, Failed e)
  | (web', Ok _) =>
      let w := set_web w web' in
      match Summarizer.save_summaries (summarizer sch) (llm w) summaries with
      | (_, _, Raise e) => (w, Failed e)
      | (_, llm', Ok _) =>
          let w := set_llm w llm' in
          match Persistence.save_model (pickles w) (clusterer sch) None with
          | (_, Raise e) => (w, Failed e)
          | (fs, Ok _) =>
              let w := set_pickles w fs in
              match executive_summary with
              | EmptyString => (w, Completed)
              | String _ _ =>
                  let executive_file :=
                    executive_file_name (strftime_ymd (runs w)) in
                  if writable (data_dir w !! executive_file)
                  then (set_data_dir w
                          (<[executive_file :=
                               Written (json_dump (JString executive_summary))]>
                             (data_dir w)),
                        Completed)
                  else (w, Failed PermissionError)
              end
          end
      end
  end.

(** The four files of step 5 can be written. *)
Definition can_save (w : World) : bool :=
  writable (Scraper.headlines_file (web w))
  && writable (Summarizer.summaries_file (llm w))
  && match pickles w !! Persistence.resolve None with
     | Some Persistence.Denied => false
     | _ => true
     end
  && writable (data_dir w !! executive_file_name (strftime_ymd (S (runs w)))).

(** [run_daily_pipeline]: every exception is caught and logged. *)
Definition run_daily_pipeline (sch : NewsScheduler) (w : World)
  : NewsScheduler * World * outcome :=
  let w := next_run w in
  let '(headlines, web') := Scraper.scrape_headlines Scraper.MAX_HEADLINES_PER_DAY (web w) in
  let w := set_web w web' in
  match headlines with
  | [] => (sch, w, NoHeadlines)
  | _ :: _ =>
      let headline_texts := map Scraper.headline headlines in
      match Clustering.cluster_headlines (generator_state (runs w)) (clusterer sch)
              headline_texts with
      | (cl, Raise e) =>
          ({| clusterer := cl; summarizer := summarizer sch |}, w, Failed e)
      | (cl, Ok cluster_results) =>
          match Clustering.get_cluster_summaries cl cluster_results with
          | Raise e =>
              ({| clusterer := cl; summarizer := summarizer sch |}, w, Failed e)
          | Ok cluster_summaries =>
              let '(sm, l, summaries) :=
                Summarizer.generate_all_summaries (summarizer sch) (llm w)
                  cluster_summaries in
              match summaries with
              | [] =>
                  ({| clusterer := cl; summarizer := sm |}, set_llm w l, NoSummaries)
              | _ :: _ =>
                  let '(sm', l', executive_summary) :=
                    Summarizer.generate_executive_summary sm l summaries in
                  let sch' := {| clusterer := cl; summarizer := sm' |} in
                  let '(w', out) :=
                    save_results sch' (set_llm w l') headlines summaries
                      executive_summary in
                  (sch', w', out)
              end
          end
      end
  end.

(** The scheduler after [n] runs of [run_daily_pipeline]. *)
Fixpoint run_days (n : nat) (sch : NewsScheduler) (w : World)
  : NewsScheduler * World :=
  match n with
  | O => (sch, w)
  | S n' =>
      let '(sch', w', _) := run_daily_pipeline sch w in
      run_days n' sch' w'
  end.

End Methods.

End Scheduler.

(** ** app.py: [display_executive_summary] *)

Module Dashboard.
Import Json.

(** What [display_executive_summary] puts on the page: the note that there
    is no summary, or the date cut from the file name and the value
    written under it. *)
Inductive screen : Type :=
| Info
| Summary (date : string) (text : jvalue).

(** [max(names)] for strings, started from [x]: the first of the greatest
    elements. *)
Definition max_name {A : Type} (x : string * A) (xs : list (string * A)) : string * A :=
  fold_left (fun m y => if String.ltb (fst m) (fst y) then y else m) xs x.

Section Methods.
Context `{JsonCodec}.

(** [display_executive_summary] over the entries of [DATA_DIR]: nothing is
    caught. *)
Definition display_executive_summary (data_dir : gmap string (data_file json_text))
  : result screen :=
  let executive_files :=
    List.filter (fun f => String.prefix "executive_summary_" (fst f))
                (map_to_list data_dir) in
  match executive_files with
  | [] => Ok Info
  | f :: fs =>
      let latest_file := max_name f fs in
      match snd latest_file with
      | NoAccess => Raise PermissionError
      | Written text =>
          match json_load text with
          | None => Raise ValueError
          | Some executive_data =>
              text ← subscript executive_data "executive_summary";
              Ok (Summary (String.substring 18 8 (fst latest_file)) text)
          end
      end
  end.

(** Every entry of the directory whose name starts with
    [executive_summary_] holds a dumped string, as [run_daily_pipeline]
    writes it. *)
Definition written_by_scheduler (data_dir : gmap string (data_file json_text))
  : Prop :=
  forall name file,
    data_dir !! name = Some file ->
    String.prefix "executive_summary_" name = true ->
    exists s, file = Written (json_dump (JString s)).

End Methods.

End Dashboard.

(** * Reference instances of the library interfaces

    Small executable stand-ins for the libraries: they show that the
    contracts above can be met, and they let the methods run on concrete
    inputs. *)

Module Reference.

(** One coordinate per text: its length. *)
Definition ref_encode (m : string) (hs : list string) : list Vec :=
  map (fun h => [inject_Z (Z.of_nat (String.length h))]) hs.

(** The squared Euclidean distance. *)
Definition ref_norm_diff (e c : Vec) : Q :=
  fold_right Qplus 0%Q (map (fun xy => (fst xy - snd xy) * (fst xy - snd xy))%Q
                            (combine e c)).

(** Round-robin labels, the first [k] samples as centres. *)
Definition ref_lloyd (seed ni k : nat) (X : list Vec) : option (list nat * list Vec) :=
  match X with
  | [] => None
  | _ :: _ =>
      if (Nat.ltb (length X) k || Nat.eqb k 0)%bool then None
      else Some (map (fun i => i mod k) (seq 0 (length X)), firstn k X)
  end.

Lemma ref_encode_length m hs : length (ref_encode m hs) = length hs.
Proof. unfold ref_encode. apply length_map. Qed.

Lemma ref_lloyd_empty seed ni k : ref_lloyd seed ni k [] = None.
Proof. reflexivity. Qed.

Lemma ref_lloyd_insufficient seed ni k X :
  length X < k -> ref_lloyd seed ni k X = None.
Proof.
  intros Hlt. unfold ref_lloyd. destruct X as [|x X']; [reflexivity|].
  apply Nat.ltb_lt in Hlt. rewrite Hlt. reflexivity.
Qed.

Lemma ref_lloyd_total seed ni k X :
  0 < k <= length X -> exists r, ref_lloyd seed ni k X = Some r.
Proof.
  intros [Hk Hn]. unfold ref_lloyd. destruct X as [|x X']; [simpl in Hn; lia|].
  destruct (Nat.ltb_spec (length (x :: X')) k) as [Hlt|_]; [lia|].
  destruct (Nat.eqb_spec k 0) as [->|_]; [lia|].
  simpl. eauto.
Qed.

Lemma ref_lloyd_shape seed ni k X labels centers :
  ref_lloyd seed ni k X = Some (labels, centers) ->
  length labels = length X /\
  Forall (fun l => l < k) labels /\
  length centers = k.
Proof.
  unfold ref_lloyd. destruct X as [|x X']; [discriminate|].
  remember (x :: X') as X eqn:HX. clear HX.
  destruct (Nat.ltb_spec (length X) k) as [Hlt|Hge]; [discriminate|].
  destruct (Nat.eqb_spec k 0) as [->|Hk]; [discriminate|].
  cbn [orb]. intros Heq. injection Heq as <- <-. split; [|split].
  - rewrite length_map, length_seq. reflexivity.
  - apply List.Forall_forall. intros l Hin. apply in_map_iff in Hin.
    destruct Hin as [i [<- _]]. apply Nat.mod_upper_bound. exact Hk.
  - rewrite length_firstn. lia.
Qed.

Definition backend : NumericBackend :=
  {| encode := ref_encode;
     norm_diff := ref_norm_diff;
     lloyd := ref_lloyd;
     encode_length := ref_encode_length;
     lloyd_empty := ref_lloyd_empty;
     lloyd_insufficient := ref_lloyd_insufficient;
     lloyd_total := ref_lloyd_total;
     lloyd_shape := ref_lloyd_shape |}.

(** Paths are read from the working directory: a leading [./] names the
    same file as the path without it. *)
Definition ref_realpath (p : string) : string :=
  match p with
  | String "." (String "/" (String c rest)) => String c rest
  | _ => p
  end.

(** A file holds the pickled object itself, or bytes that are no pickle. *)
Definition pickle : Persistence.Pickle :=
  {| Persistence.blob := option Persistence.pyobj;
     Persistence.pickle_dump := Some;
     Persistence.pickle_load := fun content => content;
     Persistence.pickle_round_trip := fun o => eq_refl;
     Persistence.realpath := ref_realpath |}.

(** The endpoint answers the first request of the process and refuses the
    later ones; the hash table lists its elements in the order of first
    insertion when the salt is even and in the reverse order when it is
    odd. *)
Definition ref_set_list (seed : nat) (xs : list string) : list string :=
  if Nat.even seed then nodup string_dec xs else rev (nodup string_dec xs).

Lemma ref_set_list_perm seed xs :
  Permutation (ref_set_list seed xs) (nodup string_dec xs).
Proof.
  unfold ref_set_list. destruct (Nat.even seed); [reflexivity|].
  symmetry. apply Permutation_rev.
Qed.

Definition summarizer_env : Summarizer.SummarizerEnv :=
  {| Summarizer.http_post := fun n _ _ _ =>
       if Nat.eqb n 0 then Summarizer.Http 200 (Some "A quiet day.")
       else Summarizer.Http 429 None;
     Summarizer.json := string;
     Summarizer.json_loads := fun _ => None;
     Summarizer.set_list := ref_set_list;
     Summarizer.set_list_perm := ref_set_list_perm;
     Summarizer.now := str_of_nat;
     Summarizer.csv := list Summarizer.summary_record;
     Summarizer.csv_row := Summarizer.summary_record;
     Summarizer.to_csv := fun ss => ss;
     Summarizer.read_records := fun c =>
       match c with
       | [] => Raise EmptyDataError
       | _ :: _ => Ok c
       end;
     Summarizer.read_empty_frame := eq_refl |}.

(** The first request of the session gives a page with four elements, the
    later ones fail. *)
Definition front_page : list Scraper.article :=
  [ {| Scraper.h3_text := Some "Markets rally as inflation cools in June";
       Scraper.title_div_text := None;
       Scraper.link_text := None |};
    {| Scraper.h3_text := None;
       Scraper.title_div_text := Some "Sign in";
       Scraper.link_text := Some "Sign in to see more stock market news" |};
    {| Scraper.h3_text := Some "";
       Scraper.title_div_text := None;
       Scraper.link_text := Some "Regional bank shares slide after earnings" |};
    {| Scraper.h3_text := Some "Apple stock rises on strong iPhone sales";
       Scraper.title_div_text := None;
       Scraper.link_text := None |} ].

Definition scraper_env : Scraper.ScraperEnv :=
  {| Scraper.session_get := fun n _ => if Nat.eqb n 0 then Some front_page else None;
     Scraper.clock := str_of_nat;
     Scraper.csv := list Scraper.headline_record;
     Scraper.csv_row := Scraper.headline_record;
     Scraper.to_csv := fun hs => hs;
     Scraper.read_records := fun c => Ok c |}.

(** A JSON file holds the value itself, or text that is no JSON. *)
Definition json_codec : Json.JsonCodec :=
  {| Json.json_text := option Json.jvalue;
     Json.json_dump := Some;
     Json.json_load := fun text => text;
     Json.json_round_trip := fun s => eq_refl |}.

Definition scheduler_env : Scheduler.SchedulerEnv :=
  {| Scheduler.strftime_ymd := fun n => "2025010" ++ str_of_nat (n mod 10);
     Scheduler.generator_state := fun n => n |}.

(** The string methods on ASCII text: the ASCII white space splits, the
    letters [A] to [Z] are lowered. *)
Definition is_space (c : ascii) : bool :=
  let n := nat_of_ascii c in
  (Nat.leb 9 n && Nat.leb n 13) || (Nat.leb 28 n && Nat.leb n 32).

(** The maximal runs of characters that are not white space; [word] holds
    the run being read, in reverse. *)
Fixpoint split_from (word : list ascii) (s : string) : list string :=
  let flush (rest : list string) : list string :=
    match word with
    | [] => rest
    | _ :: _ => string_of_list_ascii (rev word) :: rest
    end in
  match s with
  | EmptyString => flush []
  | String c s' =>
      if is_space c then flush (split_from [] s')
      else split_from (c :: word) s'
  end.

Definition unicode : Unicode :=
  {| lower := ascii_lower;
     split := split_from [];
     lower_ascii := fun s _ => eq_refl |}.

(** The mean rounded down, and the first words with a count of one. *)
Definition pandas : Analysis.PandasBackend :=
  {| Analysis.np_mean := fun ns =>
       inject_Z (Z.of_nat (list_sum ns / Nat.max 1 (length ns)));
     Analysis.value_counts_head := fun n words =>
       map (fun w => (w, 1)) (firstn n words) |}.

End Reference.

(** Concrete instances and batches, run on the reference backend. *)
Module Examples.
Import Clustering.

(** A new instance with two clusters. *)
Definition fresh2 : HeadlineClusterer := init "m" 2.

(** The same instance after one call with two texts: it now holds their two
    rows. *)
Definition stale2 : HeadlineClusterer :=
  fst (cluster_headlines (H := Reference.backend) 0 fresh2 ["a"; "bb"]).

(** The same instance after one call with three texts instead. *)
Definition stale3 : HeadlineClusterer :=
  fst (cluster_headlines (H := Reference.backend) 0 fresh2 ["a"; "bb"; "ccc"]).

(** A fitted instance written out by hand: four rows, two centres. *)
Definition fitted4 : HeadlineClusterer :=
  {| model_name := "m";
     n_clusters := 2;
     embedding_model := "m";
     kmeans := {| km_n_clusters := 2;
                  random_state := Some 42;
                  n_init := 10;
                  cluster_centers_ := Some [[1%Q]; [0%Q]] |};
     embeddings := Some [[3%Q]; [0%Q]; [1%Q]; [1%Q]];
     cluster_labels := Some [0; 1; 0; 0] |}.

Definition results4 : list item :=
  zip_enumerate 0 ["a"; "b"; "c"; "d"] [0; 1; 0; 0].

(** The dictionary [get_cluster_summaries] builds from them. *)
Definition summaries4 : list (nat * cluster_summary) :=
  [ (0, {| representative_headline := "c";
           headlines := ["a"; "c"; "d"];
           size := 3 |});
    (1, {| representative_headline := "b";
           headlines := ["b"];
           size := 1 |}) ].

(** The summarizer in fallback mode, and two processes that differ in the
    salt of their string hashes. *)
Definition mock_summarizer : Summarizer.GeminiSummarizer :=
  {| Summarizer.api_key := "key";
     Summarizer.model_name := Summarizer.GEMINI_MODEL;
     Summarizer.use_mock := true;
     Summarizer.base_url := "https://generativelanguage.googleapis.com" |}.

Definition process (seed : nat) : Summarizer.World (H := Reference.summarizer_env) :=
  {| Summarizer.hashseed := seed;
     Summarizer.calls := 1;
     Summarizer.ticks := 0;
     Summarizer.summaries_file := None |}.


(** A pickled dictionary written by an older layout: no [n_clusters]. *)
Definition truncated : Persistence.pyobj :=
  Persistence.PyDict
    [ ("kmeans", Persistence.PyKMeans (kmeans fitted4));
      ("embeddings", Persistence.PyNone);
      ("cluster_labels", Persistence.PyNone);
      ("model_name", Persistence.PyStr "old") ].

(** A session that has sent no request, and one that has sent its first. *)
Definition online : Scraper.World (H := Reference.scraper_env) :=
  {| Scraper.requests := 0; Scraper.ticks := 0; Scraper.headlines_file := None |}.

Definition offline : Scraper.World (H := Reference.scraper_env) :=
  {| Scraper.requests := 1; Scraper.ticks := 0; Scraper.headlines_file := None |}.

(** A scheduler as its constructor builds it when the probe of the
    endpoint fails, and the world of its process before the first run. *)
Definition scheduler0 : Scheduler.NewsScheduler :=
  {| Scheduler.clusterer := init EMBEDDING_MODEL K_CLUSTERS;
     Scheduler.summarizer := mock_summarizer |}.

Definition world0 :
  Scheduler.World (H0 := Reference.pickle) (H1 := Reference.summarizer_env)
                  (H2 := Reference.scraper_env) (H3 := Reference.json_codec) :=
  {| Scheduler.web := online;
     Scheduler.llm := process 0;
     Scheduler.pickles := ∅;
     Scheduler.data_dir := ∅;
     Scheduler.runs := 0 |}.

End Examples.

(** * Properties of [clustering.py] *)

Module ClusteringFacts.
Import Clustering.
Local Open Scope list_scope.

Section Facts.
Context `{NumericBackend}.

(** ** [cluster_headlines] *)

Lemma zip_enumerate_lookup i hs labels j it :
  zip_enumerate i hs labels !! j = Some it <->
  hs !! j = Some (headline it) /\
  labels !! j = Some (cluster_id it) /\
  embedding_index it = i + j.
Proof.
  revert i labels j. induction hs as [|h hs IH]; intros i labels j.
  - simpl. split; [discriminate|]. intros [Hh _]. discriminate.
  - destruct labels as [|l labels].
    + simpl. split; [discriminate|]. intros [_ [Hl _]]. discriminate.
    + destruct j as [|j]; simpl.
      * split.
        -- intros Heq. injection Heq as <-. simpl. rewrite Nat.add_0_r. auto.
        -- intros [Hh [Hl Hi]]. destruct it as [h' l' i']. simpl in *.
           injection Hh as ->. injection Hl as ->. subst i'.
           rewrite Nat.add_0_r. reflexivity.
      * rewrite IH. rewrite Nat.add_succ_r. simpl. reflexivity.
Qed.

Lemma zip_enumerate_length i hs labels :
  length (zip_enumerate i hs labels) = Nat.min (length hs) (length labels).
Proof.
  revert i labels. induction hs as [|h hs IH]; intros i [|l labels]; simpl; auto.
Qed.

Lemma zip_enumerate_aligned hs labels : aligned (zip_enumerate 0 hs labels).
Proof.
  intros j it Hj. apply zip_enumerate_lookup in Hj. tauto.
Qed.

Lemma zip_enumerate_labels i hs labels :
  length hs = length labels ->
  map cluster_id (zip_enumerate i hs labels) = labels.
Proof.
  revert i labels. induction hs as [|h hs IH]; intros i [|l labels] Hlen;
    simpl in *; try discriminate; auto.
  f_equal. apply IH. lia.
Qed.

(** A call on an instance without embeddings encodes the batch first. *)
Lemma cluster_headlines_fresh entropy st hs :
  embeddings st = None ->
  cluster_headlines entropy st hs =
  cluster_headlines entropy (set_embeddings st (encode (embedding_model st) hs)) hs.
Proof.
  intros Hnone. unfold cluster_headlines. rewrite Hnone. reflexivity.
Qed.

(** A call on an instance with embeddings fits them, whatever the batch. *)
Lemma cluster_headlines_stored entropy st hs E :
  embeddings st = Some E ->
  cluster_headlines entropy st hs =
  match fit_predict entropy (kmeans st) E with
  | (km, Ok labels) => (set_fit st km labels, Ok (zip_enumerate 0 hs labels))
  | (_, Raise e) => (st, Raise e)
  end.
Proof.
  intros Hsome. unfold cluster_headlines. rewrite Hsome. cbn beta iota.
  rewrite Hsome. reflexivity.
Qed.

Lemma fit_predict_params entropy km X :
  same_params km (fst (fit_predict entropy km X)).
Proof.
  unfold fit_predict, same_params.
  destruct (lloyd _ _ _ X) as [[labels centers]|]; simpl; auto.
Qed.

Lemma cluster_headlines_params entropy st hs :
  same_params (kmeans st) (kmeans (fst (cluster_headlines entropy st hs))).
Proof.
  unfold cluster_headlines.
  set (st1 := match embeddings st with
              | None => fst (create_embeddings st hs)
              | Some _ => st
              end).
  assert (Hk : kmeans st1 = kmeans st).
  { unfold st1. destruct (embeddings st); reflexivity. }
  destruct (embeddings st1) as [X|]; simpl; [|rewrite Hk; red; auto].
  pose proof (fit_predict_params entropy (kmeans st1) X) as Hp.
  destruct (fit_predict entropy (kmeans st1) X) as [km [labels|e]]; simpl in *.
  - rewrite <- Hk. exact Hp.
  - rewrite Hk. red; auto.
Qed.

Lemma cluster_headlines_keeps_embeddings entropy st hs E :
  embeddings st = Some E ->
  embeddings (fst (cluster_headlines entropy st hs)) = Some E.
Proof.
  intros Hsome. rewrite (cluster_headlines_stored _ _ _ _ Hsome).
  destruct (fit_predict entropy (kmeans st) E) as [km [labels|e]]; simpl; auto.
Qed.

Lemma cluster_calls_keeps st batches E :
  embeddings st = Some E ->
  embeddings (cluster_calls st batches) = Some E /\
  same_params (kmeans st) (kmeans (cluster_calls st batches)).
Proof.
  revert st. induction batches as [|[entropy hs] rest IH]; intros st Hsome; simpl.
  - split; [exact Hsome|red; auto].
  - destruct (IH _ (cluster_headlines_keeps_embeddings entropy st hs E Hsome))
      as [He [Hk [Hr Hn]]].
    split; [exact He|].
    destruct (cluster_headlines_params entropy st hs) as [Hk' [Hr' Hn']].
    red. rewrite Hk, Hr, Hn. auto.
Qed.

(** ** [np.argmin] *)

Lemma argmin_from_spec ds : forall pre best_i best,
  pre !! best_i = Some best ->
  (forall j dj, pre !! j = Some dj -> (best <= dj)%Q) ->
  (forall j dj, pre !! j = Some dj -> j < best_i -> (best < dj)%Q) ->
  exists d,
    (pre ++ ds) !! argmin_from best_i best (length pre) ds = Some d /\
    (forall j dj, (pre ++ ds) !! j = Some dj -> (d <= dj)%Q) /\
    (forall j dj, (pre ++ ds) !! j = Some dj ->
       j < argmin_from best_i best (length pre) ds -> (d < dj)%Q).
Proof.
  induction ds as [|a ds IH]; intros pre best_i best Hbest Hmin Hfirst.
  - simpl. rewrite app_nil_r. exists best. auto.
  - simpl. replace (pre ++ a :: ds) with ((pre ++ [a]) ++ ds)
      by (rewrite <- app_assoc; reflexivity).
    replace (S (length pre)) with (length (pre ++ [a]))
      by (rewrite length_app; simpl; lia).
    destruct (Qle_bool best a) eqn:Hle.
    + apply Qle_bool_iff in Hle. apply IH.
      * apply lookup_app_l_Some. exact Hbest.
      * intros j dj Hj. apply lookup_app_Some in Hj.
        destruct Hj as [Hj | [_ Hj]]; [eauto|].
        apply list_lookup_singleton_Some in Hj. destruct Hj as [_ <-]. exact Hle.
      * intros j dj Hj Hlt. apply lookup_app_Some in Hj.
        destruct Hj as [Hj | [Hge _]]; [eauto|].
        apply lookup_lt_Some in Hbest. lia.
    + assert (Hlt : (a < best)%Q).
      { apply Qnot_le_lt. intros Hc. apply Qle_bool_iff in Hc. congruence. }
      apply IH.
      * rewrite lookup_app_r by lia. rewrite Nat.sub_diag. reflexivity.
      * intros j dj Hj. apply lookup_app_Some in Hj.
        destruct Hj as [Hj | [_ Hj]].
        -- apply Qlt_le_weak. eapply Qlt_le_trans; [exact Hlt|]. eauto.
        -- apply list_lookup_singleton_Some in Hj. destruct Hj as [_ <-].
           apply Qle_refl.
      * intros j dj Hj Hj'. apply lookup_app_Some in Hj.
        destruct Hj as [Hj | [Hge _]]; [|lia].
        eapply Qlt_le_trans; [exact Hlt|]. eauto.
Qed.

(** [argmin] gives a position of the sequence that holds a least element,
    and the first such position. *)
Lemma argmin_spec ds :
  ds <> [] ->
  exists pos d,
    argmin ds = Some pos /\
    ds !! pos = Some d /\
    (forall j dj, ds !! j = Some dj -> (d <= dj)%Q) /\
    (forall j dj, ds !! j = Some dj -> j < pos -> (d < dj)%Q).
Proof.
  destruct ds as [|d0 ds]; [congruence|]. intros _.
  destruct (argmin_from_spec ds [d0] 0 d0) as [d [Hd [Hmin Hfirst]]].
  - reflexivity.
  - intros j dj Hj. apply list_lookup_singleton_Some in Hj.
    destruct Hj as [_ <-]. apply Qle_refl.
  - intros j dj _ Hlt. lia.
  - exists (argmin_from 0 d0 1 ds), d. simpl in *. auto.
Qed.

(** ** Filtering keeps the input order *)

Lemma filter_lookup_elem {A} (p : A -> bool) l q a :
  List.filter p l !! q = Some a -> p a = true /\ exists j, l !! j = Some a.
Proof.
  intros Hq. apply list_elem_of_lookup_2, list_elem_of_In, filter_In in Hq.
  destruct Hq as [Hin Hp]. split; [exact Hp|].
  apply list_elem_of_lookup_1, list_elem_of_In. exact Hin.
Qed.

Lemma elem_filter_lookup {A} (p : A -> bool) l j a :
  l !! j = Some a -> p a = true -> exists q, List.filter p l !! q = Some a.
Proof.
  intros Hj Hp. apply list_elem_of_lookup_1, list_elem_of_In, filter_In.
  split; [|exact Hp]. apply list_elem_of_In. eapply list_elem_of_lookup_2. exact Hj.
Qed.

Lemma filter_index_mono (p : item -> bool) l : forall off q q' a b,
  (forall j it, l !! j = Some it -> embedding_index it = off + j) ->
  List.filter p l !! q = Some a ->
  List.filter p l !! q' = Some b ->
  q < q' ->
  embedding_index a < embedding_index b.
Proof.
  induction l as [|x l IH]; intros off q q' a b Hal Hq Hq' Hlt.
  - discriminate.
  - assert (Hal' : forall j it, l !! j = Some it -> embedding_index it = S off + j).
    { intros j it Hj. rewrite (Hal (S j) it Hj). lia. }
    simpl in Hq, Hq'. destruct (p x).
    + destruct q' as [|q']; [lia|]. simpl in Hq'. destruct q as [|q].
      * injection Hq as <-. rewrite (Hal 0 x eq_refl).
        apply filter_lookup_elem in Hq'. destruct Hq' as [_ [j Hj]].
        rewrite (Hal' j b Hj). lia.
      * simpl in Hq. apply (IH (S off) q q'); auto. lia.
    + apply (IH (S off) q q'); auto.
Qed.

(** ** Row selection *)

Lemma take_rows_spec E idx es :
  take_rows E idx = Ok es -> Forall2 (fun i e => E !! i = Some e) idx es.
Proof.
  revert es. induction idx as [|i idx IH]; intros es Hes; simpl in Hes.
  - injection Hes as <-. constructor.
  - destruct (E !! i) as [e|] eqn:Hi; [|discriminate].
    destruct (take_rows E idx) as [es'|x]; [|discriminate].
    injection Hes as <-. constructor; auto.
Qed.

Lemma take_rows_total E idx :
  Forall (fun i => i < length E) idx -> exists es, take_rows E idx = Ok es.
Proof.
  induction 1 as [|i idx Hi _ [es Hes]]; simpl.
  - eauto.
  - destruct (lookup_lt_is_Some_2 E i Hi) as [e ->]. rewrite Hes. eauto.
Qed.

(** ** [get_cluster_summaries] *)

Lemma populated_members cluster_results cid :
  populated cluster_results cid =
  match members cluster_results cid with
  | [] => false
  | _ :: _ => true
  end.
Proof.
  unfold populated, members.
  induction cluster_results as [|it l IH]; simpl; [reflexivity|].
  destruct (Nat.eqb (cluster_id it) cid); simpl; auto.
Qed.

Lemma members_lookup cluster_results cid q m :
  members cluster_results cid !! q = Some m ->
  cluster_id m = cid /\ exists j, cluster_results !! j = Some m.
Proof.
  intros Hq. apply filter_lookup_elem in Hq. destruct Hq as [Hp Hj].
  apply Nat.eqb_eq in Hp. auto.
Qed.

Lemma summarize_cluster_none st cluster_results cid :
  summarize_cluster st cluster_results cid = Ok None <->
  populated cluster_results cid = false.
Proof.
  rewrite populated_members. unfold summarize_cluster.
  destruct (members cluster_results cid) as [|m ms]; simpl; [tauto|].
  split; [|discriminate]. intros Hs.
  unfold mbind, result_bind, from_option in Hs.
  repeat match type of Hs with
         | match ?x with _ => _ end = _ => destruct x; try discriminate
         end.
Qed.

(** What one populated group gets. *)
Lemma summarize_cluster_some st cluster_results cid s :
  aligned cluster_results ->
  summarize_cluster st cluster_results cid = Ok (Some s) ->
  headlines s = map headline (members cluster_results cid) /\
  size s = length (headlines s) /\
  1 <= size s /\
  nearest_member st cluster_results cid (representative_headline s).
Proof.
  intros Hal Hs. unfold summarize_cluster in Hs.
  set (ms := members cluster_results cid) in *.
  destruct (map headline ms) as [|h0 hs0] eqn:Hmap; [discriminate|].
  unfold mbind, result_bind, from_option in Hs.
  destruct (embeddings st) as [E|] eqn:HE; [|discriminate].
  destruct (take_rows E (map embedding_index ms)) as [es|] eqn:Hrows; [|discriminate].
  destruct (cluster_centers_ (kmeans st)) as [C|] eqn:HC; [|discriminate].
  destruct (C !! cid) as [c|] eqn:Hc; [|discriminate].
  destruct (argmin (map (fun e => norm_diff e c) es)) as [pos|] eqn:Hpos;
    [|discriminate].
  destruct (map embedding_index ms !! pos) as [i|] eqn:Hi; [|discriminate].
  destruct (cluster_results !! i) as [rep|] eqn:Hrep; [|discriminate].
  injection Hs as <-. cbn [headlines size representative_headline].
  split; [reflexivity|]. split; [reflexivity|]. split; [simpl; lia|].
  apply take_rows_spec in Hrows.
  (* the entry at the chosen position of the group *)
  rewrite list_lookup_fmap in Hi.
  destruct (ms !! pos) as [m|] eqn:Hm; [|discriminate].
  injection Hi as Hi.
  destruct (members_lookup _ _ _ _ Hm) as [Hcid [jm Hjm]].
  assert (jm = i) by (rewrite <- (Hal _ _ Hjm); exact Hi). subst jm.
  assert (rep = m) by congruence. subst rep.
  assert (His : map embedding_index ms !! pos = Some i).
  { rewrite list_lookup_fmap, Hm. simpl. congruence. }
  destruct (Forall2_lookup_l _ _ _ _ _ Hrows His) as [e [Hes HEi]].
  (* its distance is the least of the group, and the first such *)
  assert (Hne : map (fun e => norm_diff e c) es <> []).
  { intros Hnil. rewrite Hnil in Hpos. discriminate. }
  destruct (argmin_spec _ Hne) as [pos' [d [Hpos' [Hd [Hmin Hfirst]]]]].
  assert (pos' = pos) by congruence. subst pos'.
  rewrite list_lookup_fmap, Hes in Hd. injection Hd as <-.
  exists E, C, c, i, m, e. repeat (split; [assumption || reflexivity|]).
  intros j other ej Hj Hother HEj.
  destruct (elem_filter_lookup (fun it => Nat.eqb (cluster_id it) cid)
              cluster_results j other Hj) as [q Hq].
  { apply Nat.eqb_eq. exact Hother. }
  fold (members cluster_results cid) in Hq. fold ms in Hq.
  assert (Hqi : map embedding_index ms !! q = Some j).
  { rewrite list_lookup_fmap, Hq. simpl. f_equal. apply Hal. exact Hj. }
  destruct (Forall2_lookup_l _ _ _ _ _ Hrows Hqi) as [ej' [Hesq HEj']].
  assert (ej' = ej) by congruence. subst ej'.
  assert (Hdq : map (fun e => norm_diff e c) es !! q = Some (norm_diff ej c)).
  { rewrite list_lookup_fmap, Hesq. reflexivity. }
  split; [exact (Hmin _ _ Hdq)|].
  intros Hji. apply (Hfirst _ _ Hdq).
  destruct (Nat.lt_ge_cases q pos) as [Hlt|Hge]; [exact Hlt|exfalso].
  destruct (Nat.eq_dec pos q) as [->|Hneq].
  - assert (other = m) by congruence. subst other.
    rewrite (Hal _ _ Hj) in Hi. lia.
  - assert (Hmono : embedding_index m < embedding_index other).
    { apply (filter_index_mono (fun it => Nat.eqb (cluster_id it) cid)
               cluster_results 0 pos q); auto. lia. }
    rewrite (Hal _ _ Hj), Hi in Hmono. lia.
Qed.

Lemma summarize_cluster_total st cluster_results cid :
  aligned cluster_results ->
  fitted_for st cluster_results ->
  exists o, summarize_cluster st cluster_results cid = Ok o.
Proof.
  intros Hal [E [C [HE [HC [Hlen Hlab]]]]]. unfold summarize_cluster.
  set (ms := members cluster_results cid).
  destruct (map headline ms) as [|h0 hs0] eqn:Hmap; [eauto|].
  unfold mbind, result_bind. rewrite HE, HC. cbn [from_option].
  assert (Hidx : Forall (fun i => i < length E) (map embedding_index ms)).
  { apply List.Forall_forall. intros i Hin. apply in_map_iff in Hin.
    destruct Hin as [m [<- Hin]].
    apply list_elem_of_In, list_elem_of_lookup_1 in Hin. destruct Hin as [q Hq].
    destruct (members_lookup _ _ _ _ Hq) as [_ [j Hj]].
    rewrite (Hal _ _ Hj). apply lookup_lt_Some in Hj. lia. }
  destruct (take_rows_total E _ Hidx) as [es Hes]. rewrite Hes.
  pose proof (Forall2_length _ _ _ (take_rows_spec _ _ _ Hes)) as Hlen_es.
  assert (Hms : ms <> []) by (intros Hnil; rewrite Hnil in Hmap; discriminate).
  assert (Hc : is_Some (C !! cid)).
  { destruct ms as [|m0 ms'] eqn:Hms0; [congruence|].
    assert (Hm0 : ms !! 0 = Some m0) by (rewrite Hms0; reflexivity).
    destruct (members_lookup _ _ _ _ Hm0) as [<- [j Hj]].
    apply lookup_lt_is_Some_2. rewrite List.Forall_forall in Hlab. apply Hlab.
    apply list_elem_of_In. eapply list_elem_of_lookup_2. exact Hj. }
  destruct Hc as [c ->].
  assert (Hne : map (fun e => norm_diff e c) es <> []).
  { intros Hnil. apply (f_equal (@length Q)) in Hnil.
    rewrite length_map, <- Hlen_es, length_map in Hnil.
    destruct ms; [congruence|discriminate]. }
  destruct (argmin_spec _ Hne) as [pos [d [Hpos [Hd _]]]].
  cbn [from_option]. cbv zeta. rewrite Hpos. cbn [from_option].
  apply lookup_lt_Some in Hd. rewrite length_map, <- Hlen_es in Hd.
  destruct (lookup_lt_is_Some_2 _ _ Hd) as [i Hi]. rewrite Hi.
  rewrite list_lookup_fmap in Hi.
  destruct (ms !! pos) as [m|] eqn:Hm; [|discriminate]. injection Hi as Hi.
  destruct (members_lookup _ _ _ _ Hm) as [_ [j Hj]].
  rewrite (Hal _ _ Hj) in Hi. subst j. cbn [from_option]. rewrite Hj. eauto.
Qed.

Lemma dict_set_fresh {V} (k : nat) (v : V) d :
  ~ In k (map fst d) -> dict_set k v d = d ++ [(k, v)].
Proof.
  induction d as [|[k' v'] d IH]; simpl; intros Hfresh; [reflexivity|].
  destruct (Nat.eqb_spec k' k) as [->|_]; [tauto|].
  rewrite IH by tauto. reflexivity.
Qed.

Lemma summaries_loop_spec st cluster_results cids : forall acc out,
  List.NoDup cids ->
  (forall c, In c cids -> ~ In c (map fst acc)) ->
  summaries_loop st cluster_results cids acc = Ok out ->
  map fst out = map fst acc ++ List.filter (populated cluster_results) cids /\
  forall c s, In (c, s) out ->
    In (c, s) acc \/
    (In c cids /\ summarize_cluster st cluster_results c = Ok (Some s)).
Proof.
  induction cids as [|cid rest IH]; intros acc out Hnd Hfresh Hloop; simpl in Hloop.
  - injection Hloop as <-. simpl. rewrite app_nil_r. auto.
  - inversion Hnd as [|? ? Hnotin Hnd']; subst.
    destruct (summarize_cluster st cluster_results cid) as [[s0|]|e] eqn:Hs;
      [| |discriminate].
    + assert (Hpop : populated cluster_results cid = true).
      { destruct (populated cluster_results cid) eqn:Hp; [reflexivity|].
        apply (proj2 (summarize_cluster_none st _ _)) in Hp. congruence. }
      rewrite dict_set_fresh in Hloop by (apply Hfresh; left; reflexivity).
      apply IH in Hloop; [|exact Hnd'|].
      * destruct Hloop as [Hkeys Hin]. split.
        -- simpl. rewrite Hpop, Hkeys, map_app, <- app_assoc. reflexivity.
        -- intros c s Hcs. destruct (Hin c s Hcs) as [Hacc | [Hc Hsum]].
           ++ apply in_app_or in Hacc. destruct Hacc as [Hacc | [Heq | []]];
                [left; exact Hacc|].
              injection Heq as <- <-. right. split; [left; reflexivity|exact Hs].
           ++ right. split; [right; exact Hc|exact Hsum].
      * intros c Hc. rewrite map_app, in_app_iff. simpl.
        intros [Hacc | [<- | []]]; [|tauto].
        apply (Hfresh c); [right; exact Hc|exact Hacc].
    + apply (proj1 (summarize_cluster_none st _ _)) in Hs.
      apply IH in Hloop; [|exact Hnd'|].
      * destruct Hloop as [Hkeys Hin]. split.
        -- simpl. rewrite Hs. exact Hkeys.
        -- intros c s Hcs. destruct (Hin c s Hcs) as [Hacc | [Hc Hsum]]; auto.
           right. split; [right; exact Hc|exact Hsum].
      * intros c Hc. apply Hfresh. right. exact Hc.
Qed.

Lemma summaries_loop_total st cluster_results cids : forall acc,
  (forall cid, exists o, summarize_cluster st cluster_results cid = Ok o) ->
  exists out, summaries_loop st cluster_results cids acc = Ok out.
Proof.
  induction cids as [|cid rest IH]; intros acc Htot; simpl; [eauto|].
  destruct (Htot cid) as [[s|] ->]; apply IH; exact Htot.
Qed.

Lemma get_cluster_summaries_spec st cluster_results out :
  get_cluster_summaries st cluster_results = Ok out ->
  map fst out = List.filter (populated cluster_results) (seq 0 (n_clusters st)) /\
  forall c s, In (c, s) out ->
    summarize_cluster st cluster_results c = Ok (Some s).
Proof.
  intros Hget. unfold get_cluster_summaries in Hget.
  apply summaries_loop_spec in Hget; [|apply seq_NoDup|intros c _ []].
  destruct Hget as [Hkeys Hin]. split; [exact Hkeys|].
  intros c s Hcs. destruct (Hin c s Hcs) as [[] | [_ Hs]]. exact Hs.
Qed.

Lemma filter_seq_sorted (p : nat -> bool) n : forall lo,
  StronglySorted lt (List.filter p (seq lo n)).
Proof.
  induction n as [|n IH]; intros lo; simpl; [constructor|].
  destruct (p lo); [|apply IH].
  constructor; [apply IH|].
  apply List.Forall_forall. intros x Hx. apply filter_In in Hx.
  destruct Hx as [Hx _]. apply in_seq in Hx. lia.
Qed.

(** What a successful [cluster_headlines] hands to
    [get_cluster_summaries]. *)
Lemma cluster_headlines_fitted entropy st hs st' cluster_results :
  cluster_headlines entropy st hs = (st', Ok cluster_results) ->
  aligned cluster_results /\ fitted_for st' cluster_results.
Proof.
  unfold cluster_headlines.
  set (st1 := match embeddings st with
              | None => fst (create_embeddings st hs)
              | Some _ => st
              end).
  destruct (embeddings st1) as [X|] eqn:HX; [|discriminate].
  unfold fit_predict.
  destruct (lloyd _ _ _ X) as [[labels centers]|] eqn:Hfit; [|discriminate].
  intros Heq. injection Heq as <- <-.
  destruct (lloyd_shape _ _ _ _ _ _ Hfit) as [Hlen [Hrange Hc]].
  split; [apply zip_enumerate_aligned|].
  exists X, centers. cbn. repeat split; auto.
  - rewrite zip_enumerate_length. lia.
  - apply List.Forall_forall. intros it Hin.
    apply list_elem_of_In, list_elem_of_lookup_1 in Hin. destruct Hin as [j Hj].
    apply zip_enumerate_lookup in Hj. destruct Hj as [_ [Hl _]].
    rewrite Hc. rewrite List.Forall_forall in Hrange. apply Hrange.
    apply list_elem_of_In. eapply list_elem_of_lookup_2. exact Hl.
Qed.

(** After a call of [cluster_headlines] that returns,
    [get_cluster_summaries] returns as well. *)
Corollary run_pipeline_returns entropy st hs st' cluster_results :
  cluster_headlines entropy st hs = (st', Ok cluster_results) ->
  exists out, run_pipeline entropy st hs = (st', Ok out).
Proof.
  intros Hcall. unfold run_pipeline. rewrite Hcall.
  destruct (cluster_headlines_fitted _ _ _ _ _ Hcall) as [Hal Hfit].
  destruct (summaries_loop_total st' cluster_results (seq 0 (n_clusters st')) [])
    as [out Hout].
  { intros cid. apply summarize_cluster_total; assumption. }
  exists out. unfold get_cluster_summaries. rewrite Hout. reflexivity.
Qed.

(** ** Group summaries *)

Lemma StronglySorted_map_S ps :
  StronglySorted lt ps -> StronglySorted lt (map S ps).
Proof.
  induction 1 as [|q ps _ IH Hq]; cbn [map]; constructor; [exact IH|].
  rewrite List.Forall_forall in *. intros j Hj. apply in_map_iff in Hj.
  destruct Hj as [j' [<- Hj']]. specialize (Hq j' Hj'). lia.
Qed.

(** The positions that a filter keeps: they ascend, they are the positions
    of the elements that pass, and the filtered list holds the elements at
    these positions, one by one. *)
Lemma filter_positions {A} (p : A -> bool) (l : list A) :
  exists positions,
    StronglySorted lt positions /\
    (forall j, In j positions <-> exists a, l !! j = Some a /\ p a = true) /\
    Forall2 (fun j b => l !! j = Some b) positions (List.filter p l).
Proof.
  induction l as [|x l [ps [Hsorted [Hmem Hall]]]].
  - exists []. split; [constructor|]. split; [|constructor].
    intros j. split; [intros []|]. intros [a [Ha _]]. discriminate.
  - assert (Hshift : Forall2 (fun j b => (x :: l) !! j = Some b)
                             (map S ps) (List.filter p l)).
    { clear Hsorted Hmem. induction Hall; cbn [map]; constructor; auto. }
    assert (Hmem' : forall j, In j (map S ps) <->
                      exists j', j = S j' /\ exists a, l !! j' = Some a /\ p a = true).
    { intros j. rewrite in_map_iff. split.
      - intros [j' [<- Hj']]. exists j'. split; [reflexivity|]. apply Hmem, Hj'.
      - intros [j' [-> Hj']]. exists j'. split; [reflexivity|]. apply Hmem, Hj'. }
    cbn [List.filter]. destruct (p x) eqn:Hpx.
    + exists (0 :: map S ps). split; [|split].
      * constructor; [apply StronglySorted_map_S, Hsorted|].
        apply List.Forall_forall. intros j Hj. apply in_map_iff in Hj.
        destruct Hj as [j' [<- _]]. lia.
      * intros j. cbn [In]. rewrite Hmem'. split.
        -- intros [<- | [j' [-> Hj']]]; [exists x; auto|exact Hj'].
        -- destruct j as [|j']; [auto|]. intros Hj. right. exists j'. auto.
      * constructor; [reflexivity|exact Hshift].
    + exists (map S ps). split; [apply StronglySorted_map_S, Hsorted|].
      split; [|exact Hshift].
      intros j. rewrite Hmem'. split.
      * intros [j' [-> Hj']]. exact Hj'.
      * destruct j as [|j'].
        -- intros [a [Ha Hpa]]. injection Ha as <-. congruence.
        -- intros Hj. exists j'. auto.
Qed.

(** The headlines of a group, read off the input list: the ascending
    positions of the entries that carry the label, and the headline at each
    of them. *)
Lemma members_positions cluster_results cid :
  exists positions,
    StronglySorted lt positions /\
    (forall j, In j positions <->
       exists it, cluster_results !! j = Some it /\ cluster_id it = cid) /\
    Forall2 (fun j h => exists it, cluster_results !! j = Some it /\ headline it = h)
            positions (map headline (members cluster_results cid)).
Proof.
  destruct (filter_positions (fun it => Nat.eqb (cluster_id it) cid) cluster_results)
    as [ps [Hsorted [Hmem Hall]]].
  exists ps. split; [exact Hsorted|]. split.
  - intros j. rewrite Hmem. split; intros [it [Hit Hc]]; exists it;
      (split; [exact Hit|]); apply Nat.eqb_eq; exact Hc.
  - unfold members.
    set (its := List.filter (fun it => Nat.eqb (cluster_id it) cid) cluster_results)
      in *.
    clearbody its. clear Hsorted Hmem.
    induction Hall as [|j it ps' its' Hj _ IH]; cbn [map]; constructor; eauto.
Qed.

(** C3: [get_cluster_summaries] returns, for entries as [cluster_headlines]
    builds them, a dictionary whose keys are exactly the group ids below
    [n_clusters] that have an entry, each once and in ascending order; the
    [headlines] of a group are the headlines of all the entries of the input
    that carry its label, one per such entry and in the order of the input
    (the headlines at the ascending positions of these entries), and [size]
    is their number, at least one.  Groups without an entry get no key. *)
Theorem get_cluster_summaries_groups st cluster_results :
  aligned cluster_results ->
  fitted_for st cluster_results ->
  exists out,
    get_cluster_summaries st cluster_results = Ok out /\
    map fst out = List.filter (populated cluster_results) (seq 0 (n_clusters st)) /\
    StronglySorted lt (map fst out) /\
    (forall cid, In cid (map fst out) <->
       cid < n_clusters st /\ exists it, In it cluster_results /\ cluster_id it = cid) /\
    (forall cid s, In (cid, s) out ->
       (exists positions,
          StronglySorted lt positions /\
          (forall j, In j positions <->
             exists it, cluster_results !! j = Some it /\ cluster_id it = cid) /\
          Forall2 (fun j h =>
                     exists it, cluster_results !! j = Some it /\ headline it = h)
                  positions (headlines s)) /\
       size s = length (headlines s) /\
       1 <= size s).
Proof.
  intros Hal Hfit.
  destruct (summaries_loop_total st cluster_results (seq 0 (n_clusters st)) [])
    as [out Hout].
  { intros cid. apply summarize_cluster_total; assumption. }
  exists out. split; [exact Hout|].
  destruct (get_cluster_summaries_spec _ _ _ Hout) as [Hkeys Hin].
  split; [exact Hkeys|]. split; [rewrite Hkeys; apply filter_seq_sorted|]. split.
  - intros cid. rewrite Hkeys, filter_In, in_seq. unfold populated.
    rewrite existsb_exists. split.
    + intros [Hlt [it [Hit Heq]]]. apply Nat.eqb_eq in Heq. split; [lia|eauto].
    + intros [Hlt [it [Hit Heq]]]. split; [lia|].
      exists it. split; [exact Hit|]. apply Nat.eqb_eq. exact Heq.
  - intros cid s Hcs. apply Hin in Hcs.
    apply summarize_cluster_some in Hcs; [|exact Hal].
    destruct Hcs as [Hhs [Hsize [Hpos _]]].
    split; [|split; assumption].
    rewrite Hhs. apply members_positions.
Qed.

(** ** The representative headline *)

(** What [get_cluster_summaries] computes on any instance: in every group
    of the returned dictionary, the representative headline is the headline
    of the entry of that group for which the row stored on the instance at
    the position of the entry is at the least distance from the centre of
    the group, the entry of lowest input position among those at that
    distance; it is one of the [headlines] of the group.  The stored row is
    the embedding of the text of the entry only on an instance that encoded
    this batch. *)
Lemma representative_is_nearest_member st cluster_results out cid s :
  aligned cluster_results ->
  get_cluster_summaries st cluster_results = Ok out ->
  In (cid, s) out ->
  nearest_member st cluster_results cid (representative_headline s) /\
  In (representative_headline s) (headlines s).
Proof.
  intros Hal Hout Hcs.
  destruct (get_cluster_summaries_spec _ _ _ Hout) as [_ Hin].
  apply Hin in Hcs. apply summarize_cluster_some in Hcs; [|exact Hal].
  destruct Hcs as [Hhs [_ [_ Hnear]]]. split; [exact Hnear|].
  destruct Hnear as [E [C [c [i [rep [e [_ [_ [_ [Hrep [Hcid [Htext _]]]]]]]]]]]].
  rewrite Hhs, <- Htext. apply in_map. apply filter_In. split.
  - apply list_elem_of_In. eapply list_elem_of_lookup_2. exact Hrep.
  - apply Nat.eqb_eq. exact Hcid.
Qed.

(** ** Repeated runs *)

Lemma fit_predict_seeded e1 e2 km X s :
  random_state km = Some s ->
  fit_predict e1 km X = fit_predict e2 km X.
Proof. intros Hs. unfold fit_predict. rewrite Hs. reflexivity. Qed.

Lemma cluster_headlines_seeded e1 e2 st hs s :
  random_state (kmeans st) = Some s ->
  cluster_headlines e1 st hs = cluster_headlines e2 st hs.
Proof.
  intros Hs. unfold cluster_headlines.
  set (st1 := match embeddings st with
              | None => fst (create_embeddings st hs)
              | Some _ => st
              end).
  assert (Hk : kmeans st1 = kmeans st).
  { unfold st1. destruct (embeddings st); reflexivity. }
  destruct (embeddings st1) as [X|]; [|reflexivity].
  rewrite (fit_predict_seeded e1 e2 (kmeans st1) X s) by (rewrite Hk; exact Hs).
  reflexivity.
Qed.

(** C5: the k-means object of a new instance carries [random_state=42], so
    the state of the global generator at the time of a run has no part in
    it.  Two runs on new instances with the same texts and the same [k] give
    the same instance (embeddings, labels, centres) and the same group
    summaries (keys, representatives, headlines in input order), and so does
    a second run on the instance left by the first. *)
Theorem pipeline_deterministic name k hs e1 e2 :
  cluster_headlines e1 (init name k) hs = cluster_headlines e2 (init name k) hs /\
  run_pipeline e1 (init name k) hs = run_pipeline e2 (init name k) hs /\
  run_pipeline e2 (fst (run_pipeline e1 (init name k) hs)) hs =
  run_pipeline e1 (init name k) hs.
Proof.
  assert (Hsame : forall st, random_state (kmeans st) = Some 42 ->
            cluster_headlines e1 st hs = cluster_headlines e2 st hs).
  { intros st Hst. apply (cluster_headlines_seeded e1 e2 st hs 42 Hst). }
  split; [apply Hsame; reflexivity|]. split.
  - unfold run_pipeline. rewrite (Hsame (init name k)) by reflexivity. reflexivity.
  - unfold run_pipeline.
    rewrite (cluster_headlines_fresh e1 (init name k) hs) by reflexivity.
    set (X := encode (embedding_model (init name k)) hs).
    rewrite (cluster_headlines_stored e1 _ hs X) by reflexivity.
    unfold fit_predict. cbn [set_embeddings init kmeans random_state n_init
                             km_n_clusters].
    destruct (lloyd 42 10 k X) as [[labels centers]|] eqn:Hfit.
    + cbn [fst].
      rewrite (cluster_headlines_stored e2 _ hs X) by reflexivity.
      unfold fit_predict. cbn. rewrite Hfit. reflexivity.
    + cbn [fst].
      rewrite (cluster_headlines_stored e2 _ hs X) by reflexivity.
      unfold fit_predict. cbn. rewrite Hfit. reflexivity.
Qed.

(** ** Too few texts *)

(** C1, as the code has it: on an instance that holds no embeddings yet, a
    call with an empty batch or with fewer texts than the number of clusters
    of the k-means object ends in the [ValueError] of the fit (the
    insufficient-data failure) and returns no result; the encoded batch
    stays on the instance, the labels and the k-means object are untouched. *)
Theorem cluster_headlines_insufficient entropy st hs :
  embeddings st = None ->
  hs = [] \/ length hs < km_n_clusters (kmeans st) ->
  cluster_headlines entropy st hs =
  (set_embeddings st (encode (embedding_model st) hs), Raise ValueError).
Proof.
  intros Hnone Hfew.
  rewrite (cluster_headlines_fresh _ _ _ Hnone).
  rewrite (cluster_headlines_stored _ _ _ (encode (embedding_model st) hs))
    by reflexivity.
  unfold fit_predict. cbn [set_embeddings kmeans].
  assert (Hl : forall seed, lloyd seed (n_init (kmeans st))
             (km_n_clusters (kmeans st)) (encode (embedding_model st) hs) = None).
  { intros seed. destruct Hfew as [-> | Hlt].
    - pose proof (encode_length (embedding_model st) []) as Hlen.
      destruct (encode (embedding_model st) []); [|discriminate].
      apply lloyd_empty.
    - apply lloyd_insufficient. rewrite encode_length. exact Hlt. }
  rewrite Hl. reflexivity.
Qed.

(** ** One assignment per text *)

(** X21: on an instance that holds no embeddings yet, a batch of
    [n >= k > 0] texts gets exactly one entry per text, at the position of
    the text and with that position as [embedding_index], and every
    [cluster_id] is below [k]. *)
Theorem cluster_headlines_covers entropy st hs :
  embeddings st = None ->
  0 < km_n_clusters (kmeans st) <= length hs ->
  exists st' cluster_results,
    cluster_headlines entropy st hs = (st', Ok cluster_results) /\
    length cluster_results = length hs /\
    cluster_labels st' = Some (map cluster_id cluster_results) /\
    forall j h, hs !! j = Some h ->
      exists label,
        cluster_results !! j =
          Some {| headline := h; cluster_id := label; embedding_index := j |} /\
        label < km_n_clusters (kmeans st).
Proof.
  intros Hnone Hk.
  rewrite (cluster_headlines_fresh _ _ _ Hnone).
  rewrite (cluster_headlines_stored _ _ _ (encode (embedding_model st) hs))
    by reflexivity.
  unfold fit_predict. cbn [set_embeddings kmeans].
  set (seed := match random_state (kmeans st) with Some s => s | None => entropy end).
  set (X := encode (embedding_model st) hs).
  assert (HX : length X = length hs) by apply encode_length.
  destruct (lloyd_total seed (n_init (kmeans st)) (km_n_clusters (kmeans st)) X)
    as [[labels centers] Hfit]; [rewrite HX; exact Hk|].
  rewrite Hfit.
  destruct (lloyd_shape _ _ _ _ _ _ Hfit) as [Hlen [Hrange _]].
  rewrite HX in Hlen.
  eexists. eexists. split; [reflexivity|]. split; [|split].
  - rewrite zip_enumerate_length. lia.
  - cbn. rewrite zip_enumerate_labels by lia. reflexivity.
  - intros j h Hj.
    assert (Hjlt : j < length labels).
    { rewrite Hlen. eapply lookup_lt_Some. exact Hj. }
    destruct (lookup_lt_is_Some_2 labels j Hjlt) as [label Hlabel].
    exists label. split.
    + apply zip_enumerate_lookup. simpl. auto.
    + rewrite List.Forall_forall in Hrange. apply Hrange.
      apply list_elem_of_In. eapply list_elem_of_lookup_2. exact Hlabel.
Qed.

(** ** Stored embeddings *)


End Facts.

(** ** The properties at concrete inputs *)

Import Examples.
#[local] Existing Instance Reference.unicode.

Lemma cluster_headlines_insufficient_witness :
  embeddings fresh2 = None /\
  length ["a"] < km_n_clusters (kmeans fresh2) /\
  cluster_headlines (H := Reference.backend) 0 fresh2 ["a"] =
  (set_embeddings fresh2 [[1%Q]], Raise ValueError).
Proof.
  split; [reflexivity|]. split; [vm_compute; lia|].
  apply (@cluster_headlines_insufficient Reference.backend 0 fresh2 ["a"]).
  - reflexivity.
  - right. vm_compute. lia.
Defined.

(** C1 as stated fails on an instance that already holds embeddings: with
    two stored rows and two clusters, the empty batch is accepted and the
    call returns the empty list. *)
Lemma stale_instance_accepts_empty_batch :
  km_n_clusters (kmeans stale2) = 2 /\
  cluster_headlines (H := Reference.backend) 0 stale2 [] = (stale2, Ok []).
Proof. split; reflexivity. Qed.

Lemma cluster_headlines_covers_witness :
  exists st' cluster_results,
    cluster_headlines (H := Reference.backend) 0 fresh2 ["a"; "bb"; "ccc"] =
      (st', Ok cluster_results) /\
    length cluster_results = 3 /\
    cluster_labels st' = Some (map cluster_id cluster_results) /\
    forall j h, ["a"; "bb"; "ccc"] !! j = Some h ->
      exists label,
        cluster_results !! j =
          Some {| headline := h; cluster_id := label; embedding_index := j |} /\
        label < 2.
Proof.
  apply (@cluster_headlines_covers Reference.backend 0 fresh2 ["a"; "bb"; "ccc"]).
  - reflexivity.
  - vm_compute. lia.
Defined.

(** C4: the code at the failing input.  On an instance that already holds
    embeddings, [cluster_headlines] fits the stored rows and zips their
    labels with the new texts: with two stored rows and two clusters, a
    batch of three texts gets two entries, and the third text gets none. *)
Lemma stale_instance_drops_texts :
  0 < km_n_clusters (kmeans stale2) <= length ["x"; "yy"; "zzz"] /\
  snd (cluster_headlines (H := Reference.backend) 0 stale2 ["x"; "yy"; "zzz"]) =
  Ok [ {| headline := "x"; cluster_id := 0; embedding_index := 0 |};
       {| headline := "yy"; cluster_id := 1; embedding_index := 1 |} ].
Proof. split; [vm_compute; lia|reflexivity]. Qed.


Lemma fitted4_fitted : fitted_for fitted4 results4.
Proof.
  exists [[3%Q]; [0%Q]; [1%Q]; [1%Q]], [[1%Q]; [0%Q]].
  split; [reflexivity|]. split; [reflexivity|]. split.
  - vm_compute. lia.
  - unfold results4. simpl. repeat constructor.
Qed.

Lemma get_cluster_summaries_groups_witness :
  get_cluster_summaries (H := Reference.backend) fitted4 results4 =
    Ok [ (0, {| representative_headline := "c";
                headlines := ["a"; "c"; "d"];
                size := 3 |});
         (1, {| representative_headline := "b";
                headlines := ["b"];
                size := 1 |}) ] /\
  exists out,
    get_cluster_summaries (H := Reference.backend) fitted4 results4 = Ok out /\
    map fst out = [0; 1] /\
    StronglySorted lt (map fst out) /\
    (forall cid, In cid (map fst out) <->
       cid < 2 /\ exists it, In it results4 /\ cluster_id it = cid) /\
    (forall cid s, In (cid, s) out ->
       (exists positions,
          StronglySorted lt positions /\
          (forall j, In j positions <->
             exists it, results4 !! j = Some it /\ cluster_id it = cid) /\
          Forall2 (fun j h =>
                     exists it, results4 !! j = Some it /\ headline it = h)
                  positions (headlines s)) /\
       size s = length (headlines s) /\
       1 <= size s).
Proof.
  split; [reflexivity|].
  apply (@get_cluster_summaries_groups Reference.backend fitted4 results4).
  - apply zip_enumerate_aligned.
  - exact fitted4_fitted.
Defined.

Lemma representative_is_nearest_member_witness :
  nearest_member (H := Reference.backend) fitted4 results4 0 "c" /\
  In "c" ["a"; "c"; "d"].
Proof.
  apply (@representative_is_nearest_member Reference.backend fitted4 results4
           [ (0, {| representative_headline := "c";
                    headlines := ["a"; "c"; "d"];
                    size := 3 |});
             (1, {| representative_headline := "b";
                    headlines := ["b"];
                    size := 1 |}) ]
           0
           {| representative_headline := "c";
              headlines := ["a"; "c"; "d"];
              size := 3 |}).
  - apply zip_enumerate_aligned.
  - reflexivity.
  - left. reflexivity.
Defined.

(** C2: the code at the failing input.  An instance that encoded the batch
    [a, bb, ccc] holds their rows [1], [2], [3]; on the next batch
    [xxx, yy, z] it labels and measures these stored rows.  The group of
    label 0 holds [xxx] and [z], its centre is [1], and the representative
    is [xxx], whose row in the encoding of its own batch is [3], while that
    of [z] is [1], at distance zero from the centre. *)
Lemma stale_instance_picks_farther_text :
  embeddings stale3 = Some [[1%Q]; [2%Q]; [3%Q]] /\
  snd (run_pipeline (H := Reference.backend) 0 stale3 ["xxx"; "yy"; "z"]) =
    Ok [ (0, {| representative_headline := "xxx";
                headlines := ["xxx"; "z"];
                size := 2 |});
         (1, {| representative_headline := "yy";
                headlines := ["yy"];
                size := 1 |}) ] /\
  cluster_centers_
    (kmeans (fst (run_pipeline (H := Reference.backend) 0 stale3
                    ["xxx"; "yy"; "z"]))) = Some [[1%Q]; [2%Q]] /\
  encode (NumericBackend := Reference.backend) "m" ["xxx"; "yy"; "z"] =
    [[3%Q]; [2%Q]; [1%Q]] /\
  (norm_diff (NumericBackend := Reference.backend) [1%Q] [1%Q] <
   norm_diff (NumericBackend := Reference.backend) [3%Q] [1%Q])%Q.
Proof. repeat split. Qed.

End ClusteringFacts.

(** * Properties of [save_model] and [load_model] *)

Module PersistenceFacts.
Import Clustering Persistence.
Local Open Scope list_scope.

Section Facts.
Context `{Pickle}.

(** The five assignments of [load_model], for a dictionary that has the
    five keys. *)
Lemma load_fields_ok d self v1 v2 v3 v4 v5 :
  dict_get d "kmeans" = Some v1 ->
  dict_get d "embeddings" = Some v2 ->
  dict_get d "cluster_labels" = Some v3 ->
  dict_get d "model_name" = Some v4 ->
  dict_get d "n_clusters" = Some v5 ->
  assign (PyDict d) "kmeans" "kmeans"
    (assign (PyDict d) "embeddings" "embeddings"
      (assign (PyDict d) "cluster_labels" "cluster_labels"
        (assign (PyDict d) "model_name" "model_name"
          (assign (PyDict d) "n_clusters" "n_clusters"
            (fun self' => (self', Ok true)))))) self =
  (<["n_clusters" := v5]> (<["model_name" := v4]> (<["cluster_labels" := v3]>
     (<["embeddings" := v2]> (<["kmeans" := v1]> self)))), Ok true).
Proof.
  intros H1 H2 H3 H4 H5. unfold assign, subscript.
  rewrite H1, H2, H3, H4, H5. reflexivity.
Qed.

(** The assignments stop at the first key that is missing. *)
Lemma load_fields_missing d self :
  has_keys (PyDict d) = false ->
  exists self' key,
    In key persisted_keys /\
    assign (PyDict d) "kmeans" "kmeans"
      (assign (PyDict d) "embeddings" "embeddings"
        (assign (PyDict d) "cluster_labels" "cluster_labels"
          (assign (PyDict d) "model_name" "model_name"
            (assign (PyDict d) "n_clusters" "n_clusters"
              (fun self' => (self', Ok true)))))) self =
    (self', Raise (KeyError key)).
Proof.
  unfold has_keys, persisted_keys, assign, subscript. cbn [forallb].
  intros Hmiss.
  destruct (dict_get d "kmeans") as [v1|];
    [|exists self, "kmeans"; split; [simpl; tauto|reflexivity]].
  destruct (dict_get d "embeddings") as [v2|];
    [|eexists; exists "embeddings"; split; [simpl; tauto|reflexivity]].
  destruct (dict_get d "cluster_labels") as [v3|];
    [|eexists; exists "cluster_labels"; split; [simpl; tauto|reflexivity]].
  destruct (dict_get d "model_name") as [v4|];
    [|eexists; exists "model_name"; split; [simpl; tauto|reflexivity]].
  destruct (dict_get d "n_clusters") as [v5|];
    [|eexists; exists "n_clusters"; split; [simpl; tauto|reflexivity]].
  discriminate.
Qed.

Lemma has_keys_lookups d :
  has_keys (PyDict d) = true ->
  exists v1 v2 v3 v4 v5,
    dict_get d "kmeans" = Some v1 /\
    dict_get d "embeddings" = Some v2 /\
    dict_get d "cluster_labels" = Some v3 /\
    dict_get d "model_name" = Some v4 /\
    dict_get d "n_clusters" = Some v5.
Proof.
  unfold has_keys, persisted_keys. cbn [forallb].
  destruct (dict_get d "kmeans") as [v1|]; [|discriminate].
  destruct (dict_get d "embeddings") as [v2|]; [|discriminate].
  destruct (dict_get d "cluster_labels") as [v3|]; [|discriminate].
  destruct (dict_get d "model_name") as [v4|]; [|discriminate].
  destruct (dict_get d "n_clusters") as [v5|]; [|discriminate].
  intros _. exists v1, v2, v3, v4, v5. auto.
Qed.

(** What [save_model] writes follows the schema. *)
Lemma model_data_schema st : schema_ok (model_data_of st) = true.
Proof.
  unfold schema_ok, model_data_of. cbn.
  destruct (embeddings st), (cluster_labels st); reflexivity.
Qed.

(** ** Round trip *)

Lemma save_model_returns fs st filepath :
  fs !! resolve filepath <> Some Denied ->
  exists fs', save_model fs st filepath = (fs', Ok tt).
Proof.
  intros Hopen. unfold save_model.
  destruct (fs !! resolve filepath) as [[content|]|]; [eauto|congruence|eauto].
Qed.

(** C7: after [save_model], [load_model] on the same path returns [True]
    and leaves every persisted attribute ([kmeans] with its centres,
    [embeddings], [cluster_labels], [model_name], [n_clusters]) equal to the
    attribute of the saved instance; the other attributes of the loading
    instance (the loaded encoder) are as they were.  [save_model] returns
    on every path the process may open. *)
Theorem load_after_save fs fs' st self filepath :
  save_model fs st filepath = (fs', Ok tt) ->
  exists self',
    load_model fs' self filepath = (self', Ok true) /\
    (forall key, In key persisted_keys -> self' !! key = attrs st !! key) /\
    (forall key, ~ In key persisted_keys -> self' !! key = self !! key).
Proof.
  intros Hsave.
  assert (Hfs : fs' = <[resolve filepath := Regular (pickle_dump (model_data_of st))]> fs).
  { unfold save_model in Hsave.
    destruct (fs !! resolve filepath) as [[content|]|]; congruence. }
  subst fs'. unfold load_model. rewrite lookup_insert_eq, pickle_round_trip.
  unfold model_data_of.
  rewrite (load_fields_ok _ self
             (PyKMeans (kmeans st))
             (py_option PyArray (embeddings st))
             (py_option PyLabels (cluster_labels st))
             (PyStr (model_name st))
             (PyInt (n_clusters st))) by reflexivity.
  eexists. split; [reflexivity|]. split.
  - intros key Hkey. unfold attrs. simpl in Hkey.
    destruct Hkey as [<- | [<- | [<- | [<- | [<- | []]]]]];
      by simplify_map_eq.
  - intros key Hkey. simpl in Hkey.
    rewrite !lookup_insert_ne; [reflexivity|..]; intros <-; tauto.
Qed.

(** ** Outcomes of [load_model] *)


End Facts.

(** ** The properties at concrete inputs *)

Import Examples.
#[local] Existing Instance Reference.unicode.

Lemma load_after_save_witness :
  exists self',
    load_model (H := Reference.pickle)
      {[ default_filepath :=
           Regular (H := Reference.pickle) (Some (model_data_of fitted4)) ]}
      (attrs fresh2) None = (self', Ok true) /\
    (forall key, In key persisted_keys -> self' !! key = attrs fitted4 !! key) /\
    (forall key, ~ In key persisted_keys -> self' !! key = attrs fresh2 !! key).
Proof.
  apply (@load_after_save Reference.pickle ∅ _ fitted4 (attrs fresh2) None).
  reflexivity.
Defined.


(** An object that is no plain dictionary and has none of the five keys,
    here a [defaultdict(list)]: every subscript returns the empty list, the
    call returns [True] and the instance holds an empty list as [kmeans]. *)
Lemma defaultdict_file_is_loaded :
  let fs : gmap string (file (H := Reference.pickle)) :=
    {[ default_filepath :=
         Regular (H := Reference.pickle)
           (Some (PyObject (fun _ => Ok (PyLabels [])))) ]} in
  snd (load_model (H := Reference.pickle) fs (attrs fresh2) None) = Ok true /\
  fst (load_model (H := Reference.pickle) fs (attrs fresh2) None) !! "kmeans" =
    Some (PyLabels []).
Proof. vm_compute. auto. Qed.

(** An object whose [__getitem__] raises [FileNotFoundError] for
    [embeddings]: the [except] clause takes it for a missing file, the call
    returns [False], and [kmeans] has been replaced. *)
Lemma not_found_inside_is_caught :
  let fs : gmap string (file (H := Reference.pickle)) :=
    {[ default_filepath :=
         Regular (H := Reference.pickle)
           (Some (PyObject (fun key => if String.eqb key "embeddings"
                                       then Raise FileNotFoundError
                                       else Ok PyNone))) ]} in
  snd (load_model (H := Reference.pickle) fs (attrs fresh2) None) = Ok false /\
  fst (load_model (H := Reference.pickle) fs (attrs fresh2) None) !! "kmeans" =
    Some PyNone.
Proof. vm_compute. auto. Qed.

(** A dictionary without [n_clusters]: the call raises [KeyError], after the
    four attributes before it have been replaced. *)
Lemma truncated_file_raises :
  let fs : gmap string (file (H := Reference.pickle)) :=
    {[ default_filepath := Regular (H := Reference.pickle) (Some truncated) ]} in
  snd (load_model (H := Reference.pickle) fs (attrs fresh2) None) =
    Raise (KeyError "n_clusters") /\
  fst (load_model (H := Reference.pickle) fs (attrs fresh2) None) !! "model_name" =
    Some (PyStr "old").
Proof. vm_compute. auto. Qed.

End PersistenceFacts.

(** * Properties of [summarizer.py] *)

Module SummarizerFacts.
Import Summarizer.
Local Open Scope list_scope.

Section Facts.
Context `{SummarizerEnv} `{Unicode}.

(** Closes the goals that compare the fields of two explicit records. *)
Ltac fields :=
  cbn [fallback_output hashseed calls ticks summaries_file write_summaries
       summary cluster_id headlines headlines_count timestamp fst snd];
  repeat split; try reflexivity; try assumption.

Lemma read_clock_frame w :
  hashseed (fst (read_clock w)) = hashseed w /\
  calls (fst (read_clock w)) = calls w.
Proof. split; reflexivity. Qed.

(** ** The fallback branch *)

Lemma generate_summary_mock st w hs cid :
  use_mock st = true ->
  generate_summary st w hs cid =
  finish_summary st w (mock_summary (hashseed w) hs) hs cid.
Proof. intros Hmock. unfold generate_summary. rewrite Hmock. reflexivity. Qed.

Lemma generate_all_summaries_mock cs : forall st w,
  use_mock st = true ->
  exists w' ss,
    generate_all_summaries st w cs = (st, w', ss) /\
    hashseed w' = hashseed w /\
    calls w' = calls w /\
    fallback_output (hashseed w) (GenerateAllSummaries cs) (OutSummaries ss).
Proof.
  induction cs as [|[cid data] cs IH]; intros st w Hmock.
  - exists w, []. cbn [generate_all_summaries fallback_output].
    repeat split; auto.
  - cbn [generate_all_summaries].
    rewrite (generate_summary_mock _ _ _ _ Hmock). unfold finish_summary.
    cbn [read_clock].
    set (w1 := {| hashseed := hashseed w; calls := calls w; ticks := S (ticks w);
                  summaries_file := summaries_file w |}).
    destruct (IH st w1 Hmock) as [w' [ss [Heq [Hseed [Hcalls Hout]]]]].
    rewrite Heq. exists w'. eexists. split; [reflexivity|].
    split; [exact Hseed|]. split; [exact Hcalls|].
    cbn [fallback_output] in *. constructor; [|exact Hout].
    fields.
Qed.

(** In fallback mode a call leaves the instance as it is, sends no request
    and returns the fallback value. *)
Lemma step_mock st w o :
  use_mock st = true ->
  exists w' out,
    step st w o = (st, w', out) /\
    hashseed w' = hashseed w /\
    calls w' = calls w /\
    fallback_output (hashseed w) o out.
Proof.
  intros Hmock. destruct o as [hs cid|cs|all|hs|ss|]; cbn [step].
  - rewrite (generate_summary_mock _ _ _ _ Hmock). unfold finish_summary.
    cbn [read_clock]. eexists. eexists. split; [reflexivity|].
    fields.
  - destruct (generate_all_summaries_mock cs st w Hmock)
      as [w' [ss [Heq [Hseed [Hcalls Hout]]]]].
    rewrite Heq. eauto 10.
  - unfold generate_executive_summary. rewrite Hmock.
    eexists. eexists. split; [reflexivity|]. fields.
  - unfold analyze_sentiment. rewrite Hmock.
    eexists. eexists. split; [reflexivity|]. fields.
  - unfold save_summaries. destruct (writable (summaries_file w));
      eexists; eexists; (split; [reflexivity|]); fields.
  - unfold load_summaries. destruct (summaries_file w) as [[c|]|];
      [destruct (read_records c)| |];
      eexists; eexists; (split; [reflexivity|]); fields.
Qed.

(** ** How the flag gets set *)

(** The probe of [__init__] sets the flag unless the endpoint answers
    200. *)
Lemma init_sets_mock key w :
  use_mock (fst (init key w)) =
  match http_post (calls w)
          (generate_content_url "https://generativelanguage.googleapis.com"
             "gemini-2.0-flash") key "Test message" with
  | Http status_code _ => negb (Nat.eqb status_code 200)
  | NetworkError => true
  end.
Proof.
  unfold init, test_api_access. cbn [base_url api_key].
  destruct (http_post _ _ _ _) as [status_code text|]; [|reflexivity].
  destruct (Nat.eqb status_code 200); reflexivity.
Qed.

(** A request that fails inside a method sets the flag. *)
Lemma failed_request_sets_mock st w o e :
  use_mock st = false ->
  match o with
  | GenerateSummary hs _ =>
      snd (generate_text_via_rest st w (summary_prompt hs)) = Raise e
  | GenerateExecutiveSummary all =>
      snd (generate_text_via_rest st w (executive_prompt all)) = Raise e
  | AnalyzeSentiment hs =>
      snd (generate_text_via_rest st w (sentiment_prompt hs)) = Raise e
  | _ => False
  end ->
  use_mock (fst (fst (step st w o))) = true.
Proof.
  intros Hreal Hfail. destruct o as [hs cid|cs|all|hs|ss|]; try contradiction;
    cbn [step].
  - unfold generate_summary. rewrite Hreal.
    destruct (generate_text_via_rest st w (summary_prompt hs)) as [w' [t|x]];
      [discriminate|]. reflexivity.
  - unfold generate_executive_summary. rewrite Hreal.
    destruct (generate_text_via_rest st w (executive_prompt all)) as [w' [t|x]];
      [discriminate|]. reflexivity.
  - unfold analyze_sentiment. rewrite Hreal.
    destruct (generate_text_via_rest st w (sentiment_prompt hs)) as [w' [t|x]];
      [discriminate|]. reflexivity.
Qed.

(** ** The flag stays set *)

(** C10: once [use_mock] is [True], every sequence of calls of the public
    methods leaves it [True] (the instance does not change at all), sends no
    request, and every summary, list of summaries, executive summary and
    sentiment result is the value of the fallback branch. *)
Theorem use_mock_is_absorbing st w ops :
  use_mock st = true ->
  let '(st', w', outs) := run st w ops in
  st' = st /\
  use_mock st' = true /\
  calls w' = calls w /\
  Forall2 (fallback_output (hashseed w)) ops outs.
Proof.
  revert w. induction ops as [|o ops IH]; intros w Hmock.
  - simpl. auto.
  - cbn [run].
    destruct (step_mock st w o Hmock) as [w1 [out [Hstep [Hseed [Hcalls Hout]]]]].
    rewrite Hstep.
    specialize (IH w1 Hmock). destruct (run st w1 ops) as [[st2 w2] outs].
    destruct IH as [-> [_ [Hcalls2 Houts]]].
    split; [reflexivity|]. split; [exact Hmock|]. split; [congruence|].
    constructor; [exact Hout|]. rewrite <- Hseed. exact Houts.
Qed.

(** ** The fallback summary *)

(** A set with at most one element has one iteration order. *)
Lemma set_list_single seed xs :
  length (nodup string_dec xs) <= 1 ->
  set_list seed xs = nodup string_dec xs.
Proof.
  intros Hlen. pose proof (set_list_perm seed xs) as Hperm.
  destruct (nodup string_dec xs) as [|x [|y l]]; simpl in Hlen.
  - apply Permutation_sym, Permutation_nil in Hperm. exact Hperm.
  - apply Permutation_sym, Permutation_length_1_inv in Hperm. exact Hperm.
  - lia.
Qed.

(** When the headlines name at most one company, one sector and one theme,
    the salt has no part in the summary. *)
Lemma mock_summary_salt_free seed1 seed2 hs :
  let '(companies, sectors, themes) := fold_left scan_headline hs ([], [], []) in
  length (nodup string_dec companies) <= 1 ->
  length (nodup string_dec sectors) <= 1 ->
  length (nodup string_dec themes) <= 1 ->
  mock_summary seed1 hs = mock_summary seed2 hs.
Proof.
  unfold mock_summary.
  destruct (fold_left scan_headline hs ([], [], [])) as [[companies sectors] themes].
  intros Hc Hs Ht. rewrite !set_list_single by assumption. reflexivity.
Qed.

(** C9, as the code has it: in fallback mode the summary string depends on
    the headlines and on the salt of the string hashes of the process, and
    on nothing else: two calls in processes with the same salt, on any two
    instances in fallback mode, at any two moments and for any two states
    of the endpoint, give the same string. *)
Theorem fallback_summary_deterministic st1 st2 w1 w2 hs cid :
  use_mock st1 = true ->
  use_mock st2 = true ->
  hashseed w1 = hashseed w2 ->
  summary (snd (generate_summary st1 w1 hs cid)) =
  summary (snd (generate_summary st2 w2 hs cid)).
Proof.
  intros H1 H2 Hseed.
  rewrite (generate_summary_mock _ _ _ _ H1), (generate_summary_mock _ _ _ _ H2).
  unfold finish_summary. cbn. rewrite Hseed. reflexivity.
Qed.

End Facts.

(** ** The properties at concrete inputs *)

Import Examples.
#[local] Existing Instance Reference.unicode.

Lemma fallback_summary_deterministic_witness :
  summary (snd (generate_summary mock_summarizer (process 4)
                  ["Apple and Tesla shares rise"] 0)) =
  summary (snd (generate_summary (set_use_mock mock_summarizer true)
                  (sent (process 4)) ["Apple and Tesla shares rise"] 0)).
Proof.
  apply (@fallback_summary_deterministic Reference.summarizer_env Reference.unicode
           mock_summarizer (set_use_mock mock_summarizer true)
           (process 4) (sent (process 4)) ["Apple and Tesla shares rise"] 0);
    reflexivity.
Defined.

(** C9 as stated fails across processes: with the same headline and the
    same cluster id, a process with salt 0 and a process with salt 1 list
    the two companies in different orders. *)
Lemma fallback_summary_depends_on_hash_salt :
  summary (snd (generate_summary mock_summarizer (process 0)
                  ["Apple and Tesla shares rise"] 0)) =
    "This cluster focuses on Apple, Tesla, covering 1 headlines in the technology and financial sectors. Key themes include Market Movements, with significant implications for market sentiment and investor confidence."%string /\
  summary (snd (generate_summary mock_summarizer (process 1)
                  ["Apple and Tesla shares rise"] 0)) =
    "This cluster focuses on Tesla, Apple, covering 1 headlines in the technology and financial sectors. Key themes include Market Movements, with significant implications for market sentiment and investor confidence."%string /\
  summary (snd (generate_summary mock_summarizer (process 0)
                  ["Apple and Tesla shares rise"] 0)) <>
  summary (snd (generate_summary mock_summarizer (process 1)
                  ["Apple and Tesla shares rise"] 0)).
Proof.
  split; [reflexivity|]. split; [reflexivity|]. vm_compute. discriminate.
Qed.

Lemma use_mock_is_absorbing_witness :
  let '(st', w', outs) :=
    run mock_summarizer (process 0)
      [ AnalyzeSentiment ["Stocks rise"; "Oil prices fall"; "Gains fall short"];
        GenerateExecutiveSummary [];
        LoadSummaries ] in
  st' = mock_summarizer /\
  use_mock st' = true /\
  calls w' = 1 /\
  Forall2 (fallback_output 0)
    [ AnalyzeSentiment ["Stocks rise"; "Oil prices fall"; "Gains fall short"];
      GenerateExecutiveSummary [];
      LoadSummaries ] outs.
Proof.
  apply (@use_mock_is_absorbing Reference.summarizer_env Reference.unicode mock_summarizer
           (process 0)
           [ AnalyzeSentiment ["Stocks rise"; "Oil prices fall"; "Gains fall short"];
             GenerateExecutiveSummary [];
             LoadSummaries ]).
  reflexivity.
Defined.

End SummarizerFacts.

(** * Further properties of [clustering.py] *)

Module ClusteringMore.
Import Clustering ClusteringFacts.
Local Open Scope list_scope.

Section Facts.
Context `{NumericBackend}.

(** ** Counting the entries of the groups *)

Lemma list_sum_map_add {A} (f g : A -> nat) l :
  list_sum (map (fun x => f x + g x) l) = list_sum (map f l) + list_sum (map g l).
Proof. induction l as [|x l IH]; simpl; lia. Qed.

Lemma list_sum_map_filter {A} (p : A -> bool) (g : A -> nat) l :
  (forall x, p x = false -> g x = 0) ->
  list_sum (map g (List.filter p l)) = list_sum (map g l).
Proof.
  intros Hzero. induction l as [|x l IH]; simpl; [reflexivity|].
  destruct (p x) eqn:Hp; simpl; [lia|]. rewrite (Hzero x Hp). lia.
Qed.

Lemma one_label_in_range id k : forall lo,
  lo <= id < lo + k ->
  list_sum (map (fun c => if Nat.eqb id c then 1 else 0) (seq lo k)) = 1.
Proof.
  induction k as [|k IH]; intros lo Hid; [lia|]. simpl.
  destruct (Nat.eqb_spec id lo) as [->|Hne].
  - assert (Hrest : forall n lo', lo < lo' ->
              list_sum (map (fun c => if Nat.eqb lo c then 1 else 0) (seq lo' n)) = 0).
    { induction n as [|n IHn]; intros lo' Hlt; simpl; [reflexivity|].
      destruct (Nat.eqb_spec lo lo'); [lia|]. apply IHn. lia. }
    rewrite Hrest by lia. reflexivity.
  - rewrite IH by lia. reflexivity.
Qed.

Lemma members_sum k l :
  Forall (fun it => cluster_id it < k) l ->
  list_sum (map (fun c => length (members l c)) (seq 0 k)) = length l.
Proof.
  induction 1 as [|it l Hit _ IH].
  - simpl. induction (seq 0 k) as [|c cs IHc]; simpl; auto.
  - change (length (it :: l)) with (1 + length l).
    rewrite <- IH, <- (one_label_in_range (cluster_id it) k 0) by lia.
    rewrite <- list_sum_map_add. f_equal. apply map_ext. intros c.
    unfold members. simpl. destruct (Nat.eqb (cluster_id it) c); reflexivity.
Qed.

Lemma summarize_cluster_sized st cluster_results cid s :
  summarize_cluster st cluster_results cid = Ok (Some s) ->
  headlines s = map headline (members cluster_results cid) /\
  size s = length (members cluster_results cid).
Proof.
  intros Hs. unfold summarize_cluster in Hs.
  destruct (map headline (members cluster_results cid)) as [|h0 hs0] eqn:Hmap;
    [discriminate|].
  unfold mbind, result_bind, from_option in Hs.
  repeat match type of Hs with
         | match ?x with _ => _ end = _ => destruct x; try discriminate
         end.
  injection Hs as <-. cbn [headlines size]. split; [reflexivity|].
  rewrite <- (length_map headline), Hmap. reflexivity.
Qed.

Lemma summaries_sizes st cluster_results out :
  get_cluster_summaries st cluster_results = Ok out ->
  map (fun p => size (snd p)) out =
  map (fun c => length (members cluster_results c)) (map fst out).
Proof.
  intros Hout. destruct (get_cluster_summaries_spec _ _ _ Hout) as [_ Hin].
  rewrite map_map. apply map_ext_in. intros [c s] Hcs. simpl.
  apply Hin, summarize_cluster_sized in Hcs. tauto.
Qed.

Lemma summaries_total_size st cluster_results out :
  get_cluster_summaries st cluster_results = Ok out ->
  Forall (fun it => cluster_id it < n_clusters st) cluster_results ->
  list_sum (map (fun p => size (snd p)) out) = length cluster_results.
Proof.
  intros Hout Hrange. rewrite (summaries_sizes _ _ _ Hout).
  destruct (get_cluster_summaries_spec _ _ _ Hout) as [-> _].
  rewrite list_sum_map_filter.
  - apply members_sum. exact Hrange.
  - intros c Hc. rewrite populated_members in Hc.
    destruct (members cluster_results c); [reflexivity|discriminate].
Qed.

(** X1: when every entry carries a label below [n_clusters], the groups that
    [get_cluster_summaries] returns split the entries: their sizes add up to
    the number of entries, and the headline of every entry is among the
    headlines of the group of its label. *)
Theorem group_summaries_cover st cluster_results out :
  get_cluster_summaries st cluster_results = Ok out ->
  Forall (fun it => cluster_id it < n_clusters st) cluster_results ->
  list_sum (map (fun p => size (snd p)) out) = length cluster_results /\
  forall it, In it cluster_results ->
    exists s, In (cluster_id it, s) out /\ In (headline it) (headlines s).
Proof.
  intros Hout Hrange. split; [apply (summaries_total_size _ _ _ Hout Hrange)|].
  intros it Hit.
  destruct (get_cluster_summaries_spec _ _ _ Hout) as [Hkeys Hin].
  assert (Hkey : In (cluster_id it) (map fst out)).
  { rewrite Hkeys. apply filter_In. split.
    - apply in_seq. rewrite List.Forall_forall in Hrange.
      specialize (Hrange it Hit). lia.
    - unfold populated. apply existsb_exists. exists it.
      split; [exact Hit|apply Nat.eqb_refl]. }
  apply in_map_iff in Hkey. destruct Hkey as [[c s] [Hc Hcs]]. simpl in Hc. subst c.
  exists s. split; [exact Hcs|].
  apply Hin, summarize_cluster_sized in Hcs. destruct Hcs as [-> _].
  apply in_map, filter_In. split; [exact Hit|apply Nat.eqb_refl].
Qed.

(** ** An instance that holds no embeddings *)

Lemma summarize_cluster_unfitted st cluster_results cid :
  embeddings st = None ->
  summarize_cluster st cluster_results cid =
  if populated cluster_results cid then Raise TypeError else Ok None.
Proof.
  intros Hnone. rewrite populated_members. unfold summarize_cluster.
  destruct (members cluster_results cid) as [|m ms]; [reflexivity|].
  simpl. rewrite Hnone. reflexivity.
Qed.

Lemma summaries_loop_unfitted st cluster_results cids : forall acc,
  embeddings st = None ->
  summaries_loop st cluster_results cids acc =
  if existsb (populated cluster_results) cids then Raise TypeError else Ok acc.
Proof.
  induction cids as [|cid rest IH]; intros acc Hnone; simpl; [reflexivity|].
  rewrite (summarize_cluster_unfitted _ _ _ Hnone).
  destruct (populated cluster_results cid); simpl; [reflexivity|].
  apply IH. exact Hnone.
Qed.

(** X2: on an instance that holds no embeddings (no call of
    [cluster_headlines] or [create_embeddings] yet), [get_cluster_summaries]
    raises [TypeError] as soon as one entry carries a label below
    [n_clusters], and returns the empty dictionary otherwise, in particular
    for the empty list. *)
Theorem get_cluster_summaries_unfitted st cluster_results :
  embeddings st = None ->
  get_cluster_summaries st cluster_results =
  if existsb (fun it => Nat.ltb (cluster_id it) (n_clusters st)) cluster_results
  then Raise TypeError
  else Ok [].
Proof.
  intros Hnone. unfold get_cluster_summaries.
  rewrite (summaries_loop_unfitted _ _ _ _ Hnone).
  replace (existsb (populated cluster_results) (seq 0 (n_clusters st)))
    with (existsb (fun it => Nat.ltb (cluster_id it) (n_clusters st)) cluster_results);
    [reflexivity|].
  apply eq_true_iff_eq. rewrite !existsb_exists. split.
  - intros [it [Hit Hlt]]. apply Nat.ltb_lt in Hlt.
    exists (cluster_id it). split; [apply in_seq; lia|].
    unfold populated. apply existsb_exists. exists it.
    split; [exact Hit|apply Nat.eqb_refl].
  - intros [c [Hc Hpop]]. apply in_seq in Hc. unfold populated in Hpop.
    apply existsb_exists in Hpop. destruct Hpop as [it [Hit Heq]].
    apply Nat.eqb_eq in Heq. exists it. split; [exact Hit|].
    apply Nat.ltb_lt. lia.
Qed.

(** ** After a rejected batch *)

Lemma cluster_headlines_rejected entropy st hs :
  embeddings st = None ->
  length hs < km_n_clusters (kmeans st) ->
  fst (cluster_headlines entropy st hs) =
  set_embeddings st (encode (embedding_model st) hs).
Proof.
  intros Hnone Hfew.
  rewrite (cluster_headlines_fresh _ _ _ Hnone).
  rewrite (cluster_headlines_stored _ _ _ (encode (embedding_model st) hs))
    by reflexivity.
  unfold fit_predict. cbn [set_embeddings kmeans].
  rewrite lloyd_insufficient by (rewrite encode_length; exact Hfew).
  reflexivity.
Qed.

(** X3: a batch with fewer texts than clusters, given to an instance that
    holds no embeddings, leaves its rows on the instance; after that, every
    call of [cluster_headlines] raises the [ValueError] of the fit, whatever
    batch it is given and however many calls came in between. *)
Theorem rejected_batch_blocks_instance e0 st hs batches entropy hs' :
  embeddings st = None ->
  length hs < km_n_clusters (kmeans st) ->
  snd (cluster_headlines entropy
         (cluster_calls (fst (cluster_headlines e0 st hs)) batches) hs') =
  Raise ValueError.
Proof.
  intros Hnone Hfew. rewrite (cluster_headlines_rejected _ _ _ Hnone Hfew).
  set (X := encode (embedding_model st) hs).
  destruct (cluster_calls_keeps (set_embeddings st X) batches X eq_refl)
    as [He [Hk [Hr Hn]]].
  rewrite (cluster_headlines_stored _ _ _ _ He). unfold fit_predict.
  rewrite Hk, Hn. cbn [set_embeddings kmeans].
  rewrite lloyd_insufficient; [reflexivity|].
  unfold X. rewrite encode_length. exact Hfew.
Qed.

(** ** A first run *)

Lemma cluster_headlines_accepts entropy st hs :
  embeddings st = None ->
  0 < km_n_clusters (kmeans st) <= length hs ->
  exists labels centers,
    cluster_headlines entropy st hs =
      (set_fit (set_embeddings st (encode (embedding_model st) hs))
         (set_cluster_centers_ (kmeans st) centers) labels,
       Ok (zip_enumerate 0 hs labels)) /\
    length labels = length hs /\
    Forall (fun l => l < km_n_clusters (kmeans st)) labels.
Proof.
  intros Hnone Hk.
  rewrite (cluster_headlines_fresh _ _ _ Hnone).
  rewrite (cluster_headlines_stored _ _ _ (encode (embedding_model st) hs))
    by reflexivity.
  unfold fit_predict. cbn [set_embeddings kmeans].
  set (seed := match random_state (kmeans st) with Some s => s | None => entropy end).
  set (X := encode (embedding_model st) hs).
  assert (HX : length X = length hs) by apply encode_length.
  destruct (lloyd_total seed (n_init (kmeans st)) (km_n_clusters (kmeans st)) X)
    as [[labels centers] Hfit]; [rewrite HX; exact Hk|].
  rewrite Hfit. destruct (lloyd_shape _ _ _ _ _ _ Hfit) as [Hlen [Hrange _]].
  exists labels, centers. split; [reflexivity|]. split; [congruence|exact Hrange].
Qed.

Lemma zip_enumerate_labels_range i hs labels k :
  Forall (fun l => l < k) labels ->
  Forall (fun it => cluster_id it < k) (zip_enumerate i hs labels).
Proof.
  intros Hrange. revert i hs.
  induction Hrange as [|l labels Hl _ IH]; intros i [|h hs]; simpl;
    constructor; auto.
Qed.

(** X4: on a new instance built for [k] clusters, a batch of [n >= k > 0]
    texts goes through both calls: [cluster_headlines] and
    [get_cluster_summaries] return, the dictionary has between one and [k]
    groups, the sizes of the groups add up to [n], and the instance holds
    the rows of the batch. *)
Theorem first_run_groups_every_text entropy name k hs :
  0 < k <= length hs ->
  exists st' out,
    run_pipeline entropy (init name k) hs = (st', Ok out) /\
    1 <= length out <= k /\
    list_sum (map (fun p => size (snd p)) out) = length hs /\
    embeddings st' = Some (encode name hs).
Proof.
  intros Hk.
  destruct (cluster_headlines_accepts entropy (init name k) hs eq_refl Hk)
    as [labels [centers [Hcall [Hlen Hrange]]]].
  destruct (run_pipeline_returns _ _ _ _ _ Hcall) as [out Hrun].
  eexists. exists out. split; [exact Hrun|].
  unfold run_pipeline in Hrun. rewrite Hcall in Hrun.
  injection Hrun as Hout.
  assert (Hsum : list_sum (map (fun p => size (snd p)) out) = length hs).
  { rewrite (summaries_total_size _ _ _ Hout).
    - rewrite zip_enumerate_length. lia.
    - apply zip_enumerate_labels_range. exact Hrange. }
  destruct (get_cluster_summaries_spec _ _ _ Hout) as [Hkeys _].
  split; [|split; [exact Hsum|reflexivity]]. split.
  - destruct out; [simpl in Hsum; lia|simpl; lia].
  - rewrite <- (length_map fst), Hkeys.
    etransitivity; [apply filter_length_le|]. rewrite length_seq. reflexivity.
Qed.

(** X22: on a new instance, the representative of every group is the
    nearest text of the group by its own embedding.  When [cluster_headlines]
    and [get_cluster_summaries] run on a new instance and return, the
    representative of a group is a text of the batch that got the label of
    the group, and among all texts with that label its row in the encoding
    of this batch is at the least distance ([np.linalg.norm] of the
    difference, as NumPy computes it) from the centre of the group, with
    the text of lowest position winning a tie. *)
Theorem fresh_representative_is_nearest entropy name k hs st' out cid s :
  run_pipeline entropy (init name k) hs = (st', Ok out) ->
  In (cid, s) out ->
  exists labels C c i e,
    cluster_labels st' = Some labels /\
    length labels = length hs /\
    cluster_centers_ (kmeans st') = Some C /\
    C !! cid = Some c /\
    hs !! i = Some (representative_headline s) /\
    labels !! i = Some cid /\
    encode name hs !! i = Some e /\
    forall j ej,
      labels !! j = Some cid ->
      encode name hs !! j = Some ej ->
      (norm_diff e c <= norm_diff ej c)%Q /\
      (j < i -> (norm_diff e c < norm_diff ej c)%Q).
Proof.
  intros Hrun Hcs. unfold run_pipeline in Hrun.
  destruct (cluster_headlines entropy (init name k) hs) as [st1 [results|x]] eqn:Hcall;
    [|discriminate].
  injection Hrun as <- Hout.
  rewrite (cluster_headlines_fresh entropy (init name k) hs eq_refl) in Hcall.
  cbn [init embedding_model] in Hcall.
  rewrite (cluster_headlines_stored entropy
             (set_embeddings (init name k) (encode name hs)) hs (encode name hs)
             eq_refl) in Hcall.
  unfold fit_predict in Hcall.
  destruct (lloyd _ _ _ (encode name hs)) as [[labels centers]|] eqn:Hfit;
    [|discriminate].
  injection Hcall as <- <-.
  destruct (lloyd_shape _ _ _ _ _ _ Hfit) as [Hlen _].
  rewrite encode_length in Hlen.
  destruct (ClusteringFacts.representative_is_nearest_member _ _ _ _ _
              (zip_enumerate_aligned hs labels) Hout Hcs) as [Hnear _].
  destruct Hnear as [E [C [c [i [rep [e [HE [HC [Hc [Hrep [Hcid [Htext [He Hmin]]]]]]]]]]]]].
  cbn in HE, HC. injection HE as <-. injection HC as <-.
  apply zip_enumerate_lookup in Hrep. destruct Hrep as [Hh [Hl _]].
  rewrite Htext in Hh. rewrite Hcid in Hl.
  exists labels, centers, c, i, e.
  split; [reflexivity|]. split; [exact Hlen|]. split; [reflexivity|].
  split; [exact Hc|]. split; [exact Hh|]. split; [exact Hl|]. split; [exact He|].
  intros j ej Hj Hej.
  assert (Hjlt : j < length hs).
  { rewrite <- Hlen. eapply lookup_lt_Some. exact Hj. }
  destruct (lookup_lt_is_Some_2 hs j Hjlt) as [h Hhj].
  apply (Hmin j {| headline := h; cluster_id := cid; embedding_index := j |} ej);
    [|reflexivity|exact Hej].
  apply zip_enumerate_lookup. cbn. auto.
Qed.

End Facts.

(** ** The properties at concrete inputs *)

Import Examples.
#[local] Existing Instance Reference.unicode.

Lemma group_summaries_cover_witness :
  list_sum (map (fun p => size (snd p))
              [ (0, {| representative_headline := "c";
                       headlines := ["a"; "c"; "d"];
                       size := 3 |});
                (1, {| representative_headline := "b";
                       headlines := ["b"];
                       size := 1 |}) ]) = length results4 /\
  forall it, In it results4 ->
    exists s,
      In (cluster_id it, s)
         [ (0, {| representative_headline := "c";
                  headlines := ["a"; "c"; "d"];
                  size := 3 |});
           (1, {| representative_headline := "b";
                  headlines := ["b"];
                  size := 1 |}) ] /\
      In (headline it) (headlines s).
Proof.
  apply (@group_summaries_cover Reference.backend fitted4 results4).
  - reflexivity.
  - unfold results4. simpl. repeat constructor.
Defined.

Lemma get_cluster_summaries_unfitted_witness :
  get_cluster_summaries (H := Reference.backend) fresh2 results4 = Raise TypeError.
Proof.
  apply (@get_cluster_summaries_unfitted Reference.backend fresh2 results4).
  reflexivity.
Defined.

Lemma rejected_batch_blocks_instance_witness :
  snd (cluster_headlines (H := Reference.backend) 3
         (cluster_calls (H := Reference.backend)
            (fst (cluster_headlines (H := Reference.backend) 0 fresh2 ["a"]))
            [(1, ["p"; "q"])])
         ["x"; "yy"; "zzz"]) = Raise ValueError.
Proof.
  apply (@rejected_batch_blocks_instance Reference.backend 0 fresh2 ["a"]
           [(1, ["p"; "q"])] 3 ["x"; "yy"; "zzz"]).
  - reflexivity.
  - vm_compute. lia.
Defined.

Lemma first_run_groups_every_text_witness :
  exists st' out,
    run_pipeline (H := Reference.backend) 0 (init "m" 2) ["a"; "bb"; "ccc"] =
      (st', Ok out) /\
    1 <= length out <= 2 /\
    list_sum (map (fun p => size (snd p)) out) = 3 /\
    embeddings st' = Some [[1%Q]; [2%Q]; [3%Q]].
Proof.
  apply (@first_run_groups_every_text Reference.backend 0 "m" 2 ["a"; "bb"; "ccc"]).
  vm_compute. lia.
Defined.

Lemma fresh_representative_is_nearest_witness :
  exists labels C c i e,
    cluster_labels
      (fst (run_pipeline (H := Reference.backend) 0 (init "m" 2)
              ["xxx"; "yy"; "z"])) = Some labels /\
    length labels = 3 /\
    cluster_centers_
      (kmeans (fst (run_pipeline (H := Reference.backend) 0 (init "m" 2)
                      ["xxx"; "yy"; "z"]))) = Some C /\
    C !! 0 = Some c /\
    ["xxx"; "yy"; "z"] !! i = Some "xxx" /\
    labels !! i = Some 0 /\
    encode (NumericBackend := Reference.backend) "m" ["xxx"; "yy"; "z"] !! i = Some e /\
    forall j ej,
      labels !! j = Some 0 ->
      encode (NumericBackend := Reference.backend) "m" ["xxx"; "yy"; "z"] !! j
        = Some ej ->
      (norm_diff (NumericBackend := Reference.backend) e c <=
       norm_diff (NumericBackend := Reference.backend) ej c)%Q /\
      (j < i -> (norm_diff (NumericBackend := Reference.backend) e c <
                 norm_diff (NumericBackend := Reference.backend) ej c)%Q).
Proof.
  apply (@fresh_representative_is_nearest Reference.backend 0 "m" 2
           ["xxx"; "yy"; "z"]
           (fst (run_pipeline (H := Reference.backend) 0 (init "m" 2)
                   ["xxx"; "yy"; "z"]))
           [ (0, {| representative_headline := "xxx";
                    headlines := ["xxx"; "z"];
                    size := 2 |});
             (1, {| representative_headline := "yy";
                    headlines := ["yy"];
                    size := 1 |}) ]
           0
           {| representative_headline := "xxx";
              headlines := ["xxx"; "z"];
              size := 2 |}).
  - reflexivity.
  - left. reflexivity.
Defined.

End ClusteringMore.

(** * Further properties of [save_model] and [load_model] *)

Module PersistenceMore.
Import Clustering Persistence PersistenceFacts.
Local Open Scope list_scope.

Section Facts.
Context `{Pickle}.

Lemma load_written fs st self filepath :
  load_model (<[resolve filepath := Regular (pickle_dump (model_data_of st))]> fs)
    self filepath =
  (<["n_clusters" := PyInt (n_clusters st)]>
     (<["model_name" := PyStr (model_name st)]>
        (<["cluster_labels" := py_option PyLabels (cluster_labels st)]>
           (<["embeddings" := py_option PyArray (embeddings st)]>
              (<["kmeans" := PyKMeans (kmeans st)]> self)))), Ok true).
Proof.
  unfold load_model. rewrite lookup_insert_eq, pickle_round_trip.
  unfold model_data_of. apply load_fields_ok; reflexivity.
Qed.

Lemma save_model_written fs fs' st filepath :
  save_model fs st filepath = (fs', Ok tt) ->
  fs' = <[resolve filepath := Regular (pickle_dump (model_data_of st))]> fs.
Proof.
  unfold save_model.
  destruct (fs !! resolve filepath) as [[content|]|]; congruence.
Qed.

(** ** A file that lacks a key *)

(** X5: [load_model] is not all-or-nothing.  On a pickled dictionary that
    lacks one of the five keys the call raises [KeyError] for the first
    missing key, in the order [kmeans], [embeddings], [cluster_labels],
    [model_name], [n_clusters]; the attributes read before it already hold
    the values of the file, the others are as before the call. *)
Theorem load_model_partial fs self filepath content d pre key post :
  fs !! resolve filepath = Some (Regular content) ->
  pickle_load content = Some (PyDict d) ->
  persisted_keys = pre ++ key :: post ->
  Forall (fun k => is_Some (dict_get d k)) pre ->
  dict_get d key = None ->
  exists self',
    load_model fs self filepath = (self', Raise (KeyError key)) /\
    (forall k, In k pre -> self' !! k = dict_get d k) /\
    (forall k, ~ In k pre -> self' !! k = self !! k).
Proof.
  intros Hfs Hload Hsplit Hpre Hmiss.
  unfold load_model. rewrite Hfs, Hload. unfold assign, subscript.
  unfold persisted_keys in Hsplit.
  destruct pre as [|k1 [|k2 [|k3 [|k4 [|k5 pre]]]]]; simpl in Hsplit;
    try (destruct pre; discriminate);
    injection Hsplit as <-; intros; subst;
    repeat match goal with
           | Hf : Forall _ (_ :: _) |- _ => inversion Hf; subst; clear Hf
           end;
    repeat match goal with
           | Hs : is_Some (dict_get d _) |- _ =>
               let v := fresh "v" in
               let Hv := fresh "Hv" in
               destruct Hs as [v Hv]; rewrite !Hv
           end;
    rewrite Hmiss; cbn [from_option];
    (eexists; split; [reflexivity|]; split;
     [ intros k Hk; simpl in Hk;
       repeat (destruct Hk as [<- | Hk]; [by simplify_map_eq|]); contradiction
     | intros k Hk; simpl in Hk;
       rewrite ?lookup_insert_ne; [reflexivity|..]; intros <-; tauto ]).
Qed.

(** ** Saving twice, and other paths *)

(** X6: a second [save_model] on the same file replaces the first: it
    returns, and [load_model] then gives the attributes of the second
    instance.  What [load_model] does on a path that leads to another file
    is what it did before the two writes; a path that is another spelling
    of the same file reads what was written. *)
Theorem save_model_overwrites fs fs1 st1 st2 filepath self other :
  save_model fs st1 filepath = (fs1, Ok tt) ->
  exists fs2,
    save_model fs1 st2 filepath = (fs2, Ok tt) /\
    (exists self',
       load_model fs2 self filepath = (self', Ok true) /\
       forall key, In key persisted_keys -> self' !! key = attrs st2 !! key) /\
    (resolve other = resolve filepath /\
     load_model fs2 self other = load_model fs2 self filepath \/
     resolve other <> resolve filepath /\
     load_model fs2 self other = load_model fs self other).
Proof.
  intros Hsave. apply save_model_written in Hsave. subst fs1.
  eexists. split; [|split].
  - unfold save_model. rewrite lookup_insert_eq. reflexivity.
  - rewrite load_written. eexists. split; [reflexivity|].
    intros key Hkey. unfold attrs. simpl in Hkey.
    destruct Hkey as [<- | [<- | [<- | [<- | [<- | []]]]]]; by simplify_map_eq.
  - destruct (decide (resolve other = resolve filepath)) as [Heq|Hne];
      [left|right]; (split; [assumption|]); unfold load_model.
    + rewrite Heq. reflexivity.
    + rewrite !lookup_insert_ne by congruence. reflexivity.
Qed.

(** ** The instance after a load *)

(** X7: when an instance loads what another instance saved, its attribute
    dictionary becomes that of the saved instance in the five persisted
    attributes and keeps its own encoder: [model_name] then names the
    encoder of the saved instance, while [embedding_model], with which
    [create_embeddings] encodes, is still the encoder the loading instance
    was built with. *)
Theorem load_model_keeps_encoder fs fs' st st0 filepath :
  save_model fs st filepath = (fs', Ok tt) ->
  load_model fs' (attrs st0) filepath = (attrs (restored st st0), Ok true) /\
  model_name (restored st st0) = model_name st /\
  embedding_model (restored st st0) = embedding_model st0.
Proof.
  intros Hsave. apply save_model_written in Hsave. subst fs'.
  split; [|split; reflexivity].
  rewrite load_written. reflexivity.
Qed.

End Facts.

(** ** The properties at concrete inputs *)

Import Examples.
#[local] Existing Instance Reference.unicode.

Lemma load_model_partial_witness :
  exists self',
    load_model (H := Reference.pickle)
      {[ default_filepath := Regular (H := Reference.pickle) (Some truncated) ]}
      (attrs fresh2) None = (self', Raise (KeyError "n_clusters")) /\
    (forall k, In k ["kmeans"; "embeddings"; "cluster_labels"; "model_name"] ->
       self' !! k =
       dict_get [ ("kmeans", PyKMeans (kmeans fitted4));
                  ("embeddings", PyNone);
                  ("cluster_labels", PyNone);
                  ("model_name", PyStr "old") ] k) /\
    (forall k, ~ In k ["kmeans"; "embeddings"; "cluster_labels"; "model_name"] ->
       self' !! k = attrs fresh2 !! k).
Proof.
  apply (@load_model_partial Reference.pickle _ (attrs fresh2) None
           (Some truncated) _
           ["kmeans"; "embeddings"; "cluster_labels"; "model_name"]
           "n_clusters" []).
  - reflexivity.
  - reflexivity.
  - reflexivity.
  - repeat constructor; eexists; reflexivity.
  - reflexivity.
Defined.

Lemma save_model_overwrites_witness :
  exists fs2,
    save_model (H := Reference.pickle)
      {[ default_filepath :=
           Regular (H := Reference.pickle) (Some (model_data_of fresh2)) ]}
      fitted4 None = (fs2, Ok tt) /\
    (exists self',
       load_model (H := Reference.pickle) fs2 (attrs fresh2) None = (self', Ok true) /\
       forall key, In key persisted_keys -> self' !! key = attrs fitted4 !! key) /\
    (resolve (H := Reference.pickle) (Some "./data/clustering_model.pkl") =
       resolve (H := Reference.pickle) None /\
     load_model (H := Reference.pickle) fs2 (attrs fresh2)
       (Some "./data/clustering_model.pkl") =
     load_model (H := Reference.pickle) fs2 (attrs fresh2) None \/
     resolve (H := Reference.pickle) (Some "./data/clustering_model.pkl") <>
       resolve (H := Reference.pickle) None /\
     load_model (H := Reference.pickle) fs2 (attrs fresh2)
       (Some "./data/clustering_model.pkl") =
     load_model (H := Reference.pickle) ∅ (attrs fresh2)
       (Some "./data/clustering_model.pkl")).
Proof.
  apply (@save_model_overwrites Reference.pickle ∅ _ fresh2 fitted4 None
           (attrs fresh2) (Some "./data/clustering_model.pkl")).
  reflexivity.
Defined.

(** Another spelling of the default path reaches the file just written. *)
Example load_through_other_spelling :
  resolve (H := Reference.pickle) (Some "./data/clustering_model.pkl") =
    resolve (H := Reference.pickle) None /\
  snd (load_model (H := Reference.pickle)
         (fst (save_model (H := Reference.pickle) ∅ fitted4 None))
         (attrs fresh2) (Some "./data/clustering_model.pkl")) = Ok true.
Proof. split; reflexivity. Qed.

Lemma load_model_keeps_encoder_witness :
  load_model (H := Reference.pickle)
    {[ default_filepath :=
         Regular (H := Reference.pickle) (Some (model_data_of fitted4)) ]}
    (attrs (init "other-encoder" 7)) None =
    (attrs (restored fitted4 (init "other-encoder" 7)), Ok true) /\
  model_name (restored fitted4 (init "other-encoder" 7)) = "m" /\
  embedding_model (restored fitted4 (init "other-encoder" 7)) = "other-encoder".
Proof.
  apply (@load_model_keeps_encoder Reference.pickle ∅ _ fitted4
           (init "other-encoder" 7) None).
  reflexivity.
Defined.

End PersistenceMore.

(** * Further properties of [summarizer.py] *)

Module SummarizerMore.
Import Summarizer SummarizerFacts.
Local Open Scope list_scope.

Section Facts.
Context `{SummarizerEnv} `{Unicode}.

(** ** One call of [generate_summary], in either mode *)

Lemma generate_text_via_rest_world st w prompt :
  fst (generate_text_via_rest st w prompt) = sent w.
Proof.
  unfold generate_text_via_rest.
  destruct (http_post _ _ _ _) as [status_code text|]; [|reflexivity].
  destruct (Nat.eqb status_code 200); reflexivity.
Qed.

Lemma generate_summary_frame st w hs cid :
  let '(st', w', s) := generate_summary st w hs cid in
  cluster_id s = cid /\
  headlines s = hs /\
  headlines_count s = length hs /\
  calls w <= calls w' <= S (calls w) /\
  ticks w' = S (ticks w) /\
  hashseed w' = hashseed w /\
  (use_mock st = true -> st' = st /\ calls w' = calls w) /\
  (use_mock st' = false -> st' = st /\ calls w' = S (calls w)).
Proof.
  unfold generate_summary. destruct (use_mock st) eqn:Hmock.
  - unfold finish_summary. cbn. rewrite Hmock. repeat split; auto; discriminate.
  - pose proof (generate_text_via_rest_world st w (summary_prompt hs)) as Hw.
    destruct (generate_text_via_rest st w (summary_prompt hs)) as [w1 [text|x]];
      simpl in Hw; subst w1; unfold finish_summary; cbn; rewrite ?Hmock;
      repeat split; auto; discriminate.
Qed.

Lemma generate_summary_file st w hs cid :
  summaries_file (snd (fst (generate_summary st w hs cid))) = summaries_file w.
Proof.
  unfold generate_summary. destruct (use_mock st); [reflexivity|].
  pose proof (generate_text_via_rest_world st w (summary_prompt hs)) as Hw.
  destruct (generate_text_via_rest st w (summary_prompt hs)) as [w1 [text|x]];
    simpl in Hw; subst w1; reflexivity.
Qed.

Lemma generate_all_summaries_file cs : forall st w,
  summaries_file (snd (fst (generate_all_summaries st w cs))) = summaries_file w.
Proof.
  induction cs as [|[cid data] cs IH]; intros st w; [reflexivity|].
  cbn [generate_all_summaries].
  pose proof (generate_summary_file st w (Clustering.headlines data) cid) as Hone.
  destruct (generate_summary st w (Clustering.headlines data) cid) as [[st1 w1] s].
  specialize (IH st1 w1).
  destruct (generate_all_summaries st1 w1 cs) as [[st2 w2] ss].
  cbn [fst snd] in *. congruence.
Qed.

Lemma generate_executive_summary_file st w all :
  summaries_file (snd (fst (generate_executive_summary st w all))) = summaries_file w.
Proof.
  unfold generate_executive_summary. destruct (use_mock st); [reflexivity|].
  pose proof (generate_text_via_rest_world st w (executive_prompt all)) as Hw.
  destruct (generate_text_via_rest st w (executive_prompt all)) as [w1 [text|x]];
    simpl in Hw; subst w1; reflexivity.
Qed.

Lemma generate_all_summaries_spec cs : forall st w,
  let '(st', w', ss) := generate_all_summaries st w cs in
  Forall2 (fun c s =>
             cluster_id s = fst c /\
             headlines s = Clustering.headlines (snd c) /\
             headlines_count s = length (Clustering.headlines (snd c)))
          cs ss /\
  calls w <= calls w' <= calls w + length cs /\
  ticks w' = ticks w + length cs /\
  hashseed w' = hashseed w /\
  (use_mock st = true -> use_mock st' = true /\ calls w' = calls w) /\
  (use_mock st' = false -> calls w' = calls w + length cs).
Proof.
  induction cs as [|[cid data] cs IH]; intros st w.
  - cbn [generate_all_summaries length]. repeat split; auto; lia.
  - cbn [generate_all_summaries].
    pose proof (generate_summary_frame st w (Clustering.headlines data) cid) as H1.
    destruct (generate_summary st w (Clustering.headlines data) cid) as [[st1 w1] s].
    specialize (IH st1 w1).
    destruct (generate_all_summaries st1 w1 cs) as [[st2 w2] ss].
    destruct H1 as [Hid [Hhs [Hn [Hc [Ht [Hseed [Hm Hf]]]]]]].
    destruct IH as [Hall [Hc' [Ht' [Hseed' [Hm' Hf']]]]].
    cbn [length]. split; [constructor; [cbn; auto|exact Hall]|].
    split; [lia|]. split; [lia|]. split; [congruence|]. split.
    + intros Hmock. destruct (Hm Hmock) as [-> Hsame].
      destruct (Hm' Hmock) as [Hmock' Hsame']. split; [exact Hmock'|lia].
    + intros Hclear. specialize (Hf' Hclear).
      destruct (use_mock st1) eqn:Hst1.
      * destruct (Hm' eq_refl) as [Hset _]. congruence.
      * destruct (Hf eq_refl) as [_ Hone]. lia.
Qed.

(** X8: [generate_all_summaries] returns one record per group, in the order
    of the dictionary, each with the key of its group as [cluster_id], the
    headlines of the group and their number as [headlines_count]; it sends
    at most one request per group and reads the clock once per group; a
    flag that is set stays set, and a flag that is still clear at the end
    means one request was sent for every group. *)
Theorem generate_all_summaries_frame cs st w :
  let '(st', w', ss) := generate_all_summaries st w cs in
  Forall2 (fun c s =>
             cluster_id s = fst c /\
             headlines s = Clustering.headlines (snd c) /\
             headlines_count s = length (Clustering.headlines (snd c)))
          cs ss /\
  calls w <= calls w' <= calls w + length cs /\
  ticks w' = ticks w + length cs /\
  hashseed w' = hashseed w /\
  (use_mock st = true -> use_mock st' = true /\ calls w' = calls w) /\
  (use_mock st' = false -> calls w' = calls w + length cs).
Proof. apply generate_all_summaries_spec. Qed.

(** ** A batch whose first request fails *)

Lemma fallback_summaries seed cs ss :
  fallback_output seed (GenerateAllSummaries cs) (OutSummaries ss) ->
  map summary ss =
  map (fun c => mock_summary seed (Clustering.headlines (snd c))) cs.
Proof.
  cbn [fallback_output]. induction 1 as [|c s cs ss [Hs _] _ IH]; simpl;
    [reflexivity|]. rewrite Hs, IH. reflexivity.
Qed.

(** X9: when the flag is clear and the request for the first group fails,
    [generate_all_summaries] sets the flag and sends no other request: the
    whole batch costs one request, and every record, the first included,
    carries the fallback summary. *)
Theorem failed_first_request_stops_requests st w cid data rest e :
  use_mock st = false ->
  snd (generate_text_via_rest st w (summary_prompt (Clustering.headlines data))) =
    Raise e ->
  let '(st', w', ss) := generate_all_summaries st w ((cid, data) :: rest) in
  use_mock st' = true /\
  calls w' = S (calls w) /\
  map summary ss =
  map (fun c => mock_summary (hashseed w) (Clustering.headlines (snd c)))
      ((cid, data) :: rest).
Proof.
  intros Hclear Hfail. cbn [generate_all_summaries]. unfold generate_summary.
  rewrite Hclear.
  pose proof (generate_text_via_rest_world st w
                (summary_prompt (Clustering.headlines data))) as Hw.
  destruct (generate_text_via_rest st w (summary_prompt (Clustering.headlines data)))
    as [w1 [text|x]]; simpl in Hfail, Hw; [discriminate|]. subst w1.
  unfold finish_summary. cbn [read_clock].
  set (w1 := {| hashseed := hashseed (sent w); calls := calls (sent w);
                ticks := S (ticks (sent w));
                summaries_file := summaries_file (sent w) |}).
  destruct (generate_all_summaries_mock rest (set_use_mock st true) w1 eq_refl)
    as [w' [ss [Heq [Hseed [Hcalls Hout]]]]].
  rewrite Heq. split; [reflexivity|]. split; [exact Hcalls|].
  cbn [map summary snd]. f_equal. apply (fallback_summaries _ _ _ Hout).
Qed.

(** ** The counts of the fallback sentiment *)

(** X10: whenever [analyze_sentiment] returns counts (in fallback mode,
    after a failed request, or after an answer that is not JSON), the flag
    is set afterwards, [positive] and [negative] are at most the number of
    headlines and the three counts add up to that number, so [neutral] is
    negative when headlines are counted on both sides; it returns a parsed
    answer only when the flag was clear, and then leaves it clear after one
    request. *)
Theorem analyze_sentiment_counts st w hs :
  let '(st', w', r) := analyze_sentiment st w hs in
  match r with
  | Counted s =>
      use_mock st' = true /\
      positive s <= length hs /\
      negative s <= length hs /\
      (Z.of_nat (positive s) + Z.of_nat (negative s) + neutral s
       = Z.of_nat (length hs))%Z
  | Parsed _ => use_mock st = false /\ st' = st /\ calls w' = S (calls w)
  end.
Proof.
  assert (Hcounts : positive (mock_sentiment hs) <= length hs /\
                    negative (mock_sentiment hs) <= length hs /\
                    (Z.of_nat (positive (mock_sentiment hs))
                     + Z.of_nat (negative (mock_sentiment hs))
                     + neutral (mock_sentiment hs) = Z.of_nat (length hs))%Z).
  { unfold mock_sentiment, count_matching. cbn [positive negative neutral].
    split; [apply filter_length_le|]. split; [apply filter_length_le|]. lia. }
  unfold analyze_sentiment. destruct (use_mock st) eqn:Hmock.
  - split; [exact Hmock|exact Hcounts].
  - pose proof (generate_text_via_rest_world st w (sentiment_prompt hs)) as Hw.
    destruct (generate_text_via_rest st w (sentiment_prompt hs)) as [w1 [text|x]];
      simpl in Hw; subst w1.
    + destruct (json_loads text) as [j|].
      * split; [reflexivity|]. split; reflexivity.
      * split; [reflexivity|exact Hcounts].
    + split; [reflexivity|exact Hcounts].
Qed.

(** ** What the fallback summary names *)

Lemma scan_companies hs : forall acc,
  fst (fst (fold_left scan_headline hs acc)) = fst (fst acc) ++ found_companies hs.
Proof.
  induction hs as [|h hs IH]; intros [[companies sectors] themes].
  - simpl. rewrite app_nil_r. reflexivity.
  - cbn [fold_left found_companies flat_map]. rewrite IH.
    cbn [scan_headline fst]. rewrite <- app_assoc. reflexivity.
Qed.

Lemma set_list_nodup seed xs : List.NoDup (set_list seed xs).
Proof.
  eapply Permutation_NoDup; [symmetry; apply set_list_perm|].
  apply NoDup_nodup.
Qed.

Lemma firstn_nodup {A} n (l : list A) : List.NoDup l -> List.NoDup (firstn n l).
Proof.
  intros Hl. rewrite <- (firstn_skipn n l) in Hl.
  apply NoDup_app_remove_r in Hl. exact Hl.
Qed.

Lemma firstn_in {A} n (l : list A) x : In x (firstn n l) -> In x l.
Proof.
  intros Hx. rewrite <- (firstn_skipn n l). apply in_or_app. left. exact Hx.
Qed.

Lemma firstn_bound {A} n (l : list A) : length (firstn n l) <= n.
Proof. rewrite length_firstn. lia. Qed.

(** X11: the fallback summary is the sentence of the f-string over three
    lists: at most three company names, two sectors and two themes, none
    listed twice, and every company it names is the title-cased form of one
    of the fifteen names of the source that occurs, letter case aside, in
    one of the headlines. *)
Theorem mock_summary_names_found_companies seed hs :
  exists companies sectors themes,
    mock_summary seed hs = render_summary companies sectors themes (length hs) /\
    length companies <= 3 /\ List.NoDup companies /\
    length sectors <= 2 /\ List.NoDup sectors /\
    length themes <= 2 /\ List.NoDup themes /\
    forall name, In name companies ->
      exists company headline,
        In company COMPANIES /\
        In headline hs /\
        contains company (lower headline) = true /\
        name = title company.
Proof.
  unfold mock_summary.
  pose proof (scan_companies hs ([], [], [])) as Hc.
  destruct (fold_left scan_headline hs ([], [], [])) as [[cs ss] ts].
  simpl in Hc. subst cs.
  exists (firstn 3 (set_list seed (found_companies hs))),
         (firstn 2 (set_list seed ss)), (firstn 2 (set_list seed ts)).
  split; [reflexivity|].
  split; [apply firstn_bound|]. split; [apply firstn_nodup, set_list_nodup|].
  split; [apply firstn_bound|]. split; [apply firstn_nodup, set_list_nodup|].
  split; [apply firstn_bound|]. split; [apply firstn_nodup, set_list_nodup|].
  intros name Hname. apply firstn_in in Hname.
  apply (Permutation_in _ (set_list_perm seed (found_companies hs))) in Hname.
  apply nodup_In in Hname. unfold found_companies in Hname.
  apply in_flat_map in Hname. destruct Hname as [headline [Hh Hname]].
  apply in_map_iff in Hname. destruct Hname as [company [<- Hcompany]].
  apply filter_In in Hcompany. destruct Hcompany as [Hin Hcontains].
  exists company, headline. auto.
Qed.

(** ** The summaries file *)

(** X23: [save_summaries] writes whatever list it is given, and
    [load_summaries] catches nothing.  On a file the process may not open
    both raise [PermissionError]; after [save_summaries] has written the
    empty list, [load_summaries] raises the [EmptyDataError] of [read_csv];
    neither call touches the instance. *)
Theorem summaries_file_errors st w :
  let '(st1, w1, saved) := save_summaries st w [] in
  let '(st2, w2, loaded) := load_summaries st1 w1 in
  st1 = st /\ st2 = st /\ w2 = w1 /\
  match summaries_file w with
  | Some NoAccess =>
      w1 = w /\ saved = Raise PermissionError /\ loaded = Raise PermissionError
  | Some (Written _) | None =>
      saved = Ok tt /\ loaded = Raise EmptyDataError
  end.
Proof.
  unfold save_summaries, load_summaries.
  destruct (summaries_file w) as [[c|]|] eqn:Hfile;
    cbn [writable write_summaries summaries_file];
    rewrite ?Hfile, ?read_empty_frame; repeat split; reflexivity.
Qed.

End Facts.

(** ** The properties at concrete inputs *)

Import Examples.
#[local] Existing Instance Reference.unicode.

Lemma failed_first_request_stops_requests_witness :
  let '(st', w', ss) :=
    generate_all_summaries (set_use_mock mock_summarizer false) (process 0)
      [ (0, {| Clustering.representative_headline := "Stocks rise";
               Clustering.headlines := ["Stocks rise"; "Tesla shares gain"];
               Clustering.size := 2 |});
        (1, {| Clustering.representative_headline := "Oil prices fall";
               Clustering.headlines := ["Oil prices fall"];
               Clustering.size := 1 |}) ] in
  use_mock st' = true /\
  calls w' = 2 /\
  map summary ss =
  map (fun c => mock_summary (H := Reference.summarizer_env) 0
                  (Clustering.headlines (snd c)))
      [ (0, {| Clustering.representative_headline := "Stocks rise";
               Clustering.headlines := ["Stocks rise"; "Tesla shares gain"];
               Clustering.size := 2 |});
        (1, {| Clustering.representative_headline := "Oil prices fall";
               Clustering.headlines := ["Oil prices fall"];
               Clustering.size := 1 |}) ].
Proof.
  apply (@failed_first_request_stops_requests Reference.summarizer_env Reference.unicode
           (set_use_mock mock_summarizer false) (process 0) 0
           {| Clustering.representative_headline := "Stocks rise";
              Clustering.headlines := ["Stocks rise"; "Tesla shares gain"];
              Clustering.size := 2 |}
           [ (1, {| Clustering.representative_headline := "Oil prices fall";
                    Clustering.headlines := ["Oil prices fall"];
                    Clustering.size := 1 |}) ]
           Exception).
  - reflexivity.
  - reflexivity.
Defined.

End SummarizerMore.

(** * Properties of [scraper.py] *)

Module ScraperFacts.
Import Scraper.
Local Open Scope list_scope.

Section Facts.
Context `{ScraperEnv} `{Unicode}.

(** Brings the quotient and the remainder of [m] by two into the
    context. *)
Ltac halve m :=
  pose proof (Z.div_mod m 2 ltac:(lia));
  pose proof (Z.mod_pos_bound m 2 ltac:(lia)).

(** ** The loops *)

Lemma scan_articles_spec max_headlines articles : forall headlines t,
  exists new,
    scan_articles max_headlines articles headlines t =
      (headlines ++ new, t + length new) /\
    Forall scraped new /\
    (Z.of_nat (length headlines) <= max_headlines ->
     Z.of_nat (length (headlines ++ new)) <= max_headlines)%Z.
Proof.
  induction articles as [|a rest IH]; intros headlines t; cbn [scan_articles].
  - exists []. rewrite app_nil_r, Nat.add_0_r. auto.
  - destruct (Z.leb_spec max_headlines (Z.of_nat (length headlines))) as [Hfull|Hroom].
    { exists []. rewrite app_nil_r, Nat.add_0_r. auto. }
    destruct (headline_text a) as [text|]; [|apply IH].
    destruct (truthy (Some text) && valid_headline text) eqn:Hok; [|apply IH].
    apply andb_true_iff in Hok. destruct Hok as [_ Hvalid].
    destruct (IH (headlines ++ [ {| headline := text; timestamp := clock t;
                                    source := "Google News" |} ]) (S t))
      as [new [Heq [Hnew Hlen]]].
    eexists (_ :: new). split; [|split].
    + rewrite Heq. rewrite <- app_assoc. cbn [app length]. f_equal. lia.
    + constructor; [split; [reflexivity|exact Hvalid]|exact Hnew].
    + intros _. rewrite <- app_assoc in Hlen. cbn [app] in Hlen. apply Hlen.
      rewrite length_app. cbn [length]. lia.
Qed.

Lemma scan_urls_spec max_headlines urls : forall headlines w,
  exists new w',
    scan_urls max_headlines urls headlines w = (headlines ++ new, w') /\
    Forall scraped new /\
    (Z.of_nat (length headlines) <= max_headlines ->
     Z.of_nat (length (headlines ++ new)) <= max_headlines)%Z /\
    requests w <= requests w' <= requests w + length urls /\
    ticks w' = ticks w + length new /\
    headlines_file w' = headlines_file w.
Proof.
  induction urls as [|url rest IH]; intros headlines w; cbn [scan_urls].
  - exists [], w. rewrite app_nil_r. cbn [length]. repeat split; auto; lia.
  - destruct (Z.leb_spec max_headlines (Z.of_nat (length headlines))) as [Hfull|Hroom].
    { exists [], w. rewrite app_nil_r. cbn [length]. repeat split; auto; lia. }
    destruct (session_get (requests w) url) as [articles|].
    + destruct (scan_articles_spec max_headlines articles headlines (ticks w))
        as [new1 [Heq1 [Hnew1 Hlen1]]].
      rewrite Heq1.
      destruct (IH (headlines ++ new1) (at_tick (requested w) (ticks w + length new1)))
        as [new2 [w' [Heq2 [Hnew2 [Hlen2 [Hreq [Hticks Hfile]]]]]]].
      exists (new1 ++ new2), w'. rewrite app_assoc. split; [exact Heq2|].
      split; [apply Forall_app; auto|]. cbn in Hreq, Hticks, Hfile.
      split; [intros Hle; apply Hlen2, Hlen1, Hle|].
      rewrite length_app. cbn [length]. repeat split; auto; lia.
    + destruct (IH headlines (requested w))
        as [new [w' [Heq [Hnew [Hlen [Hreq [Hticks Hfile]]]]]]].
      exists new, w'. cbn in Hreq, Hticks, Hfile. cbn [length].
      repeat split; auto; lia.
Qed.

Lemma stamp_samples_spec selected : forall t,
  map headline (fst (stamp_samples selected t)) = selected /\
  Forall (fun r => source r = "Sample Financial News") (fst (stamp_samples selected t)) /\
  snd (stamp_samples selected t) = t + length selected.
Proof.
  induction selected as [|h rest IH]; intros t; cbn [stamp_samples].
  - cbn. auto.
  - specialize (IH (S t)). destruct (stamp_samples rest (S t)) as [records t'].
    cbn [fst snd map length] in *. destruct IH as [-> [Hsrc ->]].
    split; [reflexivity|]. split; [constructor; [reflexivity|exact Hsrc]|lia].
Qed.

Lemma firstn_subset {A} n (xs : list A) x : In x (firstn n xs) -> In x xs.
Proof.
  intros Hx. rewrite <- (firstn_skipn n xs). apply in_or_app. left. exact Hx.
Qed.

Lemma slice_to_in {A} (xs : list A) stop x : In x (slice_to xs stop) -> In x xs.
Proof.
  unfold slice_to. destruct (0 <=? stop)%Z; apply firstn_subset.
Qed.

Lemma slice_to_length {A} (xs : list A) stop :
  (0 <= stop <= Z.of_nat (length xs))%Z ->
  length (slice_to xs stop) = Z.to_nat stop.
Proof.
  intros Hstop. unfold slice_to.
  destruct (Z.leb_spec 0 stop) as [_|Hneg]; [|lia].
  rewrite length_firstn. lia.
Qed.

Lemma get_sample_spec count w :
  let '(samples, w') := get_sample_financial_headlines count w in
  Forall sampled samples /\
  map headline samples =
    slice_to sample_headlines (Z.min count (Z.of_nat (length sample_headlines))) /\
  requests w' = requests w /\
  headlines_file w' = headlines_file w.
Proof.
  unfold get_sample_financial_headlines.
  set (selected := slice_to sample_headlines
                     (Z.min count (Z.of_nat (length sample_headlines)))).
  destruct (stamp_samples_spec selected (ticks w)) as [Hmap [Hsrc _]].
  destruct (stamp_samples selected (ticks w)) as [records t]. cbn [fst snd] in *.
  split; [|split; [exact Hmap|split; reflexivity]].
  apply List.Forall_forall. intros r Hr. split.
  - rewrite List.Forall_forall in Hsrc. apply Hsrc, Hr.
  - apply (slice_to_in sample_headlines
             (Z.min count (Z.of_nat (length sample_headlines)))).
    change (In (headline r) selected). rewrite <- Hmap. apply in_map, Hr.
Qed.

(** ** Where the headlines come from *)


(** ** How many headlines *)

Lemma scrape_headlines_file max_headlines w :
  headlines_file (snd (scrape_headlines max_headlines w)) = headlines_file w.
Proof.
  unfold scrape_headlines.
  destruct (scan_urls_spec max_headlines news_urls [] w)
    as [new [w1 [Heq [_ [_ [_ [_ Hfile]]]]]]].
  rewrite Heq. cbn [app].
  destruct (Z.of_nat (length new) <? max_headlines / 2)%Z; [|exact Hfile].
  pose proof (get_sample_spec (max_headlines - Z.of_nat (length new)) w1) as Hs.
  destruct (get_sample_financial_headlines _ w1) as [samples w2].
  destruct Hs as [_ [_ [_ Hfile2]]]. cbn [snd]. congruence.
Qed.

Lemma scrape_headlines_length max_headlines w :
  let '(headlines, w') := scrape_headlines max_headlines w in
  (Z.of_nat (length headlines) <= Z.max 0 max_headlines)%Z /\
  (Z.min (max_headlines / 2) 20 <= Z.of_nat (length headlines))%Z /\
  requests w <= requests w' <= requests w + 5.
Proof.
  unfold scrape_headlines.
  destruct (scan_urls_spec max_headlines news_urls [] w)
    as [pages [w1 [Heq [_ [Hlen [Hreq _]]]]]].
  rewrite Heq. cbn [app length] in *.
  assert (Hpages : (Z.of_nat (length pages) <= Z.max 0 max_headlines)%Z).
  { destruct (Z.leb_spec 0 max_headlines) as [Hpos|Hneg]; [specialize (Hlen Hpos); lia|].
    assert (pages = []) as ->; [|cbn; lia].
    cbn [scan_urls news_urls] in Heq.
    destruct (Z.leb_spec max_headlines (Z.of_nat (@length headline_record []))) as [_|Hc];
      [|cbn in Hc; lia].
    injection Heq as <- _. reflexivity. }
  destruct (Z.ltb_spec (Z.of_nat (length pages)) (max_headlines / 2)) as [Hlt|Hge].
  - pose proof (get_sample_spec (max_headlines - Z.of_nat (length pages)) w1) as Hs.
    destruct (get_sample_financial_headlines _ w1) as [samples w2].
    destruct Hs as [_ [Hmap [Hreq2 _]]].
    halve max_headlines.
    assert (Hmax : (2 <= max_headlines)%Z) by lia.
    assert (Hh : (max_headlines / 2 <= max_headlines)%Z) by lia.
    apply (f_equal (@length string)) in Hmap.
    rewrite length_map, slice_to_length in Hmap by (cbn; lia).
    rewrite length_app. cbn in Hmap, Hreq |- *. lia.
  - cbn in Hreq. split; [exact Hpages|]. split; [lia|exact Hreq].
Qed.

(** X13: [scrape_headlines] never returns more than [max_headlines]
    headlines and never fewer than the smaller of half of [max_headlines]
    and twenty, whatever the pages hold and whichever requests fail; it
    sends at most five requests.  With the default of 200 it returns at
    least twenty headlines. *)
Theorem scrape_headlines_bounds max_headlines w :
  let '(headlines, w') := scrape_headlines max_headlines w in
  (Z.of_nat (length headlines) <= Z.max 0 max_headlines)%Z /\
  (Z.min (max_headlines / 2) 20 <= Z.of_nat (length headlines))%Z /\
  requests w <= requests w' <= requests w + 5.
Proof. apply scrape_headlines_length. Qed.

(** ** Every request fails *)

Lemma scan_urls_offline max_headlines urls : forall w,
  (0 < max_headlines)%Z ->
  (forall i url, i < length urls -> session_get (requests w + i) url = None) ->
  scan_urls max_headlines urls [] w =
  ([], {| requests := requests w + length urls; ticks := ticks w;
          headlines_file := headlines_file w |}).
Proof.
  induction urls as [|url rest IH]; intros w Hmax Hoff; cbn [scan_urls length].
  - rewrite Nat.add_0_r. destruct w; reflexivity.
  - destruct (Z.leb_spec max_headlines (Z.of_nat 0)) as [Hc|_]; [lia|].
    pose proof (Hoff 0 url) as Hfirst. rewrite Nat.add_0_r in Hfirst.
    rewrite Hfirst by (cbn; lia).
    rewrite IH; [|exact Hmax|].
    + cbn [requested requests ticks headlines_file].
      replace (requests w + S (length rest)) with (S (requests w) + length rest)
        by lia.
      reflexivity.
    + intros i url' Hi. cbn [requested requests].
      replace (S (requests w) + i) with (requests w + S i) by lia.
      apply Hoff. cbn [length]. lia.
Qed.

(** X14: when every one of the five requests fails and [max_headlines] is
    at least two, [scrape_headlines] returns the first [min(max_headlines,
    20)] sample headlines, in their order, each tagged [Sample Financial
    News]. *)
Theorem scrape_headlines_offline max_headlines w :
  (2 <= max_headlines)%Z ->
  (forall i url, i < 5 -> session_get (requests w + i) url = None) ->
  let '(headlines, w') := scrape_headlines max_headlines w in
  map headline headlines =
    firstn (Z.to_nat (Z.min max_headlines 20)) sample_headlines /\
  Forall (fun r => source r = "Sample Financial News") headlines /\
  requests w' = requests w + 5.
Proof.
  intros Hmax Hoff. unfold scrape_headlines.
  rewrite scan_urls_offline by (lia || exact Hoff).
  cbn [length app].
  destruct (Z.ltb_spec (Z.of_nat 0) (max_headlines / 2)) as [_|Hc].
  2:{ halve max_headlines. cbn in Hc. lia. }
  set (w1 := {| requests := requests w + length news_urls; ticks := ticks w;
                headlines_file := headlines_file w |}).
  pose proof (get_sample_spec (max_headlines - Z.of_nat 0) w1) as Hs.
  destruct (get_sample_financial_headlines (max_headlines - Z.of_nat 0) w1)
    as [samples w2].
  destruct Hs as [Hsampled [Hmap [Hreq _]]]. split; [|split].
  - rewrite Hmap. unfold slice_to.
    change (Z.of_nat (length sample_headlines)) with 20%Z.
    replace (max_headlines - Z.of_nat 0)%Z with max_headlines by lia.
    destruct (Z.leb_spec 0 (Z.min max_headlines 20)) as [_|Hneg]; [reflexivity|lia].
  - eapply List.Forall_impl; [|exact Hsampled]. intros r [Hsrc _]. exact Hsrc.
  - rewrite Hreq. reflexivity.
Qed.

End Facts.

(** ** The properties at concrete inputs *)

Import Examples.
#[local] Existing Instance Reference.unicode.

Lemma scrape_headlines_offline_witness :
  let '(headlines, w') := scrape_headlines (H := Reference.scraper_env) 3 offline in
  map headline headlines =
    [ "Apple stock rises 3% on strong iPhone sales and services growth";
      "Tesla reports record quarterly earnings, beats analyst expectations";
      "Google parent Alphabet beats revenue expectations in Q4 earnings" ] /\
  Forall (fun r => source r = "Sample Financial News") headlines /\
  requests w' = 6.
Proof.
  apply (@scrape_headlines_offline Reference.scraper_env Reference.unicode 3 offline).
  - lia.
  - intros i url _. reflexivity.
Defined.

(** The reference page: the first and the third element pass the filter,
    the second is a navigation link, and the fourth names Apple, whose
    lowered text contains the excluded word [app]. *)
Example scrape_front_page :
  map headline (fst (scrape_headlines (H := Reference.scraper_env) 4 online)) =
  [ "Markets rally as inflation cools in June";
    "Regional bank shares slide after earnings" ].
Proof. reflexivity. Qed.

End ScraperFacts.

(** * Properties of [analyze_clusters] *)

Module AnalysisFacts.
Import Clustering ClusteringFacts Analysis.
Local Open Scope list_scope.

Section Facts.
Context `{NumericBackend} `{PandasBackend} `{Unicode}.

Lemma analyze_cluster_spec cluster_results cid :
  match analyze_cluster cluster_results cid with
  | None => populated cluster_results cid = false
  | Some a =>
      populated cluster_results cid = true /\
      an_size a = length (members cluster_results cid) /\
      avg_length a =
        np_mean (map len (map headline (members cluster_results cid))) /\
      common_words a =
        value_counts_head 5
          (split (lower (String.concat " "
                           (map headline (members cluster_results cid)))))
  end.
Proof.
  rewrite populated_members. unfold analyze_cluster.
  change (List.filter (fun it => Nat.eqb (cluster_id it) cid) cluster_results)
    with (members cluster_results cid).
  destruct (members cluster_results cid) as [|m ms]; cbn [map];
    [reflexivity|].
  cbn [an_size avg_length common_words length]. rewrite length_map. auto.
Qed.

Lemma analysis_loop_spec cluster_results cids : forall acc,
  List.NoDup cids ->
  (forall c, In c cids -> ~ In c (map fst acc)) ->
  map fst (analysis_loop cluster_results cids acc) =
    map fst acc ++ List.filter (populated cluster_results) cids /\
  forall c a, In (c, a) (analysis_loop cluster_results cids acc) ->
    In (c, a) acc \/ (In c cids /\ analyze_cluster cluster_results c = Some a).
Proof.
  induction cids as [|cid rest IH]; intros acc Hnd Hfresh; cbn [analysis_loop].
  - simpl. rewrite app_nil_r. auto.
  - inversion Hnd as [|? ? Hnotin Hnd']; subst.
    pose proof (analyze_cluster_spec cluster_results cid) as Hcid.
    destruct (analyze_cluster cluster_results cid) as [a0|] eqn:Ha.
    + destruct Hcid as [Hpop _].
      rewrite dict_set_fresh by (apply Hfresh; left; reflexivity).
      destruct (IH (acc ++ [(cid, a0)]) Hnd') as [Hkeys Hin].
      { intros c Hc. rewrite map_app, in_app_iff. simpl.
        intros [Hacc | [<- | []]]; [|tauto].
        apply (Hfresh c); [right; exact Hc|exact Hacc]. }
      split.
      * simpl. rewrite Hpop, Hkeys, map_app, <- app_assoc. reflexivity.
      * intros c a Hca. destruct (Hin c a Hca) as [Hacc | [Hc Hsome]].
        -- apply in_app_or in Hacc. destruct Hacc as [Hacc | [Heq | []]];
             [left; exact Hacc|].
           injection Heq as <- <-. right. split; [left; reflexivity|exact Ha].
        -- right. split; [right; exact Hc|exact Hsome].
    + destruct (IH acc Hnd') as [Hkeys Hin].
      { intros c Hc. apply Hfresh. right. exact Hc. }
      split.
      * simpl. rewrite Hcid. exact Hkeys.
      * intros c a Hca. destruct (Hin c a Hca) as [Hacc | [Hc Hsome]]; auto.
        right. split; [right; exact Hc|exact Hsome].
Qed.

(** X15: [analyze_clusters] needs no fit.  On any instance and any list of
    entries it returns a dictionary whose keys are the group ids below
    [n_clusters] that have an entry, in ascending order, and whose [size] is
    the number of entries of the group; whenever [get_cluster_summaries]
    returns on the same input, the two dictionaries have the same keys and
    the same sizes. *)
Theorem analyze_clusters_groups st cluster_results :
  map fst (analyze_clusters st cluster_results) =
    List.filter (populated cluster_results) (seq 0 (n_clusters st)) /\
  (forall cid a, In (cid, a) (analyze_clusters st cluster_results) ->
     an_size a = length (members cluster_results cid) /\ 1 <= an_size a) /\
  (forall out, get_cluster_summaries st cluster_results = Ok out ->
     map fst out = map fst (analyze_clusters st cluster_results) /\
     map (fun p => size (snd p)) out =
     map (fun p => an_size (snd p)) (analyze_clusters st cluster_results)).
Proof.
  unfold analyze_clusters.
  destruct (analysis_loop_spec cluster_results (seq 0 (n_clusters st)) [])
    as [Hkeys Hin]; [apply seq_NoDup|intros c _ []|].
  cbn [map app] in Hkeys.
  assert (Hsize : forall cid a,
            In (cid, a) (analysis_loop cluster_results (seq 0 (n_clusters st)) []) ->
            an_size a = length (members cluster_results cid) /\ 1 <= an_size a).
  { intros cid a Hca. destruct (Hin cid a Hca) as [[] | [_ Hsome]].
    pose proof (analyze_cluster_spec cluster_results cid) as Hspec.
    rewrite Hsome in Hspec. destruct Hspec as [Hpop [Hsz _]].
    split; [exact Hsz|]. rewrite Hsz. rewrite populated_members in Hpop.
    destruct (members cluster_results cid); [discriminate|simpl; lia]. }
  split; [exact Hkeys|]. split; [exact Hsize|].
  intros out Hout.
  destruct (get_cluster_summaries_spec _ _ _ Hout) as [Hkeys' Hin'].
  split; [congruence|].
  transitivity (map (fun c => length (members cluster_results c)) (map fst out)).
  - rewrite map_map. apply map_ext_in. intros [c s] Hcs. simpl.
    apply Hin' in Hcs. unfold summarize_cluster in Hcs.
    destruct (map headline (members cluster_results c)) as [|h0 hs0] eqn:Hmap;
      [discriminate|].
    unfold mbind, result_bind, from_option in Hcs.
    repeat match type of Hcs with
           | match ?x with _ => _ end = _ => destruct x; try discriminate
           end.
    injection Hcs as <-. cbn [size].
    rewrite <- (length_map headline), Hmap. reflexivity.
  - rewrite Hkeys', <- Hkeys, map_map. apply map_ext_in. intros [c a] Hca. simpl.
    symmetry. apply (Hsize c a Hca).
Qed.

End Facts.

End AnalysisFacts.

(** * Properties of [scheduler.py] and of the dashboard *)

Module SchedulerFacts.
Import Json Scheduler.
Local Open Scope list_scope.

Section Facts.
Context `{NumericBackend} `{Persistence.Pickle} `{Summarizer.SummarizerEnv}
        `{Scraper.ScraperEnv} `{JsonCodec} `{SchedulerEnv} `{Unicode}.

(** ** The steps of one run *)

(** Step 5 ends completed or in the [PermissionError] of one of its four
    writes; it completes when the four files can be written; and all it does
    to the directory is to write the executive summary of the day, as a
    dumped string, when the summary is not empty and the run completes. *)
Lemma save_results_outcome sch w headlines summaries executive_summary :
  let '(w', out) := save_results sch w headlines summaries executive_summary in
  (out = Completed \/ out = Failed PermissionError) /\
  (writable (Scraper.headlines_file (web w)) = true ->
   writable (Summarizer.summaries_file (llm w)) = true ->
   pickles w !! Persistence.resolve None <> Some Persistence.Denied ->
   writable (data_dir w !! executive_file_name (strftime_ymd (runs w))) = true ->
   out = Completed) /\
  match executive_summary, out with
  | String _ _, Completed =>
      data_dir w' =
      <[executive_file_name (strftime_ymd (runs w)) :=
          Written (json_dump (JString executive_summary))]> (data_dir w)
  | _, _ => data_dir w' = data_dir w
  end.
Proof.
  unfold save_results, Scraper.save_headlines, Summarizer.save_summaries,
    Persistence.save_model.
  destruct headlines as [|h0 headlines];
    [|destruct (writable (Scraper.headlines_file (web w)))];
    cbn [set_web llm pickles data_dir runs Scraper.headlines_file];
    try (split; [right; reflexivity|];
         split; [intros; discriminate|destruct executive_summary; reflexivity]);
    (destruct (writable (Summarizer.summaries_file (llm w)));
     cbn [set_llm set_web llm pickles data_dir runs];
     [|split; [right; reflexivity|];
       split; [intros; discriminate|destruct executive_summary; reflexivity]]);
    (destruct (pickles w !! Persistence.resolve None) as [[content|]|];
     cbn [set_pickles set_llm set_web pickles data_dir runs];
     try (split; [right; reflexivity|];
          split; [intros; congruence|destruct executive_summary; reflexivity]));
    (destruct executive_summary as [|c rest];
     [split; [left; reflexivity|]; split; [reflexivity|reflexivity]|]);
    (destruct (writable (data_dir w !! _));
     cbn [set_data_dir data_dir];
     [split; [left; reflexivity|]; split; [reflexivity|reflexivity]
     |split; [right; reflexivity|]; split; [intros; discriminate|reflexivity]]).
Qed.

(** A run changes the clusterer through [cluster_headlines] only. *)
Lemma run_daily_pipeline_clusterer sch w :
  let texts :=
    map Scraper.headline
      (fst (Scraper.scrape_headlines Scraper.MAX_HEADLINES_PER_DAY (web w))) in
  clusterer (fst (fst (run_daily_pipeline sch w))) =
  match texts with
  | [] => clusterer sch
  | _ :: _ =>
      fst (Clustering.cluster_headlines (generator_state (S (runs w)))
             (clusterer sch) texts)
  end.
Proof.
  unfold run_daily_pipeline. cbn [next_run web runs set_web].
  destruct (Scraper.scrape_headlines Scraper.MAX_HEADLINES_PER_DAY (web w))
    as [headlines web'].
  cbn [fst]. destruct headlines as [|h0 headlines]; [reflexivity|].
  cbn [map].
  destruct (Clustering.cluster_headlines _ (clusterer sch) _)
    as [cl [cluster_results|e]]; [|reflexivity].
  destruct (Clustering.get_cluster_summaries cl cluster_results)
    as [cluster_summaries|e]; [|reflexivity].
  destruct (Summarizer.generate_all_summaries _ _ cluster_summaries)
    as [[sm l] summaries].
  destruct summaries as [|s0 summaries]; [reflexivity|].
  destruct (Summarizer.generate_executive_summary sm l (s0 :: summaries))
    as [[sm' l'] executive_summary].
  destruct (save_results _ _ _ _ _) as [w' out]. reflexivity.
Qed.

Lemma run_daily_pipeline_keeps_embeddings sch w E :
  Clustering.embeddings (clusterer sch) = Some E ->
  Clustering.embeddings (clusterer (fst (fst (run_daily_pipeline sch w)))) = Some E.
Proof.
  intros HE. rewrite run_daily_pipeline_clusterer. cbv zeta.
  destruct (map Scraper.headline _) as [|t ts]; [exact HE|].
  apply ClusteringFacts.cluster_headlines_keeps_embeddings. exact HE.
Qed.

Lemma run_days_keeps_embeddings n : forall sch w E,
  Clustering.embeddings (clusterer sch) = Some E ->
  Clustering.embeddings (clusterer (fst (run_days n sch w))) = Some E.
Proof.
  induction n as [|n IH]; intros sch w E HE; cbn [run_days]; [exact HE|].
  pose proof (run_daily_pipeline_keeps_embeddings sch w E HE) as Hrun.
  destruct (run_daily_pipeline sch w) as [[sch' w'] out]. apply IH. exact Hrun.
Qed.

(** The default configuration gives the first run at least twenty texts,
    twice the number of clusters. *)
Lemma default_scrape_length (x : Scraper.World) :
  20 <= length (fst (Scraper.scrape_headlines Scraper.MAX_HEADLINES_PER_DAY x)) <= 200.
Proof.
  pose proof (ScraperFacts.scrape_headlines_length Scraper.MAX_HEADLINES_PER_DAY x)
    as Hlen.
  destruct (Scraper.scrape_headlines Scraper.MAX_HEADLINES_PER_DAY x)
    as [headlines x'].
  destruct Hlen as [Hmax [Hmin _]]. cbn [fst].
  unfold Scraper.MAX_HEADLINES_PER_DAY in Hmax, Hmin.
  change (200 / 2)%Z with 100%Z in Hmin. lia.
Qed.

Lemma first_run_spec sch w :
  clusterer sch = Clustering.init EMBEDDING_MODEL K_CLUSTERS ->
  let texts :=
    map Scraper.headline
      (fst (Scraper.scrape_headlines Scraper.MAX_HEADLINES_PER_DAY (web w))) in
  let '(sch', w', out) := run_daily_pipeline sch w in
  20 <= length texts <= 200 /\
  (out = Completed \/ out = Failed PermissionError) /\
  Clustering.embeddings (clusterer sch') = Some (encode EMBEDDING_MODEL texts) /\
  (exists labels,
     Clustering.cluster_labels (clusterer sch') = Some labels /\
     length labels = length texts) /\
  (can_save w = true -> out = Completed).
Proof.
  intros Hcl. cbv zeta.
  pose proof (default_scrape_length (web w)) as Hlen.
  pose proof (ScraperFacts.scrape_headlines_file Scraper.MAX_HEADLINES_PER_DAY (web w))
    as Hweb.
  unfold run_daily_pipeline. cbn [next_run web runs set_web].
  destruct (Scraper.scrape_headlines Scraper.MAX_HEADLINES_PER_DAY (web w))
    as [headlines web'].
  cbn [fst snd] in *.
  destruct headlines as [|h0 headlines]; [simpl in Hlen; lia|].
  rewrite <- (length_map Scraper.headline) in Hlen.
  remember (map Scraper.headline (h0 :: headlines)) as texts eqn:Htexts.
  rewrite Hcl.
  destruct (ClusteringMore.cluster_headlines_accepts
              (generator_state (S (runs w)))
              (Clustering.init EMBEDDING_MODEL K_CLUSTERS) texts eq_refl)
    as [labels [centers [Hcall [Hlabels Hrange]]]].
  { cbn [Clustering.init Clustering.kmeans km_n_clusters]. unfold K_CLUSTERS. lia. }
  remember (Clustering.zip_enumerate 0 texts labels) as cluster_results
    eqn:Hresults.
  set (cl := Clustering.set_fit _ _ labels) in Hcall.
  rewrite Hcall.
  destruct (ClusteringFacts.run_pipeline_returns _ _ _ _ _ Hcall) as [out Hrun].
  unfold Clustering.run_pipeline in Hrun. rewrite Hcall in Hrun.
  assert (Hout : Clustering.get_cluster_summaries cl cluster_results = Ok out)
    by congruence.
  rewrite Hout.
  assert (Hsum : list_sum (map (fun p => Clustering.size (snd p)) out) = length texts).
  { rewrite (ClusteringMore.summaries_total_size _ _ _ Hout); subst cluster_results.
    - rewrite ClusteringFacts.zip_enumerate_length. lia.
    - apply ClusteringMore.zip_enumerate_labels_range. exact Hrange. }
  cbn [llm set_web next_run].
  pose proof (SummarizerMore.generate_all_summaries_spec out (summarizer sch) (llm w))
    as Hall.
  pose proof (SummarizerMore.generate_all_summaries_file out (summarizer sch) (llm w))
    as Hfile.
  destruct (Summarizer.generate_all_summaries (summarizer sch) (llm w) out)
    as [[sm l] summaries].
  destruct Hall as [Hall _]. cbn [fst snd] in Hfile.
  destruct summaries as [|s0 summaries].
  { inversion Hall; subst out. simpl in Hsum. lia. }
  pose proof (SummarizerMore.generate_executive_summary_file sm l (s0 :: summaries))
    as Hfile'.
  destruct (Summarizer.generate_executive_summary sm l (s0 :: summaries))
    as [[sm' l'] executive_summary].
  cbn [fst snd] in Hfile'.
  match goal with
  | |- context [save_results ?a ?b ?c ?d ?e] =>
      pose proof (save_results_outcome a b c d e) as Hsave;
      destruct (save_results a b c d e) as [w' outcome]
  end.
  destruct Hsave as [Hends [Hcan _]].
  cbn [web llm pickles data_dir runs set_llm set_web next_run] in Hcan.
  rewrite Hweb, Hfile', Hfile in Hcan.
  split; [lia|]. split; [exact Hends|].
  split; [reflexivity|]. split; [exists labels; split; [reflexivity|lia]|].
  unfold can_save. rewrite !andb_true_iff. intros [[[Hw1 Hw2] Hw3] Hw4].
  apply Hcan; try assumption.
  intros Hdenied. rewrite Hdenied in Hw3. discriminate.
Qed.

(** ** The first run *)

(** X16: on a scheduler as its constructor builds it (a new clusterer for
    ten clusters), the first [run_daily_pipeline] never stops for want of
    headlines or of summaries and never fails in clustering: the scraper
    hands it between 20 and 200 texts, every one of them gets a label, and
    the instance keeps their rows.  The run ends completed, or failed with
    the [PermissionError] of one of the four writes of its last step (the
    two CSV files, the model file, the executive summary); it completes
    whenever these four files can be written. *)
Theorem first_daily_run_clusters_every_headline sch w :
  clusterer sch = Clustering.init EMBEDDING_MODEL K_CLUSTERS ->
  let texts :=
    map Scraper.headline
      (fst (Scraper.scrape_headlines Scraper.MAX_HEADLINES_PER_DAY (web w))) in
  let '(sch', w', out) := run_daily_pipeline sch w in
  20 <= length texts <= 200 /\
  (out = Completed \/ out = Failed PermissionError) /\
  Clustering.embeddings (clusterer sch') = Some (encode EMBEDDING_MODEL texts) /\
  (exists labels,
     Clustering.cluster_labels (clusterer sch') = Some labels /\
     length labels = length texts) /\
  (can_save w = true -> out = Completed).
Proof. apply first_run_spec. Qed.

(** ** Later runs *)

(** X17: the scheduler keeps one clusterer, and a run never replaces the
    rows it holds: after any number of runs, the rows of the clusterer are
    those of the texts scraped in the first run, so every later run labels
    the rows of the first day and not the texts of its own day. *)
Theorem later_runs_reuse_first_day sch w n :
  clusterer sch = Clustering.init EMBEDDING_MODEL K_CLUSTERS ->
  Clustering.embeddings (clusterer (fst (run_days (S n) sch w))) =
  Some (encode EMBEDDING_MODEL
          (map Scraper.headline
             (fst (Scraper.scrape_headlines Scraper.MAX_HEADLINES_PER_DAY (web w))))).
Proof.
  intros Hcl. cbn [run_days].
  pose proof (first_run_spec sch w Hcl) as Hfirst. cbv zeta in Hfirst.
  destruct (run_daily_pipeline sch w) as [[sch' w'] out].
  destruct Hfirst as [_ [_ [HE _]]].
  apply run_days_keeps_embeddings. exact HE.
Qed.

(** ** The executive summary on the dashboard *)

Lemma max_name_in {A} (xs : list (string * A)) : forall x,
  In (Dashboard.max_name x xs) (x :: xs).
Proof.
  unfold Dashboard.max_name.
  induction xs as [|y xs IH]; intros x; cbn [fold_left]; [left; reflexivity|].
  destruct (String.ltb (fst x) (fst y)).
  - right. apply IH.
  - destruct (IH x) as [Heq | Hin]; [left; exact Heq|right; right; exact Hin].
Qed.

Lemma display_written_by_scheduler (dir : gmap string (data_file json_text)) :
  Dashboard.written_by_scheduler dir ->
  Dashboard.display_executive_summary dir =
  match List.filter (fun f => String.prefix "executive_summary_" (fst f))
                    (map_to_list dir) with
  | [] => Ok Dashboard.Info
  | _ :: _ => Raise TypeError
  end.
Proof.
  intros Hdir. unfold Dashboard.display_executive_summary.
  destruct (List.filter _ (map_to_list dir)) as [|f fs] eqn:Hfiles; [reflexivity|].
  pose proof (max_name_in fs f) as Hlatest. rewrite <- Hfiles in Hlatest.
  apply filter_In in Hlatest. destruct Hlatest as [Hin Hprefix].
  destruct (Dashboard.max_name f fs) as [name text]. cbn [fst snd] in *.
  apply list_elem_of_In, elem_of_map_to_list in Hin.
  destruct (Hdir name text Hin Hprefix) as [s ->].
  cbn beta iota. rewrite json_round_trip. reflexivity.
Qed.

Lemma prefix_append p x : String.prefix p (String.append p x) = true.
Proof.
  induction p as [|c p IH]; [destruct x; reflexivity|].
  simpl. destruct (ascii_dec c c); [exact IH|congruence].
Qed.

Lemma executive_file_name_prefix ymd :
  String.prefix "executive_summary_" (executive_file_name ymd) = true.
Proof. apply prefix_append. Qed.

Lemma written_by_scheduler_insert (dir : gmap string (data_file json_text)) ymd s :
  Dashboard.written_by_scheduler dir ->
  Dashboard.written_by_scheduler
    (<[executive_file_name ymd := Written (json_dump (JString s))]> dir).
Proof.
  intros Hdir name text Hname Hprefix.
  destruct (decide (executive_file_name ymd = name)) as [<-|Hne].
  - rewrite lookup_insert_eq in Hname. injection Hname as <-. eauto.
  - rewrite lookup_insert_ne in Hname by exact Hne. eauto.
Qed.

(** What a run does to the directory: nothing, or one file of the day with
    the executive summary dumped as a string. *)
Lemma run_daily_pipeline_data_dir sch w :
  let '(sch', w', out) := run_daily_pipeline sch w in
  data_dir w' = data_dir w \/
  exists s,
    out = Completed /\
    data_dir w' =
    <[executive_file_name (strftime_ymd (S (runs w))) :=
        Written (json_dump (JString s))]>
      (data_dir w).
Proof.
  unfold run_daily_pipeline. cbn [next_run web runs set_web llm].
  destruct (Scraper.scrape_headlines Scraper.MAX_HEADLINES_PER_DAY (web w))
    as [headlines web'].
  destruct headlines as [|h0 headlines]; [left; reflexivity|].
  destruct (Clustering.cluster_headlines _ (clusterer sch) _)
    as [cl [cluster_results|e]]; [|left; reflexivity].
  destruct (Clustering.get_cluster_summaries cl cluster_results)
    as [cluster_summaries|e]; [|left; reflexivity].
  destruct (Summarizer.generate_all_summaries _ _ cluster_summaries)
    as [[sm l] summaries].
  destruct summaries as [|s0 summaries]; [left; reflexivity|].
  destruct (Summarizer.generate_executive_summary sm l (s0 :: summaries))
    as [[sm' l'] executive_summary].
  match goal with
  | |- context [save_results ?a ?b ?c ?d ?e] =>
      pose proof (save_results_outcome a b c d e) as Hsave;
      destruct (save_results a b c d e) as [w' out]
  end.
  destruct Hsave as [_ [_ Hdir]].
  cbn [data_dir runs set_llm set_web] in Hdir.
  destruct executive_summary as [|c rest]; [left; exact Hdir|].
  destruct out; try (left; exact Hdir).
  right. eexists. split; [reflexivity|exact Hdir].
Qed.

Lemma mock_executive_summary_nonempty all_summaries :
  exists c rest, Summarizer.mock_executive_summary all_summaries = String c rest.
Proof.
  unfold Summarizer.mock_executive_summary, Summarizer.executive_head.
  cbv zeta. cbn [String.append]. eauto.
Qed.

Lemma run_days_written_by_scheduler n : forall sch w,
  Dashboard.written_by_scheduler (data_dir w) ->
  Dashboard.written_by_scheduler (data_dir (snd (run_days n sch w))).
Proof.
  induction n as [|n IH]; intros sch w Hdir; cbn [run_days]; [exact Hdir|].
  pose proof (run_daily_pipeline_data_dir sch w) as Hrun.
  destruct (run_daily_pipeline sch w) as [[sch' w'] out]. apply IH.
  cbv beta iota in Hrun. destruct Hrun as [Hsame | [s [_ Hnew]]].
  { rewrite Hsame. exact Hdir. }
  rewrite Hnew.
  apply written_by_scheduler_insert, Hdir.
Qed.

(** X18: the dashboard never shows an executive summary that the scheduler
    wrote.  The scheduler dumps the summary as a JSON string, and
    [display_executive_summary] subscripts what it loads with
    ['executive_summary']: after any number of runs, started from a
    directory that holds no other executive-summary file, the call either
    finds no file or raises [TypeError]. *)
Theorem dashboard_never_shows_executive_summary sch w n :
  Dashboard.written_by_scheduler (data_dir w) ->
  Dashboard.display_executive_summary (data_dir (snd (run_days n sch w))) =
    Ok Dashboard.Info \/
  Dashboard.display_executive_summary (data_dir (snd (run_days n sch w))) =
    Raise TypeError.
Proof.
  intros Hdir.
  rewrite (display_written_by_scheduler _ (run_days_written_by_scheduler n sch w Hdir)).
  destruct (List.filter _ _); [left|right]; reflexivity.
Qed.

(** X19: with the summarizer in fallback mode, every run that completes
    writes the executive summary of the day, and from then on
    [display_executive_summary] raises [TypeError]. *)
Theorem completed_run_breaks_executive_tab sch w :
  Dashboard.written_by_scheduler (data_dir w) ->
  Summarizer.use_mock (summarizer sch) = true ->
  snd (run_daily_pipeline sch w) = Completed ->
  Dashboard.display_executive_summary
    (data_dir (snd (fst (run_daily_pipeline sch w)))) = Raise TypeError.
Proof.
  intros Hdir Hmock Hdone.
  assert (Hnew : exists s,
            data_dir (snd (fst (run_daily_pipeline sch w))) =
            <[executive_file_name (strftime_ymd (S (runs w))) :=
                Written (json_dump (JString s))]> (data_dir w)).
  { revert Hdone. unfold run_daily_pipeline. cbn [next_run web runs set_web llm].
    destruct (Scraper.scrape_headlines Scraper.MAX_HEADLINES_PER_DAY (web w))
      as [headlines web'].
    destruct headlines as [|h0 headlines]; [discriminate|].
    destruct (Clustering.cluster_headlines _ (clusterer sch) _)
      as [cl [cluster_results|e]]; [|discriminate].
    destruct (Clustering.get_cluster_summaries cl cluster_results)
      as [cluster_summaries|e]; [|discriminate].
    pose proof (SummarizerMore.generate_all_summaries_spec cluster_summaries
                  (summarizer sch) (llm w)) as Hall.
    destruct (Summarizer.generate_all_summaries _ _ cluster_summaries)
      as [[sm l] summaries].
    destruct Hall as [_ [_ [_ [_ [Hset _]]]]]. destruct (Hset Hmock) as [Hsm _].
    destruct summaries as [|s0 summaries]; [discriminate|].
    unfold Summarizer.generate_executive_summary. rewrite Hsm.
    destruct (mock_executive_summary_nonempty (s0 :: summaries))
      as [c [rest ->]].
    match goal with
    | |- context [save_results ?a ?b ?c ?d ?e] =>
        pose proof (save_results_outcome a b c d e) as Hsave;
        destruct (save_results a b c d e) as [w' out]
    end.
    destruct Hsave as [_ [_ Hdir']].
    cbn [data_dir runs set_llm set_web] in Hdir'.
    cbn [fst snd]. intros ->. eexists. exact Hdir'. }
  destruct Hnew as [s Hnew].
  rewrite display_written_by_scheduler
    by (rewrite Hnew; apply written_by_scheduler_insert, Hdir).
  rewrite Hnew.
  destruct (List.filter _ _) as [|f fs] eqn:Hfiles; [|reflexivity].
  exfalso.
  assert (Hin : In (executive_file_name (strftime_ymd (S (runs w))),
                    Written (json_dump (JString s)))
                   (List.filter
                      (fun f => String.prefix "executive_summary_" (fst f))
                      (map_to_list
                         (<[executive_file_name (strftime_ymd (S (runs w))) :=
                              Written (json_dump (JString s))]> (data_dir w))))).
  { apply filter_In. split; [|apply executive_file_name_prefix].
    apply list_elem_of_In, elem_of_map_to_list, lookup_insert_eq. }
  rewrite Hfiles in Hin. exact Hin.
Qed.

End Facts.

(** ** The properties at concrete inputs *)

Import Examples.
#[local] Existing Instance Reference.unicode.

Lemma empty_dir_written_by_scheduler :
  Dashboard.written_by_scheduler (H := Reference.json_codec) ∅.
Proof. intros name text Hname. rewrite lookup_empty in Hname. discriminate. Qed.

Lemma first_daily_run_clusters_every_headline_witness :
  let texts :=
    map Scraper.headline
      (fst (Scraper.scrape_headlines (H := Reference.scraper_env)
              Scraper.MAX_HEADLINES_PER_DAY online)) in
  let '(sch', w', out) :=
    run_daily_pipeline (H := Reference.backend) (H4 := Reference.scheduler_env)
      scheduler0 world0 in
  20 <= length texts <= 200 /\
  (out = Completed \/ out = Failed PermissionError) /\
  Clustering.embeddings (clusterer sch') =
    Some (encode (NumericBackend := Reference.backend) EMBEDDING_MODEL texts) /\
  (exists labels,
     Clustering.cluster_labels (clusterer sch') = Some labels /\
     length labels = length texts) /\
  (can_save (H4 := Reference.scheduler_env) world0 = true -> out = Completed).
Proof.
  apply (@first_daily_run_clusters_every_headline Reference.backend
           Reference.pickle Reference.summarizer_env Reference.scraper_env
           Reference.json_codec Reference.scheduler_env Reference.unicode scheduler0 world0).
  reflexivity.
Defined.

Lemma later_runs_reuse_first_day_witness :
  Clustering.embeddings
    (clusterer (fst (run_days (H := Reference.backend)
                       (H4 := Reference.scheduler_env) 3 scheduler0 world0))) =
  Some (encode (NumericBackend := Reference.backend) EMBEDDING_MODEL
          (map Scraper.headline
             (fst (Scraper.scrape_headlines (H := Reference.scraper_env)
                     Scraper.MAX_HEADLINES_PER_DAY online)))).
Proof.
  apply (@later_runs_reuse_first_day Reference.backend
           Reference.pickle Reference.summarizer_env Reference.scraper_env
           Reference.json_codec Reference.scheduler_env Reference.unicode scheduler0 world0 2).
  reflexivity.
Defined.

Lemma dashboard_never_shows_executive_summary_witness :
  Dashboard.display_executive_summary
    (data_dir (snd (run_days (H := Reference.backend)
                      (H4 := Reference.scheduler_env) 2 scheduler0 world0))) =
    Ok Dashboard.Info \/
  Dashboard.display_executive_summary
    (data_dir (snd (run_days (H := Reference.backend)
                      (H4 := Reference.scheduler_env) 2 scheduler0 world0))) =
    Raise TypeError.
Proof.
  apply (@dashboard_never_shows_executive_summary Reference.backend
           Reference.pickle Reference.summarizer_env Reference.scraper_env
           Reference.json_codec Reference.scheduler_env Reference.unicode scheduler0 world0 2).
  exact empty_dir_written_by_scheduler.
Defined.

Lemma completed_run_breaks_executive_tab_witness :
  Dashboard.display_executive_summary
    (data_dir (snd (fst (run_daily_pipeline (H := Reference.backend)
                           (H4 := Reference.scheduler_env) scheduler0 world0)))) =
  Raise TypeError.
Proof.
  apply (@completed_run_breaks_executive_tab Reference.backend
           Reference.pickle Reference.summarizer_env Reference.scraper_env
           Reference.json_codec Reference.scheduler_env Reference.unicode scheduler0 world0).
  - exact empty_dir_written_by_scheduler.
  - reflexivity.
  - vm_compute. reflexivity.
Defined.

End SchedulerFacts.

(** * The clusterer and the summarizer in sequence *)

Module PipelineFacts.

Section Facts.
Context `{NumericBackend} `{Summarizer.SummarizerEnv} `{Unicode}.

Lemma headlines_count_total cs : forall ss,
  Forall2 (fun c s =>
             Summarizer.cluster_id s = fst c /\
             Summarizer.headlines s = Clustering.headlines (snd c) /\
             Summarizer.headlines_count s = length (Clustering.headlines (snd c)))
          cs ss ->
  list_sum (map Summarizer.headlines_count ss) =
    list_sum (map (fun c => length (Clustering.headlines (snd c))) cs) /\
  length ss = length cs.
Proof.
  induction cs as [|c cs IH]; intros ss Hall; inversion Hall as [|? s ? ss' Hc Hrest]; subst.
  - split; reflexivity.
  - destruct (IH ss' Hrest) as [Hsum Hlen]. destruct Hc as [_ [_ Hcount]].
    cbn [map list_sum fold_right length]. unfold list_sum in Hsum.
    rewrite Hcount, Hsum, Hlen. split; reflexivity.
Qed.

Lemma sizes_are_lengths st cluster_results out :
  Clustering.get_cluster_summaries st cluster_results = Ok out ->
  map (fun c => length (Clustering.headlines (snd c))) out =
  map (fun c => Clustering.size (snd c)) out.
Proof.
  intros Hout.
  destruct (ClusteringFacts.get_cluster_summaries_spec _ _ _ Hout) as [_ Hin].
  apply map_ext_in. intros [c s] Hcs. cbn [snd].
  apply Hin, ClusteringMore.summarize_cluster_sized in Hcs.
  destruct Hcs as [-> ->]. apply length_map.
Qed.

(** X20: the fallback executive summary counts every clustered headline.
    When [generate_all_summaries] and then [generate_executive_summary] run
    on the dictionary that [get_cluster_summaries] returned for entries whose
    labels are all below [n_clusters], there is one record per group and
    their [headlines_count] add up to the number of entries.  If the flag is
    set at the end, the text is the fixed report with the number of entries
    and the number of groups filled in; if it is still clear, one request
    was sent for every group and one for the executive summary. *)
Theorem executive_summary_counts_every_headline st cluster_results out sm w :
  Clustering.get_cluster_summaries st cluster_results = Ok out ->
  Forall (fun it => Clustering.cluster_id it < Clustering.n_clusters st)
         cluster_results ->
  let '(sm1, w1, summaries) := Summarizer.generate_all_summaries sm w out in
  let '(sm2, w2, text) := Summarizer.generate_executive_summary sm1 w1 summaries in
  length summaries = length out /\
  list_sum (map Summarizer.headlines_count summaries) = length cluster_results /\
  (Summarizer.use_mock sm2 = true ->
   text = (Summarizer.executive_head ++ str_of_nat (length cluster_results)
           ++ Summarizer.executive_middle ++ str_of_nat (length out)
           ++ Summarizer.executive_tail)%string) /\
  (Summarizer.use_mock sm2 = false ->
   Summarizer.calls w2 = Summarizer.calls w + length out + 1).
Proof.
  intros Hout Hrange.
  pose proof (SummarizerMore.generate_all_summaries_spec out sm w) as Hall.
  destruct (Summarizer.generate_all_summaries sm w out) as [[sm1 w1] summaries].
  destruct Hall as [Hrecords [_ [_ [_ [_ Hclear]]]]].
  destruct (headlines_count_total _ _ Hrecords) as [Hsum Hlen].
  rewrite (sizes_are_lengths _ _ _ Hout),
    (ClusteringMore.summaries_total_size _ _ _ Hout Hrange) in Hsum.
  assert (Hmock : Summarizer.mock_executive_summary summaries =
                  (Summarizer.executive_head ++ str_of_nat (length cluster_results)
                   ++ Summarizer.executive_middle ++ str_of_nat (length out)
                   ++ Summarizer.executive_tail)%string).
  { unfold Summarizer.mock_executive_summary. cbv zeta.
    rewrite Hsum, Hlen. reflexivity. }
  unfold Summarizer.generate_executive_summary.
  destruct (Summarizer.use_mock sm1) eqn:Hflag.
  - repeat split; try assumption; [intros _; exact Hmock|].
    intros Hno. congruence.
  - pose proof (SummarizerMore.generate_text_via_rest_world sm1 w1
                  (Summarizer.executive_prompt summaries)) as Hsent.
    destruct (Summarizer.generate_text_via_rest sm1 w1 _) as [w2 [text|e]];
      cbn [fst] in Hsent; subst w2.
    + repeat split; try assumption; [intros Hyes; congruence|].
      intros _. cbn [Summarizer.sent Summarizer.calls].
      rewrite (Hclear eq_refl). lia.
    + repeat split; try assumption; [intros _; exact Hmock|].
      cbn [Summarizer.set_use_mock Summarizer.use_mock]. discriminate.
Qed.

End Facts.

#[local] Existing Instance Reference.unicode.

Lemma executive_summary_counts_every_headline_witness :
  let '(sm1, w1, summaries) :=
    Summarizer.generate_all_summaries (H := Reference.summarizer_env)
      Examples.mock_summarizer (Examples.process 0) Examples.summaries4 in
  let '(sm2, w2, text) :=
    Summarizer.generate_executive_summary sm1 w1 summaries in
  length summaries = length Examples.summaries4 /\
  list_sum (map Summarizer.headlines_count summaries) = length Examples.results4 /\
  (Summarizer.use_mock sm2 = true ->
   text = (Summarizer.executive_head ++ str_of_nat (length Examples.results4)
           ++ Summarizer.executive_middle
           ++ str_of_nat (length Examples.summaries4)
           ++ Summarizer.executive_tail)%string) /\
  (Summarizer.use_mock sm2 = false ->
   Summarizer.calls w2 =
   Summarizer.calls (Examples.process 0) + length Examples.summaries4 + 1).
Proof.
  apply (@executive_summary_counts_every_headline Reference.backend
           Reference.summarizer_env Reference.unicode Examples.fitted4 Examples.results4).
  - reflexivity.
  - repeat constructor.
Defined.

End PipelineFacts.
